(** * pyro-eval: the model wrapper and the engine evaluator

    A shallow embedding of [src/pyro_eval/model.py] (class [Model]) and
    [src/pyro_eval/engine_evaluation.py] (class [EngineEvaluator]).

    Python objects become records, attribute mutation becomes explicit
    state passing in a state-and-exception monad, Python floats are the
    kernel's binary64 floats, pandas tables are lists of rows, and
    third-party callables (pyroengine, ultralytics, huggingface_hub,
    pandas parsing, the file system) are fields of a class of
    externals. *)

From Stdlib Require Import ZArith List String Ascii Bool Lia Floats.
From stdpp Require Import base option list sorting strings pretty gmap.

Local Open Scope string_scope.
Local Open Scope Z_scope.
Local Set Warnings "-register-all,-inexact-float".

(** ** Python values, exceptions and the effect monad *)

(** The values a dynamically typed attribute, dict entry or table cell
    may hold in this program. *)
Inductive pyval : Type :=
| PyNone
| PyBool (b : bool)
| PyInt (n : Z)
| PyFloat (x : float)
| PyStr (s : string)
| PyList (xs : list pyval)
| PyDeque (items : list pyval) (maxlen : option Z).

(** Exception classes the two files raise or catch.  [NonException]
    stands for the [BaseException] subclasses outside [Exception]
    (KeyboardInterrupt, SystemExit), which [except Exception] lets
    through. *)
Inductive exn_class : Type :=
| ValueError | FileNotFoundError | RuntimeError | KeyError | TypeError
| OverflowError | AttributeError | IndexError | HfHubHTTPError
| OtherException | NonException.

Record exn : Type := mk_exn { exn_cls : exn_class; exn_msg : string }.

Definition is_Exception (e : exn) : bool :=
  match exn_cls e with NonException => false | _ => true end.

Definition is_HfHubHTTPError (e : exn) : bool :=
  match exn_cls e with HfHubHTTPError => true | _ => false end.

Inductive outcome (A : Type) : Type :=
| Ok (a : A)
| Raise (e : exn).
Arguments Ok {A} a.
Arguments Raise {A} e.

(** A computation over a state [S] that returns or raises; a raised
    exception keeps the mutations made before it. *)
Definition M (S A : Type) : Type := S -> outcome A * S.

Definition ret {S A} (a : A) : M S A := fun s => (Ok a, s).

Definition bind {S A B} (m : M S A) (k : A -> M S B) : M S B :=
  fun s => match m s with
           | (Ok a, s') => k a s'
           | (Raise e, s') => (Raise e, s')
           end.

Definition raise {S A} (e : exn) : M S A := fun s => (Raise e, s).

Definition get {S} : M S S := fun s => (Ok s, s).

Definition modify {S} (f : S -> S) : M S unit := fun s => (Ok tt, f s).

Definition lift {S A} (o : outcome A) : M S A := fun s => (o, s).

(** [try: m except C as e: h e], where [catches] is the class test. *)
Definition try_except {S A} (m : M S A) (catches : exn -> bool)
    (h : exn -> M S A) : M S A :=
  fun s => match m s with
           | (Raise e, s') => if catches e then h e s' else (Raise e, s')
           | r => r
           end.

(** [try: m finally: f]; an exception of [f] replaces the pending one. *)
Definition try_finally {S A} (m : M S A) (f : M S unit) : M S A :=
  fun s => match m s with
           | (r, s') => match f s' with
                        | (Ok _, s'') => (r, s'')
                        | (Raise e, s'') => (Raise e, s'')
                        end
           end.

Declare Scope py_scope.
Delimit Scope py_scope with py.
Notation "'let*' x := m 'in' k" := (bind m (fun x => k))
  (at level 10, x name, m at level 100, k at level 200) : py_scope.
Notation "m >> k" := (bind m (fun _ => k))
  (at level 100, k at level 200, right associativity) : py_scope.
Local Open Scope py_scope.

(** ** String operations of the Python standard library *)

(** [s.endswith(suffix)]. *)
Definition endswith (s suffix : string) : bool :=
  let n := String.length s in
  let k := String.length suffix in
  (k <=? n)%nat && String.eqb (substring (n - k) k s) suffix.

(** [s.startswith(p)]. *)
Definition startswith (s p : string) : bool := String.prefix p s.

(** [sub in s]. *)
Fixpoint contains (sub s : string) : bool :=
  String.prefix sub s ||
  match s with
  | EmptyString => false
  | String _ s' => contains sub s'
  end.

(** [s.split(sep)[-1]] for a non-empty [sep]: the text after the last
    separator found by the left-to-right scan.  [skip] counts the
    characters of a separator still to be passed over. *)
Fixpoint split_last_go (sep : string) (skip : nat) (s acc : string) : string :=
  match s with
  | EmptyString => acc
  | String c s' =>
      match skip with
      | S k => split_last_go sep k s' acc
      | O =>
          if String.prefix sep s
          then split_last_go sep (Nat.pred (String.length sep)) s' EmptyString
          else split_last_go sep O s' (acc ++ String c EmptyString)
      end
  end.

Definition split_last (sep s : string) : string :=
  split_last_go sep O s EmptyString.

(** [os.path.basename(p)] on POSIX: the text after the last slash. *)
Fixpoint basename_go (p acc : string) : string :=
  match p with
  | EmptyString => acc
  | String c p' =>
      if Ascii.eqb c "/"%char then basename_go p' EmptyString
      else basename_go p' (acc ++ String c EmptyString)
  end.

Definition basename (p : string) : string := basename_go p EmptyString.

(** [os.path.dirname(p)] is only applied to [__file__], whose value is
    a parameter of the evaluator; [os.path.join] on POSIX. *)
Definition path_join2 (a b : string) : string :=
  if startswith b "/" then b
  else if String.eqb a EmptyString || endswith a "/" then a ++ b
  else a ++ "/" ++ b.

Definition path_join (a : string) (ps : list string) : string :=
  fold_left path_join2 ps a.

(** Truthiness of an optional string ([None] and [""] are falsy). *)
Definition truthy_str (o : option string) : bool :=
  match o with
  | Some s => negb (String.eqb s EmptyString)
  | None => false
  end.

(** ** Data structures shared by both files

    The classes [CustomImage] and [Sequence] of [data_structures.py],
    as records of the attributes the code reads. *)

Module CustomImage.
Record t : Type := mk {
  path : string;
  label : bool;
  boxes : pyval;
  timedelta : pyval
}.
End CustomImage.

Module Sequence.
Record t : Type := mk {
  sequence_id : string;
  label : bool;
  images : list CustomImage.t
}.
End Sequence.

(** A log record of the [logging] module. *)
Inductive log_level : Type := INFO | ERROR.
Definition log_record : Type := (log_level * string)%type.

(** ** [model.py]: class [Model]

    The methods [load_model], [load_onnx], [load_HF],
    [set_inference_params] and [inference]. *)

Module Model.

(** One detected box of ultralytics' [Results.boxes]: what
    [box.xyxyn.cpu().numpy().flatten()] and [box.conf.cpu().item()]
    evaluate to. *)
Record box : Type := mk_box {
  xyxyn : outcome (list float);
  conf : outcome float
}.

(** The third-party objects and calls [model.py] relies on. *)
Class Backends : Type := {
  (** opaque objects: a loaded model, a decoded image, a torch device *)
  model_obj : Type;
  pil_image : Type;
  device_t : Type;
  (** [os.path.isfile] *)
  isfile : string -> bool;
  (** [Classifier(model_path=.., format="onnx", conf=.., max_bbox_size=1)] *)
  Classifier : string -> float -> outcome model_obj;
  (** [YOLO(path)] *)
  YOLO : string -> outcome model_obj;
  (** [os.getenv("HF_TOKEN")] and [HfFolder.get_token()] *)
  getenv_HF_TOKEN : option string;
  HfFolder_get_token : option string;
  (** [hf_hub_download(repo_id=.., filename=..)] *)
  hf_hub_download : string -> string -> outcome unit;
  (** [HfApi().model_info(repo_id, token=..)], reduced to its truthiness *)
  model_info : string -> string -> outcome bool;
  (** [image.load()] *)
  load : CustomImage.t -> outcome pil_image;
  (** [self.model(pil_image)] of an ONNX classifier *)
  call_model : model_obj -> pil_image -> outcome (list (list float));
  (** [self.model.predict(source=.., conf=.., iou=.., imgsz=..,
      device=..)]: a list of results, each reduced to its [boxes] *)
  predict :
    model_obj -> pil_image -> float -> float -> Z -> device_t ->
    outcome (list (list box))
}.

Section WithBackends.
Context {B : Backends}.

Record params : Type := mk_params {
  p_conf : float;
  p_iou : float;
  p_imgsz : Z
}.

(** The attributes of a [Model] instance; an attribute that
    [__init__] has not assigned yet is [None] in [model],
    [inference_params] and [device].  [log] collects the records sent
    to [logging]. *)
Record t : Type := mk {
  model_path : option string;
  model : option model_obj;
  device : option device_t;
  format : option string;
  inference_params : option params;
  log : list log_record
}.

Definition logging (lvl : log_level) (msg : string) : M t unit :=
  modify (fun self =>
    mk (model_path self) (model self) (device self) (format self)
       (inference_params self) (log self ++ [(lvl, msg)])).

Definition set_format (f : string) : M t unit :=
  modify (fun self =>
    mk (model_path self) (model self) (device self) (Some f)
       (inference_params self) (log self)).

(** Reading an attribute that may not be assigned yet. *)
Definition attr {A} (name : string) (proj : t -> option A) : M t A :=
  let* self := get in
  match proj self with
  | Some a => ret a
  | None => raise (mk_exn AttributeError
                     ("'Model' object has no attribute '" ++ name ++ "'"))
  end.

(** [load_onnx]; [path] is [self.model_path]. *)
Definition load_onnx (path : string) : M t model_obj :=
  let* m :=
    try_except
      (let* ip := attr "inference_params" inference_params in
       lift (Classifier path (p_conf ip)))
      is_Exception
      (fun e => raise (mk_exn RuntimeError
         ("Failed to load the ONNX model from " ++ path ++ ": " ++ exn_msg e)))
  in
  logging INFO ("ONNX model loaded successfully from " ++ path) >>
  set_format "onnx" >>
  ret m.

(** [load_HF]; [path] is [self.model_path]. *)
Definition load_HF (path : string) : M t model_obj :=
  let token :=
    if truthy_str getenv_HF_TOKEN then getenv_HF_TOKEN
    else HfFolder_get_token in
  let repo_id := split_last "https://huggingface.co/" path in
  let filename := basename repo_id ++ ".pt" in
  match token with
  | None =>
      raise (mk_exn ValueError
        "Error : no Hugging Face token found. Please authenticate with `huggingface-cli login`.")
  | Some tok =>
      try_except (lift (hf_hub_download repo_id filename))
        is_HfHubHTTPError
        (fun e => raise (mk_exn ValueError
           ("Access denied to  (" ++ repo_id ++ "): " ++ exn_msg e))) >>
      let* info := lift (model_info repo_id tok) in
      if negb info
      then raise (mk_exn ValueError
             ("Error : " ++ path ++ " doesn't exist or is not accessible."))
      else
        set_format "hf" >>
        lift (YOLO path)
  end.

(** [load_model]; the result [None] is Python's [None], returned when
    the function body falls off its end. *)
Definition load_model : M t (option model_obj) :=
  let* self := get in
  if negb (truthy_str (model_path self))
  then raise (mk_exn ValueError
         "No model provided for evaluation, path needs to be specified.")
  else
    let path := default EmptyString (model_path self) in
    logging INFO ("Loading model : " ++ path) >>
    if isfile path then
      if endswith path ".onnx" then
        let* m := load_onnx path in ret (Some m)
      else if endswith path ".pt" then
        set_format "pt" >>
        let* m := lift (YOLO path) in ret (Some m)
      else ret None
    else
      (if contains "huggingface.co" path
       then let* _ := load_HF path in ret tt
       else ret tt) >>
      raise (mk_exn FileNotFoundError ("Model file not found: " ++ path)).

(** [set_inference_params], on the dict reduced to its three optional
    entries. *)
Definition set_inference_params
    (c i : option float) (sz : option Z) : params :=
  mk_params (default 0.05%float c) (default 0%float i) (default 1024 sz).

(** The loop over [results.boxes] building [[*xyxyn, conf]] rows. *)
Fixpoint format_boxes (bs : list box) : outcome (list (list float)) :=
  match bs with
  | [] => Ok []
  | b :: bs' =>
      match xyxyn b with
      | Raise e => Raise e
      | Ok xy =>
          match conf b with
          | Raise e => Raise e
          | Ok c =>
              match format_boxes bs' with
              | Raise e => Raise e
              | Ok rows => Ok ((xy ++ [c])%list :: rows)
              end
          end
      end
  end.

(** The statements guarded by [try] in [inference], for the branch
    that [self.format] selects. *)
Definition inference_body (pil : pil_image) : M t (list (list float)) :=
  let* self := get in
  if bool_decide (format self = Some "onnx") then
    let* m := attr "model" model in
    lift (call_model m pil)
  else
    let* m := attr "model" model in
    let* ip := attr "inference_params" inference_params in
    let* dev := attr "device" device in
    let* res := lift (predict m pil (p_conf ip) (p_iou ip) (p_imgsz ip) dev) in
    match res with
    | [] => raise (mk_exn IndexError "list index out of range")
    | results :: _ => lift (format_boxes results)
    end.

(** [inference]. *)
Definition inference (image : CustomImage.t) : M t (list (list float)) :=
  let* pil := lift (load image) in
  let* self := get in
  try_except (inference_body pil) is_Exception
    (fun e =>
       logging ERROR
         ((if bool_decide (format self = Some "onnx")
           then "Onnx inference failed on "
           else "Inference failed on ")
          ++ CustomImage.path image ++ " : " ++ exn_msg e) >>
       ret []).

End WithBackends.
Arguments t {B}.
End Model.

(** ** [engine_evaluation.py]: class [EngineEvaluator]

    The methods [run_engine_sequence], [run_engine_dataset] and
    [compute_sequence_level_metrics].  The calls to [logging] of this
    class only report; they are left out. *)

(** The attributes of a [pyroengine.engine.Engine] the evaluator reads
    or writes: the threshold, and [_states], a dict of per-camera
    dicts.  Everything else the engine keeps is in [internals]. *)
Module Engine.
Record t : Type := mk {
  conf_thresh : float;
  _states : gmap string (gmap string pyval);
  internals : pyval
}.
End Engine.

(** One row of a prediction table, with the columns of
    [self.results_data]. *)
Module Row.
Record t : Type := mk {
  sequence_id : string;
  image : string;
  sequence_label : bool;
  ground_truth_boxes : pyval;
  image_label : bool;
  prediction : bool;
  confidence : float;
  timedelta : pyval
}.
End Row.

(** A [detection_delay] cell: Python's [None], pandas' [NaT], or a
    [Timedelta] in nanoseconds. *)
Inductive delay : Type :=
| NoDelay
| NaT
| Timedelta (ns : Z).

(** One dict appended to [sequence_metrics]. *)
Module SeqMetric.
Record t : Type := mk {
  sequence_id : string;
  label : bool;
  has_detection : bool;
  detection_delay : delay
}.
End SeqMetric.

(** The dict [compute_sequence_level_metrics] returns; [predictions]
    is flattened into the four [ids_*] lists, and the value [None] of
    ["avg_detection_delay"] is [None]. *)
Module SequenceMetrics.
Record t : Type := mk {
  precision : float;
  recall : float;
  f1 : float;
  tp : nat;
  fp : nat;
  fn : nat;
  tn : nat;
  avg_detection_delay : option Z;
  ids_tp : list string;
  ids_fn : list string;
  ids_fp : list string;
  ids_tn : list string
}.
End SequenceMetrics.

(** A file of the modelled file system: a CSV file is kept as the
    table [pd.read_csv] yields for it. *)
Inductive file : Type :=
| CsvFile (rows : list Row.t)
| BinaryFile.

(** The order in which [groupby] emits its keys: Python's order on
    [str]. *)
Definition str_le (a b : string) : Prop := Is_true (String.leb a b).

#[global] Instance str_le_dec (a b : string) : Decision (str_le a b).
Proof. unfold str_le. apply _. Defined.

Module EngineEvaluator.

(** The third-party objects and calls [engine_evaluation.py] relies
    on, and the helper [compute_metrics] of [utils.py]. *)
Class Externals : Type := {
  pil_image : Type;
  (** [image.load()] *)
  load : CustomImage.t -> outcome pil_image;
  (** [Engine.predict(pil_image)]: the confidence or the exception,
      and the engine after the call *)
  predict : Engine.t -> pil_image -> outcome float * Engine.t;
  (** [os.path.dirname(__file__)] *)
  package_dir : string;
  (** the table [pd.read_csv] yields for what [to_csv] wrote; the
      [sequence_id] column is read back as strings (ids made of
      digits only, which pandas reads back as integers, are not
      covered) *)
  csv_as_read : list Row.t -> list Row.t;
  (** the [OSError] of [os.remove] on a file that is there, when the
      operating system refuses to remove it *)
  os_remove_refused : string -> option exn;
  (** [pd.to_timedelta(.., errors="coerce")] on one cell: the
      duration in nanoseconds, [None] for [NaT] (a value that does
      not parse is coerced to it), or the exception pandas raises on
      a value it does not convert, such as a bool or a list *)
  to_timedelta : pyval -> outcome (option Z);
  (** [Series.mean()] of timedelta values *)
  mean : list Z -> Z;
  (** [compute_metrics(false_positives, true_positives,
      false_negatives)]: entries precision, recall, f1 *)
  compute_metrics : nat -> nat -> nat -> float * float * float
}.

(** The attributes of an [EngineEvaluator], followed by the part of
    the world it acts on: the file system [fs] and the journal
    [csv_writes] of the [to_csv] calls made so far. *)
Record t : Type := mk {
  dataset : list Sequence.t;
  config : gmap string pyval;
  save : bool;
  run_id : string;
  resume : bool;
  predictions_csv : string;
  needs_deletion : bool;
  run_model_path : option string;
  engine : Engine.t;
  result_dir : option string;
  predictions_df : list Row.t;
  fs : gmap string file;
  csv_writes : list (string * list Row.t)
}.

Definition set_engine (e : Engine.t) (self : t) : t :=
  mk (dataset self) (config self) (save self) (run_id self) (resume self)
     (predictions_csv self) (needs_deletion self) (run_model_path self)
     e (result_dir self) (predictions_df self) (fs self) (csv_writes self).

Definition set_result_paths (dir csv : string) (self : t) : t :=
  mk (dataset self) (config self) (save self) (run_id self) (resume self)
     csv (needs_deletion self) (run_model_path self)
     (engine self) (Some dir) (predictions_df self) (fs self)
     (csv_writes self).

Definition set_predictions_df (df : list Row.t) (self : t) : t :=
  mk (dataset self) (config self) (save self) (run_id self) (resume self)
     (predictions_csv self) (needs_deletion self) (run_model_path self)
     (engine self) (result_dir self) df (fs self) (csv_writes self).

Definition set_world (f : gmap string file)
    (w : list (string * list Row.t)) (self : t) : t :=
  mk (dataset self) (config self) (save self) (run_id self) (resume self)
     (predictions_csv self) (needs_deletion self) (run_model_path self)
     (engine self) (result_dir self) (predictions_df self) f w.

(** [deque([], maxlen)]. *)
Definition deque_new (maxlen : pyval) : outcome pyval :=
  match maxlen with
  | PyNone => Ok (PyDeque [] None)
  | PyBool b => Ok (PyDeque [] (Some (Z.b2z b)))
  | PyInt n =>
      if n <? 0 then
        Raise (mk_exn ValueError "maxlen must be non-negative")
      else if 2 ^ 63 <=? n then
        Raise (mk_exn OverflowError
                 "Python int too large to convert to C ssize_t")
      else Ok (PyDeque [] (Some n))
  | _ => Raise (mk_exn TypeError "an integer is required")
  end.

(** [self.config[key]]. *)
Definition config_get (key : string) : M t pyval :=
  let* self := get in
  match config self !! key with
  | Some v => ret v
  | None => raise (mk_exn KeyError ("'" ++ key ++ "'"))
  end.

(** The value [run_engine_sequence] assigns to [self.engine._states]. *)
Definition cleared_states (last_predictions : pyval)
  : gmap string (gmap string pyval) :=
  {[ "-1" := {[ "last_predictions" := last_predictions;
                "ongoing" := PyBool false ]} ]}.

Section WithExternals.
Context {X : Externals}.

(** [self.engine.predict(pil_image)]. *)
Definition engine_predict (pil : pil_image) : M t float :=
  fun self =>
    let '(r, e) := predict (engine self) pil in
    (r, set_engine e self).

(** The [for image in sequence.images] loop of [run_engine_sequence];
    assigning to [.loc[len(sequence_results)]] adds one row at the
    end. *)
Fixpoint predict_images (sequence : Sequence.t)
    (imgs : list CustomImage.t) (sequence_results : list Row.t)
  : M t (list Row.t) :=
  match imgs with
  | [] => ret sequence_results
  | image :: rest =>
      let* pil := lift (load image) in
      let* confidence := engine_predict pil in
      let* self := get in
      let row :=
        Row.mk (Sequence.sequence_id sequence)
               (CustomImage.path image)
               (Sequence.label sequence)
               (CustomImage.boxes image)
               (CustomImage.label image)
               (Engine.conf_thresh (engine self) <? confidence)%float
               confidence
               (CustomImage.timedelta image) in
      predict_images sequence rest (sequence_results ++ [row])
  end.

(** [run_engine_sequence]. *)
Definition run_engine_sequence (sequence : Sequence.t) : M t (list Row.t) :=
  let* sequence_results :=
    predict_images sequence (Sequence.images sequence) [] in
  let* nb := config_get "nb_consecutive_frames" in
  let* dq := lift (deque_new nb) in
  modify (fun self =>
    set_engine
      (Engine.mk (Engine.conf_thresh (engine self))
                 (cleared_states dq)
                 (Engine.internals (engine self)))
      self) >>
  ret sequence_results.

(** [os.path.isfile], [pd.read_csv], [DataFrame.to_csv] and
    [os.remove] on the modelled file system. *)
Definition isfile (self : t) (p : string) : bool :=
  negb (String.eqb p EmptyString) && bool_decide (is_Some (fs self !! p)).

Definition read_csv (p : string) : M t (list Row.t) :=
  let* self := get in
  match fs self !! p with
  | Some (CsvFile rows) => ret rows
  | Some BinaryFile => raise (mk_exn OtherException "Error tokenizing data")
  | None => raise (mk_exn FileNotFoundError p)
  end.

Definition to_csv (p : string) (df : list Row.t) : M t unit :=
  modify (fun self =>
    set_world (<[p := CsvFile (csv_as_read df)]> (fs self))
              (csv_writes self ++ [(p, df)]) self).

Definition os_remove (p : option string) : M t unit :=
  match p with
  | None => raise (mk_exn TypeError "remove: path should be string")
  | Some p =>
      let* self := get in
      if bool_decide (is_Some (fs self !! p))
      then match os_remove_refused p with
           | Some e => raise e
           | None => modify (set_world (delete p (fs self)) (csv_writes self))
           end
      else raise (mk_exn FileNotFoundError p)
  end.

(** The set built by [set(self.predictions_df["sequence_id"].to_list())]. *)
Definition seen_sequence_ids (self : t) : gset string :=
  list_to_set (Row.sequence_id <$> predictions_df self).

(** One iteration of the [for sequence in self.dataset] loop. *)
Definition loop_body (sequence : Sequence.t) : M t unit :=
  let* self := get in
  if resume self &&
     bool_decide (Sequence.sequence_id sequence ∈ seen_sequence_ids self)
  then ret tt
  else
    let* sequence_results := run_engine_sequence sequence in
    modify (fun self =>
      set_predictions_df (predictions_df self ++ sequence_results) self) >>
    let* self := get in
    if save self && (Z.of_nat (length (predictions_df self)) mod 50 =? 0)
    then to_csv (predictions_csv self) (predictions_df self)
    else ret tt.

Fixpoint dataset_loop (seqs : list Sequence.t) : M t unit :=
  match seqs with
  | [] => ret tt
  | sequence :: rest => loop_body sequence >> dataset_loop rest
  end.

(** The [finally] block: a bare [except] catches everything; the
    call to [logging.error] in it is left out. *)
Definition cleanup : M t unit :=
  let* self := get in
  if needs_deletion self
  then try_except (os_remove (run_model_path self)) (fun _ => true)
         (fun _ => ret tt)
  else ret tt.

(** [run_engine_dataset]; [os.makedirs] always succeeds here. *)
Definition run_engine_dataset : M t unit :=
  let* self := get in
  (if save self then
     let dir :=
       path_join package_dir ["data/results/engine"; run_id self] in
     modify (set_result_paths dir (path_join dir ["results.csv"]))
   else ret tt) >>
  let* self := get in
  (if isfile self (predictions_csv self) && resume self
   then let* df := read_csv (predictions_csv self) in
        modify (set_predictions_df df)
   else modify (set_predictions_df [])) >>
  let* self := get in
  try_finally (dataset_loop (dataset self)) cleanup >>
  let* self := get in
  if save self
  then to_csv (predictions_csv self) (predictions_df self)
  else ret tt.

(** [groupby("sequence_id")]: one group per distinct key, keys in
    sorted order, rows of a group in table order. *)
Definition group_keys (df : list Row.t) : list string :=
  merge_sort str_le (remove_dups (Row.sequence_id <$> df)).

Definition groupby_sequence_id (df : list Row.t)
  : list (string * list Row.t) :=
  (fun k => (k, filter (fun r => Row.sequence_id r = k) df)) <$> group_keys df.

(** [Series.min()], which skips [NaT]; [np.min] of a Series calls it. *)
Definition series_min (xs : list (option Z)) : delay :=
  match omap id xs with
  | [] => NaT
  | x :: rest => Timedelta (foldl Z.min x rest)
  end.

Definition np_min (xs : list (option Z)) : delay := series_min xs.

(** [group["sequence_label"].iloc[0]]. *)
Definition first_label (group : list Row.t) : outcome bool :=
  match group with
  | r :: _ => Ok (Row.sequence_label r)
  | [] => Raise (mk_exn IndexError
                   "single positional indexer is out-of-bounds")
  end.

(** [pd.to_timedelta(series, errors="coerce")]: the cells are
    converted in order, and the call raises at the first one pandas
    does not convert. *)
Fixpoint to_timedelta_series (cells : list pyval)
  : outcome (list (option Z)) :=
  match cells with
  | [] => Ok []
  | v :: rest =>
      match to_timedelta v with
      | Raise e => Raise e
      | Ok d =>
          match to_timedelta_series rest with
          | Raise e => Raise e
          | Ok ds => Ok (d :: ds)
          end
      end
  end.

(** The body of the [for sequence_id, group in ..] loop. *)
Definition sequence_metric (sequence_id : string) (group : list Row.t)
  : outcome SeqMetric.t :=
  match first_label group with
  | Raise e => Raise e
  | Ok sequence_label =>
      let has_detection := existsb Row.prediction group in
      let detection_timedeltas :=
        Row.timedelta <$> filter (fun r => Is_true (Row.prediction r)) group in
      match to_timedelta_series detection_timedeltas with
      | Raise e => Raise e
      | Ok detection_timedeltas =>
          let detection_delay :=
            if negb (bool_decide (detection_timedeltas = []))
            then series_min detection_timedeltas else NoDelay in
          let detection_delay :=
            if negb (bool_decide (detection_timedeltas = []))
            then np_min detection_timedeltas else NoDelay in
          Ok (SeqMetric.mk sequence_id sequence_label has_detection
                           detection_delay)
      end
  end.

Fixpoint sequence_metrics_of (groups : list (string * list Row.t))
  : outcome (list SeqMetric.t) :=
  match groups with
  | [] => Ok []
  | (k, g) :: rest =>
      match sequence_metric k g with
      | Raise e => Raise e
      | Ok m =>
          match sequence_metrics_of rest with
          | Raise e => Raise e
          | Ok ms => Ok (m :: ms)
          end
      end
  end.

(** [isnull()] and [dropna()] on a [detection_delay] column. *)
Definition isnull (d : delay) : bool :=
  match d with Timedelta _ => false | _ => true end.

Definition dropna (ds : list delay) : list Z :=
  omap (fun d => match d with Timedelta ns => Some ns | _ => None end) ds.

(** The four boolean masks applied to [sequence_df]. *)
Definition mask (label has_detection : bool) (m : SeqMetric.t) : bool :=
  Bool.eqb (SeqMetric.label m) label &&
  Bool.eqb (SeqMetric.has_detection m) has_detection.

(** [compute_sequence_level_metrics]; a frame built from an empty
    list of dicts has no column, so selecting ["label"] raises.  The
    local [avg_detection_delay] is bound only when some delay of a
    true-positive sequence is not null; the calls to [logging] are
    left out. *)
Definition compute_sequence_level_metrics (self : t)
  : outcome SequenceMetrics.t :=
  match sequence_metrics_of (groupby_sequence_id (predictions_df self)) with
  | Raise e => Raise e
  | Ok [] => Raise (mk_exn KeyError "'label'")
  | Ok sequence_df =>
      let tp_sequences := List.filter (mask true true) sequence_df in
      let fn_sequences := List.filter (mask true false) sequence_df in
      let fp_sequences := List.filter (mask false true) sequence_df in
      let tn_sequences := List.filter (mask false false) sequence_df in
      let '(precision, recall, f1) :=
        compute_metrics (length fp_sequences) (length tp_sequences)
                        (length fn_sequences) in
      let all_null :=
        forallb isnull (SeqMetric.detection_delay <$> tp_sequences) in
      let avg_detection_delay :=
        if negb all_null
        then Some (mean (dropna (SeqMetric.detection_delay <$> tp_sequences)))
        else None in
      Ok (SequenceMetrics.mk precision recall f1
            (length tp_sequences) (length fp_sequences)
            (length fn_sequences) (length tn_sequences)
            (if negb all_null then avg_detection_delay else None)
            (SeqMetric.sequence_id <$> tp_sequences)
            (SeqMetric.sequence_id <$> fn_sequences)
            (SeqMetric.sequence_id <$> fp_sequences)
            (SeqMetric.sequence_id <$> tn_sequences))
  end.

End WithExternals.
End EngineEvaluator.

(** * Properties *)

(** ** [Model.inference] and [Model.load_model] *)

Section ModelProperties.
Context {B : Model.Backends}.

(** The state after [logging.<lvl>(msg)]. *)
Definition logged (lvl : log_level) (msg : string) (self : Model.t)
  : Model.t :=
  Model.mk (Model.model_path self) (Model.model self) (Model.device self)
           (Model.format self) (Model.inference_params self)
           (Model.log self ++ [(lvl, msg)]).

(** The model call of [inference] raises [e]: [self.model(pil_image)]
    when the format is ["onnx"], [self.model.predict(..)] otherwise. *)
Definition model_call_raises (self : Model.t) (pil : Model.pil_image)
    (e : exn) : Prop :=
  exists m, Model.model self = Some m /\
    if bool_decide (Model.format self = Some "onnx")
    then Model.call_model m pil = Raise e
    else exists ip dev,
           Model.inference_params self = Some ip /\
           Model.device self = Some dev /\
           Model.predict m pil (Model.p_conf ip) (Model.p_iou ip)
                         (Model.p_imgsz ip) dev = Raise e.

(** The message [inference] logs for an exception [e]. *)
Definition failure_message (self : Model.t) (image : CustomImage.t)
    (e : exn) : string :=
  (if bool_decide (Model.format self = Some "onnx")
   then "Onnx inference failed on " else "Inference failed on ")
  ++ CustomImage.path image ++ " : " ++ exn_msg e.

Lemma attr_Some {A} name (proj : Model.t -> option A) self a :
  proj self = Some a -> Model.attr name proj self = (Ok a, self).
Proof. intros H. unfold Model.attr, bind, get, ret. now rewrite H. Qed.

Lemma attr_None {A} name (proj : Model.t -> option A) self :
  proj self = None ->
  exists e, Model.attr name proj self = (Raise e, self) /\
            is_Exception e = true.
Proof.
  intros H. unfold Model.attr, bind, get, raise. rewrite H. eauto.
Qed.

(** The guarded statements leave the attributes as they were. *)
Lemma inference_body_state pil self :
  (Model.inference_body pil self).2 = self.
Proof.
  cbv [Model.inference_body Model.attr bind get lift raise ret].
  destruct (bool_decide _); destruct (Model.model self); simpl; try done;
    destruct (Model.inference_params self); simpl; try done;
    destruct (Model.device self); simpl; try done.
  match goal with
  | |- context [Model.predict ?m ?i ?c ?u ?z ?d] =>
      destruct (Model.predict m i c u z d) as [[|r rs]|]; done
  end.
Qed.

(** Whatever [Exception] the guarded statements raise, [inference]
    returns the empty prediction and logs the failure. *)
Lemma inference_catches self image pil e :
  Model.load image = Ok pil ->
  (Model.inference_body pil self).1 = Raise e ->
  is_Exception e = true ->
  Model.inference image self =
    (Ok [], logged ERROR (failure_message self image e) self).
Proof.
  intros Hload Hbody Hexc.
  pose proof (inference_body_state pil self) as Hst.
  unfold Model.inference, bind, lift, get, try_except. rewrite Hload.
  destruct (Model.inference_body pil self) as [r s']. simpl in *. subst.
  now rewrite Hexc.
Qed.

Lemma model_call_raises_body self pil e :
  model_call_raises self pil e ->
  (Model.inference_body pil self).1 = Raise e.
Proof.
  intros (m & Hm & Hcall).
  unfold Model.inference_body, bind, get.
  destruct (bool_decide _).
  - rewrite (attr_Some _ _ _ _ Hm). unfold lift. now rewrite Hcall.
  - destruct Hcall as (ip & dev & Hip & Hdev & Hcall).
    rewrite (attr_Some _ _ _ _ Hm), (attr_Some _ _ _ _ Hip),
      (attr_Some _ _ _ _ Hdev).
    unfold lift. now rewrite Hcall.
Qed.

(** C9.  When the image loads and the model call raises an
    [Exception], [Model.inference] returns the empty prediction, adds
    one error record to the log and leaves every attribute as it was;
    the exception does not propagate. *)
Theorem inference_recovers_from_model_failure
    (self : Model.t) (image : CustomImage.t) (pil : Model.pil_image)
    (e : exn) :
  Model.load image = Ok pil ->
  model_call_raises self pil e ->
  is_Exception e = true ->
  Model.inference image self =
    (Ok [], logged ERROR (failure_message self image e) self).
Proof.
  intros Hload Hcall Hexc.
  apply (inference_catches self image pil e);
    auto using model_call_raises_body.
Qed.

(** [inference] returns normally whenever the image loads and nothing
    outside [Exception] is raised under the [try]. *)
Lemma inference_total self image pil :
  Model.load image = Ok pil ->
  (forall e, (Model.inference_body pil self).1 = Raise e ->
             is_Exception e = true) ->
  exists prediction s', Model.inference image self = (Ok prediction, s').
Proof.
  intros Hload Hexc.
  destruct ((Model.inference_body pil self).1) as [p|e] eqn:Hb.
  - exists p, self. pose proof (inference_body_state pil self) as Hst.
    unfold Model.inference, bind, lift, get, try_except. rewrite Hload.
    destruct (Model.inference_body pil self) as [r s']. simpl in *.
    now subst.
  - eexists _, _. apply (inference_catches self image pil e); auto.
Qed.

(** *** [load_model] *)

Definition not_found (path : string) : exn :=
  mk_exn FileNotFoundError ("Model file not found: " ++ path).

Lemma load_model_path self path :
  Model.model_path self = Some path -> path <> "" ->
  Model.load_model self =
    let s1 := logged INFO ("Loading model : " ++ path) self in
    if Model.isfile path then
      if endswith path ".onnx" then
        (let* m := Model.load_onnx path in ret (Some m)) s1
      else if endswith path ".pt" then
        (Model.set_format "pt" >>
         let* m := lift (Model.YOLO path) in ret (Some m)) s1
      else (Ok None, s1)
    else
      ((if contains "huggingface.co" path
        then let* _ := Model.load_HF path in ret tt
        else ret tt) >>
       raise (not_found path)) s1.
Proof.
  intros Hp Hne. unfold Model.load_model, bind at 1, get.
  rewrite Hp. simpl.
  destruct (String.eqb_spec path ""); [done|]. simpl.
  unfold bind at 1, Model.logging, modify. fold (logged INFO ("Loading model : " ++ path) self).
  destruct (Model.isfile path); [|done].
  destruct (endswith path ".onnx"); [done|].
  destruct (endswith path ".pt"); done.
Qed.

Definition no_model_provided : exn :=
  mk_exn ValueError
    "No model provided for evaluation, path needs to be specified.".

(** C10, amended.  A [model_path] that is [None] or empty makes
    [load_model] raise [ValueError], before anything is logged.  For
    a non-empty [model_path] that is not an existing file,
    [load_model] never returns: it raises [FileNotFoundError], unless
    the path contains ["huggingface.co"] and [load_HF] itself raises,
    in which case that exception propagates; a model [load_HF]
    returns is discarded.  For an existing file whose name ends in
    neither [.onnx] nor [.pt] it returns [None]. *)
Theorem load_model_missing_or_unknown (self : Model.t) :
  (Model.model_path self = None \/ Model.model_path self = Some "" ->
   Model.load_model self = (Raise no_model_provided, self)) /\
  (forall path,
     Model.model_path self = Some path -> path <> "" ->
     let s1 := logged INFO ("Loading model : " ++ path) self in
     (Model.isfile path = false ->
        Model.load_model self =
          (if contains "huggingface.co" path then
             match Model.load_HF path s1 with
             | (Ok _, s2) => (Raise (not_found path), s2)
             | (Raise e, s2) => (Raise e, s2)
             end
           else (Raise (not_found path), s1)) /\
        forall m s', Model.load_model self <> (Ok m, s')) /\
     (Model.isfile path = true ->
        endswith path ".onnx" = false -> endswith path ".pt" = false ->
        Model.load_model self = (Ok None, s1))).
Proof.
  split.
  - intros Hp. unfold Model.load_model, bind, get.
    by destruct Hp as [-> | ->].
  - intros path Hp Hne s1. rewrite (load_model_path _ _ Hp Hne). fold s1.
    split.
    + intros ->. cbv [bind raise ret].
      destruct (contains _ _); [|done].
      destruct (Model.load_HF path s1) as [[m|e] s2]; done.
    + intros -> -> ->. reflexivity.
Qed.

End ModelProperties.

(** *** Concrete runs of [model.py] *)

(** A machine with one local file that is not a model, no Hugging Face
    token, and a model whose calls fail. *)
Definition failing_backends : Model.Backends := {|
  Model.model_obj := unit;
  Model.pil_image := unit;
  Model.device_t := unit;
  Model.isfile := fun p => String.eqb p "weights/notes.txt";
  Model.Classifier := fun _ _ => Ok tt;
  Model.YOLO := fun _ => Ok tt;
  Model.getenv_HF_TOKEN := None;
  Model.HfFolder_get_token := None;
  Model.hf_hub_download := fun _ _ => Ok tt;
  Model.model_info := fun _ _ => Ok true;
  Model.load := fun _ => Ok tt;
  Model.call_model := fun _ _ =>
    Raise (mk_exn RuntimeError "invalid input shape");
  Model.predict := fun _ _ _ _ _ _ =>
    Raise (mk_exn RuntimeError "out of memory")
|}.

(** The same machine with a token in the environment. *)
Definition hf_backends : Model.Backends := {|
  Model.model_obj := unit;
  Model.pil_image := unit;
  Model.device_t := unit;
  Model.isfile := fun p => String.eqb p "weights/notes.txt";
  Model.Classifier := fun _ _ => Ok tt;
  Model.YOLO := fun _ => Ok tt;
  Model.getenv_HF_TOKEN := Some "hf_token";
  Model.HfFolder_get_token := None;
  Model.hf_hub_download := fun _ _ => Ok tt;
  Model.model_info := fun _ _ => Ok true;
  Model.load := fun _ => Ok tt;
  Model.call_model := fun _ _ => Ok [];
  Model.predict := fun _ _ _ _ _ _ => Ok [[]]
|}.

Definition model_at {B : Model.Backends} (path : option string)
    (m : option Model.model_obj) (dev : option Model.device_t)
    (fmt : option string) : Model.t :=
  Model.mk path m dev fmt (Some (Model.set_inference_params None None None))
           [].

Definition frame_0 : CustomImage.t :=
  CustomImage.mk "seq_a/0001.jpg" true (PyList []) (PyInt 0).

Example endswith_onnx : endswith "weights/best.onnx" ".onnx" = true.
Proof. reflexivity. Qed.

Example endswith_short : endswith "pt" ".pt" = false.
Proof. reflexivity. Qed.

Example contains_hf :
  contains "huggingface.co" "https://huggingface.co/pyronear/yolov8s" = true.
Proof. reflexivity. Qed.

Example split_last_repo :
  split_last "https://huggingface.co/"
             "https://huggingface.co/pyronear/yolov8s" = "pyronear/yolov8s".
Proof. reflexivity. Qed.

Example basename_repo : basename "pyronear/yolov8s" = "yolov8s".
Proof. reflexivity. Qed.

Example path_join_results :
  path_join "/opt/pyro_eval" ["data/results/engine"; "run-1"; "results.csv"]
  = "/opt/pyro_eval/data/results/engine/run-1/results.csv".
Proof. reflexivity. Qed.

(** An ONNX model whose call raises: the frame yields no detection. *)
Lemma inference_recovers_witness :
  let self := model_at (B := failing_backends)
                (Some "weights/best.onnx") (Some tt) (Some tt) (Some "onnx") in
  Model.inference frame_0 self =
    (Ok [],
     logged ERROR
       "Onnx inference failed on seq_a/0001.jpg : invalid input shape" self).
Proof.
  intros self.
  apply (inference_recovers_from_model_failure (B := failing_backends)
           self frame_0 tt (mk_exn RuntimeError "invalid input shape")).
  - reflexivity.
  - exists tt. split; reflexivity.
  - reflexivity.
Defined.

(** The same for a model called through [predict]. *)
Example inference_recovers_yolo :
  let self := model_at (B := failing_backends)
                (Some "weights/best.pt") (Some tt) (Some tt) None in
  Model.inference frame_0 self =
    (Ok [],
     logged ERROR "Inference failed on seq_a/0001.jpg : out of memory" self).
Proof. reflexivity. Qed.

(** An exception outside [Exception] is not caught. *)
Example inference_lets_interrupt_through :
  let B := {|
    Model.model_obj := unit; Model.pil_image := unit;
    Model.device_t := unit;
    Model.isfile := fun _ => false;
    Model.Classifier := fun _ _ => Ok tt;
    Model.YOLO := fun _ => Ok tt;
    Model.getenv_HF_TOKEN := None;
    Model.HfFolder_get_token := None;
    Model.hf_hub_download := fun _ _ => Ok tt;
    Model.model_info := fun _ _ => Ok true;
    Model.load := fun _ => Ok tt;
    Model.call_model := fun _ _ =>
      Raise (mk_exn NonException "KeyboardInterrupt");
    Model.predict := fun _ _ _ _ _ _ => Ok [[]]
  |} in
  (Model.inference frame_0
     (model_at (B := B) (Some "m.onnx") (Some tt) (Some tt) (Some "onnx"))).1
  = Raise (mk_exn NonException "KeyboardInterrupt").
Proof. reflexivity. Qed.

(** A Hugging Face path whose checks all pass, and a local file that
    is not a model. *)
Lemma load_model_missing_or_unknown_witness :
  let path := "https://huggingface.co/pyronear/yolov8s" in
  let self := model_at (B := hf_backends) (Some path) None None None in
  let s1 := logged INFO ("Loading model : " ++ path) self in
  (Model.isfile (Backends := hf_backends) path = false ->
     Model.load_model self =
       (if contains "huggingface.co" path then
          match Model.load_HF path s1 with
          | (Ok _, s2) => (Raise (not_found path), s2)
          | (Raise e, s2) => (Raise e, s2)
          end
        else (Raise (not_found path), s1)) /\
     forall m s', Model.load_model self <> (Ok m, s')) /\
  (Model.isfile (Backends := hf_backends) path = true ->
     endswith path ".onnx" = false -> endswith path ".pt" = false ->
     Model.load_model self = (Ok None, s1)).
Proof.
  intros path self.
  apply (proj2 (load_model_missing_or_unknown (B := hf_backends) self) path).
  - reflexivity.
  - discriminate.
Defined.

(** Without a [model_path], and with an empty one. *)
Example load_model_without_path :
  let self := model_at (B := hf_backends) None None None None in
  Model.load_model self = (Raise no_model_provided, self).
Proof. reflexivity. Qed.

Example load_model_empty_path :
  let self := model_at (B := hf_backends) (Some "") None None None in
  Model.load_model self = (Raise no_model_provided, self).
Proof. reflexivity. Qed.

Example load_model_hf_discarded :
  let path := "https://huggingface.co/pyronear/yolov8s" in
  Model.load_model (model_at (B := hf_backends) (Some path) None None None) =
    (Raise (not_found path),
     Model.mk (Some path) None None (Some "hf")
       (Some (Model.set_inference_params None None None))
       [(INFO, "Loading model : " ++ path)]).
Proof. reflexivity. Qed.

Example load_model_unknown_extension :
  (Model.load_model
     (model_at (B := hf_backends) (Some "weights/notes.txt") None None None)).1
  = Ok None.
Proof. reflexivity. Qed.

(** Two paths that are not existing files and for which [load_model]
    raises [ValueError], not [FileNotFoundError]: the empty path, and
    a Hugging Face path on a machine without a token. *)
Lemma load_model_raises_ValueError :
  Model.isfile (Backends := failing_backends) "" = false /\
  (Model.load_model (model_at (B := failing_backends) (Some "") None None None)).1
  = Raise (mk_exn ValueError
       "No model provided for evaluation, path needs to be specified.") /\
  Model.isfile (Backends := failing_backends)
    "https://huggingface.co/pyronear/yolov8s" = false /\
  (Model.load_model
     (model_at (B := failing_backends)
        (Some "https://huggingface.co/pyronear/yolov8s") None None None)).1
  = Raise (mk_exn ValueError
       "Error : no Hugging Face token found. Please authenticate with `huggingface-cli login`.").
Proof. repeat split; reflexivity. Qed.

(** ** [EngineEvaluator.run_engine_sequence] *)

(** Python's [x > y] on floats is false when they compare equal. *)
Lemma float_gt_strict (x y : float) :
  PrimFloat.eqb x y = true -> PrimFloat.ltb y x = false.
Proof.
  rewrite FloatAxioms.eqb_spec, FloatAxioms.ltb_spec.
  unfold SpecFloat.SFeqb, SpecFloat.SFltb.
  destruct (Prim2SF x) as [s1|s1| |s1 m1 e1], (Prim2SF y) as [s2|s2| |s2 m2 e2];
    simpl; try done; try (destruct s1, s2; done).
  destruct s1, s2; try done.
  - rewrite (Z.compare_antisym e1 e2).
    destruct (e1 ?= e2); simpl; try done.
    change (Pos.compare_cont Eq m1 m2) with (m1 ?= m2)%positive.
    change (Pos.compare_cont Eq m2 m1) with (m2 ?= m1)%positive.
    rewrite (Pos.compare_antisym m1 m2).
    destruct (m1 ?= m2)%positive; done.
  - rewrite (Z.compare_antisym e1 e2).
    destruct (e1 ?= e2); simpl; try done.
    change (Pos.compare_cont Eq m1 m2) with (m1 ?= m2)%positive.
    change (Pos.compare_cont Eq m2 m1) with (m2 ?= m1)%positive.
    rewrite (Pos.compare_antisym m1 m2).
    destruct (m1 ?= m2)%positive; done.
Qed.

Section SequenceRunner.
Context {X : EngineEvaluator.Externals}.
Import EngineEvaluator.
Local Open Scope list_scope.

(** What the engine answers when the frames are fed to it in order,
    starting from engine [e]: for each frame the confidence and the
    engine left by the call; [None] when a frame fails to load or the
    engine raises. *)
Fixpoint engine_answers (e : Engine.t) (imgs : list CustomImage.t)
  : option (list (float * Engine.t)) :=
  match imgs with
  | [] => Some []
  | image :: rest =>
      match load image with
      | Raise _ => None
      | Ok pil =>
          match predict e pil with
          | (Raise _, _) => None
          | (Ok c, e') =>
              match engine_answers e' rest with
              | Some tr => Some ((c, e') :: tr)
              | None => None
              end
          end
      end
  end.

(** The engine left after a run of answers. *)
Definition final_engine (e : Engine.t) (tr : list (float * Engine.t))
  : Engine.t :=
  foldl (fun _ a => a.2) e tr.

(** The record of one frame, given the engine's answer for it. *)
Definition record_matches (sequence : Sequence.t) (image : CustomImage.t)
    (answer : float * Engine.t) (row : Row.t) : Prop :=
  Row.sequence_id row = Sequence.sequence_id sequence /\
  Row.image row = CustomImage.path image /\
  Row.sequence_label row = Sequence.label sequence /\
  Row.ground_truth_boxes row = CustomImage.boxes image /\
  Row.image_label row = CustomImage.label image /\
  Row.timedelta row = CustomImage.timedelta image /\
  Row.confidence row = answer.1 /\
  Row.prediction row = (Engine.conf_thresh answer.2 <? answer.1)%float.

(** Frames, answers and rows, position by position. *)
Inductive records_match (sequence : Sequence.t)
  : list CustomImage.t -> list (float * Engine.t) -> list Row.t -> Prop :=
| records_match_nil : records_match sequence [] [] []
| records_match_cons image imgs a tr row rows :
    record_matches sequence image a row ->
    records_match sequence imgs tr rows ->
    records_match sequence (image :: imgs) (a :: tr) (row :: rows).

Lemma records_match_length sequence imgs tr rows :
  records_match sequence imgs tr rows ->
  length rows = length imgs /\ length tr = length imgs.
Proof. induction 1; simpl; lia. Qed.

Lemma records_match_lookup sequence imgs tr rows i image :
  records_match sequence imgs tr rows ->
  imgs !! i = Some image ->
  exists a row, tr !! i = Some a /\ rows !! i = Some row /\
                record_matches sequence image a row.
Proof.
  intros H. revert i. induction H; intros [|i] Hi; simplify_eq/=; eauto.
Qed.

Lemma final_engine_cons e c e' tr :
  final_engine e ((c, e') :: tr) = final_engine e' tr.
Proof. reflexivity. Qed.

(** The loop, characterised: it returns exactly when every frame
    loads and the engine answers, and then appends the matching rows
    and leaves the engine of the last answer. *)
Lemma predict_images_inv sequence imgs acc self rows self' :
  predict_images sequence imgs acc self = (Ok rows, self') ->
  exists tr new,
    engine_answers (engine self) imgs = Some tr /\
    rows = acc ++ new /\
    records_match sequence imgs tr new /\
    self' = set_engine (final_engine (engine self) tr) self.
Proof.
  revert acc self. induction imgs as [|image imgs IH]; intros acc self.
  - cbn. intros [= <- <-]. exists [], []. rewrite app_nil_r.
    split_and!; [done|done|constructor|by destruct self].
  - cbn [predict_images engine_answers].
    cbv [bind lift engine_predict get].
    destruct (load image) as [pil|e]; [|done].
    destruct (predict (engine self) pil) as [[c|e] e']; [|done].
    intros H. apply IH in H as (tr & new & Htr & -> & Hm & ->).
    cbn in Htr. rewrite Htr.
    eexists ((c, e') :: tr), (_ :: new). split_and!.
    + done.
    + by rewrite <- app_assoc.
    + constructor; [|done]. by repeat split.
    + by destruct self.
Qed.

Lemma predict_images_ok sequence imgs acc self tr :
  engine_answers (engine self) imgs = Some tr ->
  exists new,
    predict_images sequence imgs acc self =
      (Ok (acc ++ new), set_engine (final_engine (engine self) tr) self) /\
    records_match sequence imgs tr new.
Proof.
  revert acc self tr. induction imgs as [|image imgs IH]; intros acc self tr.
  - cbn. intros [= <-]. exists []. rewrite app_nil_r.
    split; [by destruct self|constructor].
  - cbn [predict_images engine_answers].
    cbv [bind lift engine_predict get].
    destruct (load image) as [pil|e]; [|done].
    destruct (predict (engine self) pil) as [[c|e] e']; [|done].
    destruct (engine_answers e' imgs) as [tr'|] eqn:Htr; [|done].
    intros [= <-].
    destruct (IH (acc ++ [Row.mk (Sequence.sequence_id sequence)
                 (CustomImage.path image) (Sequence.label sequence)
                 (CustomImage.boxes image) (CustomImage.label image)
                 (Engine.conf_thresh e' <? c)%float c
                 (CustomImage.timedelta image)])
                (set_engine e' self) tr' Htr) as (new & Hrun & Hm).
    eexists (_ :: new). split.
    + cbn. rewrite Hrun. rewrite <- app_assoc. by destruct self.
    + constructor; [|done]. by repeat split.
Qed.

(** The engine [run_engine_sequence] leaves: threshold and internals
    of [e], and the cleared states. *)
Definition reset_engine (e : Engine.t) (dq : pyval) : Engine.t :=
  Engine.mk (Engine.conf_thresh e) (cleared_states dq) (Engine.internals e).

Lemma run_engine_sequence_inv sequence self rows self' :
  run_engine_sequence sequence self = (Ok rows, self') ->
  exists tr nb dq,
    engine_answers (engine self) (Sequence.images sequence) = Some tr /\
    records_match sequence (Sequence.images sequence) tr rows /\
    config self !! "nb_consecutive_frames" = Some nb /\
    deque_new nb = Ok dq /\
    self' = set_engine (reset_engine (final_engine (engine self) tr) dq) self.
Proof.
  unfold run_engine_sequence, bind at 1.
  destruct (predict_images _ _ _ _) as [[rs|e] s1] eqn:Hloop; [|done].
  apply predict_images_inv in Hloop as (tr & new & Htr & -> & Hm & ->).
  cbv [bind config_get get ret raise lift modify]. cbn.
  destruct (config self !! "nb_consecutive_frames") as [nb|] eqn:Hnb; [|done].
  destruct (deque_new nb) as [dq|e] eqn:Hdq; [|done].
  intros [= <- <-]. exists tr, nb, dq. split_and!; try done;
    by destruct self.
Qed.

Lemma run_engine_sequence_ok sequence self tr nb dq :
  engine_answers (engine self) (Sequence.images sequence) = Some tr ->
  config self !! "nb_consecutive_frames" = Some nb ->
  deque_new nb = Ok dq ->
  exists rows,
    run_engine_sequence sequence self =
      (Ok rows,
       set_engine (reset_engine (final_engine (engine self) tr) dq) self) /\
    records_match sequence (Sequence.images sequence) tr rows.
Proof.
  intros Htr Hnb Hdq.
  destruct (predict_images_ok sequence _ [] self tr Htr) as (new & Hrun & Hm).
  exists new. split; [|done].
  unfold run_engine_sequence, bind at 1. rewrite Hrun.
  cbv [bind config_get get ret raise lift modify]. cbn.
  rewrite Hnb, Hdq. by destruct self.
Qed.

(** A run only touches the engine, also when it raises. *)
Lemma predict_images_state sequence imgs acc self :
  exists e, (predict_images sequence imgs acc self).2 = set_engine e self.
Proof.
  revert acc self. induction imgs as [|image imgs IH]; intros acc self.
  - exists (engine self). by destruct self.
  - cbn [predict_images]. cbv [bind lift engine_predict get].
    destruct (load image) as [pil|e];
      [|exists (engine self); by destruct self].
    destruct (predict (engine self) pil) as [[c|e] e'];
      [|exists e'; by destruct self].
    edestruct IH as [e2 ->]. exists e2. by destruct self.
Qed.

Lemma run_engine_sequence_state sequence self :
  exists e, (run_engine_sequence sequence self).2 = set_engine e self.
Proof.
  unfold run_engine_sequence, bind at 1.
  destruct (predict_images_state sequence (Sequence.images sequence) [] self)
    as [e1 He1].
  destruct (predict_images _ _ _ _) as [[rs|e] s1]; [|by exists e1].
  cbn in He1. subst s1.
  cbv [bind config_get get ret raise lift modify]. cbn.
  destruct (config self !! "nb_consecutive_frames") as [nb|];
    [|exists e1; by destruct self].
  destruct (deque_new nb) as [dq|e]; eexists; by destruct self.
Qed.

(** When [predict] leaves the threshold alone, every answer carries
    the threshold the engine started with. *)
Lemma engine_answers_conf_thresh e imgs tr :
  (forall e0 pil,
     Engine.conf_thresh (predict e0 pil).2 = Engine.conf_thresh e0) ->
  engine_answers e imgs = Some tr ->
  Forall (fun a => Engine.conf_thresh a.2 = Engine.conf_thresh e) tr.
Proof.
  intros Hkeep. revert e tr.
  induction imgs as [|image imgs IH]; intros e tr; cbn.
  - intros [= <-]. constructor.
  - destruct (load image) as [pil|]; [|done].
    pose proof (Hkeep e pil) as Hk.
    destruct (predict e pil) as [[c|] e']; [|done].
    destruct (engine_answers e' imgs) as [tr'|] eqn:Htr; [|done].
    intros [= <-]. cbn in Hk. constructor; [done|].
    rewrite <- Hk. by apply IH.
Qed.

(** C1.  Every row a run returns holds the confidence the engine
    returned for its frame and, as prediction, the strict comparison
    [confidence > self.engine.conf_thresh] made right after that
    call; a confidence equal to the threshold gives the prediction
    [false].  The threshold compared with is the one the engine
    started with as long as [predict] does not reassign it. *)
Theorem prediction_is_strict_threshold_comparison
    (self : t) (sequence : Sequence.t) (rows : list Row.t) (self' : t) :
  run_engine_sequence sequence self = (Ok rows, self') ->
  exists answers,
    engine_answers (engine self) (Sequence.images sequence) = Some answers /\
    Forall2
      (fun a row =>
         Row.confidence row = a.1 /\
         Row.prediction row = (Engine.conf_thresh a.2 <? a.1)%float /\
         ((a.1 =? Engine.conf_thresh a.2)%float = true ->
          Row.prediction row = false))
      answers rows /\
    ((forall e pil,
        Engine.conf_thresh (predict e pil).2 = Engine.conf_thresh e) ->
     Forall (fun a => Engine.conf_thresh a.2 = Engine.conf_thresh (engine self))
            answers).
Proof.
  intros Hrun.
  apply run_engine_sequence_inv in Hrun as (tr & nb & dq & Htr & Hm & _).
  exists tr. split_and!; [done| |].
  - clear Htr. induction Hm as [|image imgs a tr row rows Hr Hm IH].
    + constructor.
    + constructor; [|done].
      destruct Hr as (_ & _ & _ & _ & _ & _ & Hc & Hp).
      split_and!; [done|done|].
      intros Heq. rewrite Hp. by apply float_gt_strict.
  - intros Hkeep. by eapply engine_answers_conf_thresh.
Qed.

(** C2.  With [nb_consecutive_frames] an integer [n] in the configuration,
    a run returns whenever every frame loads and the engine answers,
    and whenever it returns [_states] holds the single key ["-1"]
    with an empty deque of capacity [n] and [ongoing] false, whatever
    the states were before. *)
Theorem run_engine_sequence_resets_states
    (self : t) (sequence : Sequence.t) (n : Z) :
  config self !! "nb_consecutive_frames" = Some (PyInt n) ->
  0 <= n < 2 ^ 63 ->
  (forall answers,
     engine_answers (engine self) (Sequence.images sequence) = Some answers ->
     exists rows self', run_engine_sequence sequence self = (Ok rows, self')) /\
  (forall rows self',
     run_engine_sequence sequence self = (Ok rows, self') ->
     Engine._states (engine self') =
       {[ "-1" := {[ "last_predictions" := PyDeque [] (Some n);
                     "ongoing" := PyBool false ]} ]}).
Proof.
  intros Hnb Hn.
  assert (Hdq : deque_new (PyInt n) = Ok (PyDeque [] (Some n))).
  { unfold deque_new.
    destruct (Z.ltb_spec n 0); [lia|].
    destruct (Z.leb_spec (2 ^ 63) n); [lia|done]. }
  split.
  - intros answers Ha.
    destruct (run_engine_sequence_ok sequence self _ _ _ Ha Hnb Hdq)
      as (rows & Hrun & _).
    eauto.
  - intros rows self' Hrun.
    apply run_engine_sequence_inv in Hrun
      as (tr & nb & dq & _ & _ & Hnb' & Hdq' & ->).
    rewrite Hnb in Hnb'. injection Hnb' as <-.
    rewrite Hdq in Hdq'. injection Hdq' as <-.
    by destruct self.
Qed.

(** C3.  A run returns whenever every frame loads, the engine answers
    and the configured window size is accepted; and whenever it
    returns there is exactly one row per frame, the row at position
    [i] holding the attributes of frame [i] and the confidence and
    decision of the engine's answer for frame [i]. *)
Theorem run_engine_sequence_one_record_per_frame
    (self : t) (sequence : Sequence.t) :
  (forall answers nb dq,
     engine_answers (engine self) (Sequence.images sequence) = Some answers ->
     config self !! "nb_consecutive_frames" = Some nb ->
     deque_new nb = Ok dq ->
     exists rows self', run_engine_sequence sequence self = (Ok rows, self')) /\
  (forall rows self',
     run_engine_sequence sequence self = (Ok rows, self') ->
     exists answers,
       engine_answers (engine self) (Sequence.images sequence)
         = Some answers /\
       length rows = length (Sequence.images sequence) /\
       forall i image,
         Sequence.images sequence !! i = Some image ->
         exists a row,
           answers !! i = Some a /\ rows !! i = Some row /\
           record_matches sequence image a row).
Proof.
  split.
  - intros answers nb dq Ha Hnb Hdq.
    destruct (run_engine_sequence_ok sequence self _ _ _ Ha Hnb Hdq)
      as (rows & Hrun & _).
    eauto.
  - intros rows self' Hrun.
    apply run_engine_sequence_inv in Hrun as (tr & nb & dq & Htr & Hm & _).
    exists tr. split_and!; [done| |].
    + by apply records_match_length in Hm as [? _].
    + intros i image Hi. by eapply records_match_lookup.
Qed.

End SequenceRunner.

(** ** [EngineEvaluator.run_engine_dataset] *)

Section DatasetLoop.
Context {X : EngineEvaluator.Externals}.
Import EngineEvaluator.
Local Open Scope list_scope.

Lemma seen_sequence_ids_spec self sid :
  sid ∈ seen_sequence_ids self <->
  sid ∈ (Row.sequence_id <$> predictions_df self).
Proof. unfold seen_sequence_ids. by rewrite elem_of_list_to_set. Qed.

(** The table and the journal after the statements that follow
    [run_engine_sequence] in the loop body. *)
Definition appended (rows : list Row.t) (s1 : t) : t :=
  let df := predictions_df s1 ++ rows in
  let s2 := set_predictions_df df s1 in
  if save s2 && (Z.of_nat (length df) mod 50 =? 0)
  then set_world (<[predictions_csv s2 := CsvFile (csv_as_read df)]> (fs s2))
                 (csv_writes s2 ++ [(predictions_csv s2, df)]) s2
  else s2.

Lemma loop_body_run self sequence :
  resume self = false \/
  Sequence.sequence_id sequence ∉ (Row.sequence_id <$> predictions_df self) ->
  loop_body sequence self =
    match run_engine_sequence sequence self with
    | (Ok rows, s1) => (Ok tt, appended rows s1)
    | (Raise e, s1) => (Raise e, s1)
    end.
Proof.
  intros Hrun. unfold loop_body, bind at 1, get.
  assert (resume self &&
          bool_decide (Sequence.sequence_id sequence ∈ seen_sequence_ids self)
          = false) as ->.
  { destruct Hrun as [-> | Hnot]; [done|].
    rewrite bool_decide_eq_false_2; [by destruct (resume self)|].
    by rewrite seen_sequence_ids_spec. }
  unfold bind at 1.
  destruct (run_engine_sequence sequence self) as [[rows|e] s1]; [|done].
  cbv [bind modify get to_csv ret appended]. cbn.
  by destruct (save s1 && _).
Qed.

(** C5.  In one iteration of the loop: when [resume] is set and the
    table holds a row with the sequence's id, nothing happens (the
    engine is not called, the table and the files stay as they are);
    otherwise [run_engine_sequence] is called, its exception
    propagates if it raises, and else its rows are added at the end
    of the table. *)
Theorem loop_body_skips_or_runs (self : t) (sequence : Sequence.t) :
  let seen :=
    Sequence.sequence_id sequence ∈ (Row.sequence_id <$> predictions_df self)
  in
  (resume self = true -> seen -> loop_body sequence self = (Ok tt, self)) /\
  (resume self = false \/ ~ seen ->
   match run_engine_sequence sequence self with
   | (Ok rows, s1) =>
       exists s2,
         loop_body sequence self = (Ok tt, s2) /\
         predictions_df s2 = predictions_df self ++ rows /\
         engine s2 = engine s1
   | (Raise e, s1) => loop_body sequence self = (Raise e, s1)
   end).
Proof.
  cbv zeta. split.
  - intros Hres Hseen. unfold loop_body, bind, get. rewrite Hres.
    rewrite bool_decide_eq_true_2; [done|].
    by rewrite seen_sequence_ids_spec.
  - intros Hrun. rewrite (loop_body_run _ _ Hrun).
    destruct (run_engine_sequence_state sequence self) as [e1 He1].
    destruct (run_engine_sequence sequence self) as [[rows|e] s1]; [|done].
    cbn in He1. subst s1. eexists. split; [done|].
    unfold appended. destruct (save _ && _); by destruct self.
Qed.

(** X29.  The checkpoint of an iteration that ran the sequence: one
    [to_csv] call, of the whole table to [predictions_csv], exactly
    when [save] is set and the new row count is a multiple of 50;
    no call otherwise. *)
Lemma loop_body_checkpoint self sequence rows s1 :
  resume self = false \/
  Sequence.sequence_id sequence ∉ (Row.sequence_id <$> predictions_df self) ->
  run_engine_sequence sequence self = (Ok rows, s1) ->
  csv_writes (loop_body sequence self).2 =
    csv_writes self ++
    (if save self &&
        (Z.of_nat (length (predictions_df self ++ rows)) mod 50 =? 0)
     then [(predictions_csv self, predictions_df self ++ rows)] else []).
Proof.
  intros Hrun Heq. rewrite (loop_body_run _ _ Hrun), Heq. cbn.
  destruct (run_engine_sequence_state sequence self) as [e1 He1].
  rewrite Heq in He1. cbn in He1. subst s1.
  unfold appended.
  replace (save (set_predictions_df _ _)) with (save self)
    by (by destruct self).
  replace (predictions_df (set_engine e1 self)) with (predictions_df self)
    by (by destruct self).
  destruct (save self && _); destruct self; cbn; by rewrite ?app_nil_r.
Qed.

End DatasetLoop.

(** ** [EngineEvaluator.compute_sequence_level_metrics] *)

Section SequenceLevelMetrics.
Context {X : EngineEvaluator.Externals}.
Import EngineEvaluator.
Local Open Scope list_scope.

(** The rows of sequence [sid] in a table, and those among them with
    a positive prediction. *)
Definition rows_of (sid : string) (df : list Row.t) : list Row.t :=
  filter (fun r => Row.sequence_id r = sid) df.

Definition positives (group : list Row.t) : list Row.t :=
  filter (fun r => Is_true (Row.prediction r)) group.

(** What the specification says of a detection delay [d] of a group:
    no delay when no row is positive; otherwise the least of the
    durations the positive rows' [timedelta]s parse to, and [NaT]
    when none of them parses. *)
Definition is_detection_delay (group : list Row.t) (d : delay) : Prop :=
  match d with
  | NoDelay => positives group = []
  | NaT =>
      positives group <> [] /\
      forall r, r ∈ positives group ->
                to_timedelta (Row.timedelta r) = Ok None
  | Timedelta ns =>
      (exists r, r ∈ positives group /\
                 to_timedelta (Row.timedelta r) = Ok (Some ns)) /\
      forall r x, r ∈ positives group ->
                  to_timedelta (Row.timedelta r) = Ok (Some x) -> ns <= x
  end.

(** [pd.to_timedelta] converts the [timedelta] of every positive row
    of a table: to a duration or to [NaT], without raising. *)
Definition timedeltas_convert (df : list Row.t) : Prop :=
  Forall (fun r => exists d, to_timedelta (Row.timedelta r) = Ok d)
         (positives df).


Lemma foldl_min_spec (x : Z) (l : list Z) :
  foldl Z.min x l ∈ x :: l /\ forall y, y ∈ x :: l -> foldl Z.min x l <= y.
Proof.
  revert x. induction l as [|a l IH]; intros x; cbn.
  - split; [left|]. intros y ->%list_elem_of_singleton. lia.
  - destruct (IH (Z.min x a)) as [Hin Hle]. split.
    + apply elem_of_cons in Hin as [Heq|Hin].
      * rewrite Heq. destruct (Z.min_spec x a) as [[_ ->]|[_ ->]].
        -- left.
        -- right. left.
      * right. by right.
    + intros y Hy.
      assert (Hmin : foldl Z.min (Z.min x a) l <= Z.min x a)
        by (apply Hle; left).
      apply elem_of_cons in Hy as [->|Hy]; [lia|].
      apply elem_of_cons in Hy as [->|Hy]; [lia|].
      apply Hle. by right.
Qed.

Lemma series_min_spec (xs : list (option Z)) :
  match series_min xs with
  | NoDelay => False
  | NaT => forall x, x ∈ xs -> x = None
  | Timedelta ns => Some ns ∈ xs /\ forall x, Some x ∈ xs -> ns <= x
  end.
Proof.
  unfold series_min.
  assert (Hin : forall x, x ∈ omap id xs <-> Some x ∈ xs).
  { intros x. rewrite list_elem_of_omap. split.
    - by intros (o & Ho & <-).
    - intros Ho. by exists (Some x). }
  destruct (omap id xs) as [|x rest].
  - intros [x|] Hx; [|done]. apply Hin in Hx. by apply elem_of_nil in Hx.
  - destruct (foldl_min_spec x rest) as [Hm Hle]. split.
    + by apply Hin.
    + intros y Hy. apply Hle. by apply Hin.
Qed.

(** [to_timedelta_series], cell by cell. *)
Lemma to_timedelta_series_inv (rows : list Row.t) ds :
  to_timedelta_series (Row.timedelta <$> rows) = Ok ds ->
  Forall (fun r => exists d, to_timedelta (Row.timedelta r) = Ok d) rows /\
  (ds = [] <-> rows = []) /\
  (forall o, o ∈ ds <->
     exists r, r ∈ rows /\ to_timedelta (Row.timedelta r) = Ok o).
Proof.
  revert ds. induction rows as [|r rows IH]; intros ds; cbn.
  - intros [= <-]. split_and!; [done|done|]. intros o. split.
    + by intros ?%elem_of_nil.
    + by intros (? & ?%elem_of_nil & _).
  - destruct (to_timedelta (Row.timedelta r)) as [d|] eqn:Hd; [|done].
    destruct (to_timedelta_series _) as [ds'|]; [|done].
    intros [= <-]. destruct (IH ds' eq_refl) as (Hall & _ & Hin).
    split_and!; [constructor; eauto|done|].
    intros o. rewrite elem_of_cons, Hin. split.
    + intros [->|(r0 & Hr0 & Ho)].
      * exists r. split; [left|done].
      * exists r0. split; [by right|done].
    + intros (r0 & [->|Hr0]%elem_of_cons & Ho).
      * left. congruence.
      * right. eauto.
Qed.



(** What the loop body computes for a group. *)
Lemma sequence_metric_inv k group m :
  sequence_metric k group = Ok m ->
  SeqMetric.sequence_id m = k /\
  (exists r rest, group = r :: rest /\
                  SeqMetric.label m = Row.sequence_label r) /\
  SeqMetric.has_detection m = existsb Row.prediction group /\
  is_detection_delay group (SeqMetric.detection_delay m) /\
  timedeltas_convert group.
Proof.
  unfold sequence_metric.
  destruct group as [|r rest] eqn:Hg; [done|]. rewrite <- Hg.
  assert (first_label group = Ok (Row.sequence_label r)) as -> by by subst.
  fold (positives group).
  destruct (to_timedelta_series _) as [dts|] eqn:Hser; [|done].
  apply to_timedelta_series_inv in Hser as (Hall & Hnil & Hdts).
  intros [= <-]. cbn [SeqMetric.sequence_id SeqMetric.label
    SeqMetric.has_detection SeqMetric.detection_delay].
  split_and!; [done|by subst; eauto|done| |done].
  unfold np_min. destruct (decide (dts = [])) as [Hd|Hne].
  - rewrite bool_decide_eq_true_2 by done. cbn. by apply Hnil.
  - rewrite bool_decide_eq_false_2 by done. cbn.
    pose proof (series_min_spec dts) as Hmin.
    destruct (series_min dts) as [| |ns]; [done| |].
    + split.
      * intros Hp. by apply Hne, Hnil.
      * intros r0 Hr0. rewrite Forall_forall in Hall.
        destruct (Hall r0 Hr0) as [o Ho]. rewrite Ho. f_equal.
        apply Hmin, Hdts. eauto.
    + destruct Hmin as [Hin Hle]. split.
      * by apply Hdts in Hin.
      * intros r0 x Hr0 Hx. apply Hle, Hdts. eauto.
Qed.



Lemma sequence_metrics_of_inv groups ms :
  sequence_metrics_of groups = Ok ms ->
  Forall2 (fun kg m => sequence_metric kg.1 kg.2 = Ok m) groups ms.
Proof.
  revert ms. induction groups as [|[k g] groups IH]; intros ms; cbn.
  - intros [= <-]. constructor.
  - destruct (sequence_metric k g) as [m|] eqn:Hm; [|done].
    destruct (sequence_metrics_of groups) as [ms'|]; [|done].
    intros [= <-]. constructor; [done|]. by apply IH.
Qed.



(** The keys of [groupby]: each id of the table once. *)
Lemma group_keys_spec df :
  NoDup (group_keys df) /\
  forall sid, sid ∈ group_keys df <-> sid ∈ (Row.sequence_id <$> df).
Proof.
  unfold group_keys. split.
  - rewrite merge_sort_Permutation. apply NoDup_remove_dups.
  - intros sid. by rewrite merge_sort_Permutation, elem_of_remove_dups.
Qed.




(** The per-sequence dicts of a table, when the loop over the groups
    completes: there is one for each key of [groupby], computed from
    the rows of that key. *)
Lemma sequence_metrics_of_keys df ks ms :
  sequence_metrics_of ((fun k => (k, rows_of k df)) <$> ks) = Ok ms ->
  SeqMetric.sequence_id <$> ms = ks /\
  Forall (fun m => sequence_metric (SeqMetric.sequence_id m)
                     (rows_of (SeqMetric.sequence_id m) df) = Ok m) ms.
Proof.
  revert ms. induction ks as [|k ks IH]; intros ms; cbn.
  - by intros [= <-].
  - destruct (sequence_metric k _) as [m|] eqn:Hm; [|done].
    destruct (sequence_metrics_of _) as [ms'|]; [|done].
    intros [= <-]. destruct (IH ms' eq_refl) as [Hids Hall].
    apply sequence_metric_inv in Hm as Hinv. destruct Hinv as (Hid & _).
    split; [cbn; by rewrite Hid, Hids|].
    constructor; [by rewrite Hid|done].
Qed.

Lemma sequence_metrics_of_table df ms :
  sequence_metrics_of (groupby_sequence_id df) = Ok ms ->
  SeqMetric.sequence_id <$> ms = group_keys df /\
  Forall (fun m => sequence_metric (SeqMetric.sequence_id m)
                     (rows_of (SeqMetric.sequence_id m) df) = Ok m) ms.
Proof. apply sequence_metrics_of_keys. Qed.








(** The result of [compute_sequence_level_metrics], spelled out. *)
Lemma compute_sequence_level_metrics_inv self snap :
  compute_sequence_level_metrics self = Ok snap ->
  exists ms,
    sequence_metrics_of (groupby_sequence_id (predictions_df self)) = Ok ms /\
    SequenceMetrics.avg_detection_delay snap =
      (if forallb isnull
            (SeqMetric.detection_delay <$> List.filter (mask true true) ms)
       then None
       else Some (mean (dropna (SeqMetric.detection_delay <$>
                                  List.filter (mask true true) ms)))) /\
    SequenceMetrics.ids_tp snap =
      SeqMetric.sequence_id <$> List.filter (mask true true) ms /\
    SequenceMetrics.ids_fn snap =
      SeqMetric.sequence_id <$> List.filter (mask true false) ms /\
    SequenceMetrics.ids_fp snap =
      SeqMetric.sequence_id <$> List.filter (mask false true) ms /\
    SequenceMetrics.ids_tn snap =
      SeqMetric.sequence_id <$> List.filter (mask false false) ms.
Proof.
  unfold compute_sequence_level_metrics.
  destruct (sequence_metrics_of _) as [ms|]; [|done].
  destruct ms as [|m0 ms0] eqn:Hms; [done|]. rewrite <- Hms.
  destruct (compute_metrics _ _ _) as [[p r] f].
  intros [= <-]. exists ms. cbn.
  split_and!; try done.
  by destruct (forallb isnull _).
Qed.




(** The four masks split the per-sequence dicts. *)
Lemma masks_partition (ms : list SeqMetric.t) :
  List.filter (mask true true) ms ++ List.filter (mask true false) ms ++
  List.filter (mask false true) ms ++ List.filter (mask false false) ms
  ≡ₚ ms.
Proof.
  assert (Hmask : forall a b m,
    mask a b m = Bool.eqb (SeqMetric.label m) a &&
                 Bool.eqb (SeqMetric.has_detection m) b) by done.
  induction ms as [|m ms IH]; [done|]. cbn [List.filter].
  rewrite !Hmask.
  destruct (SeqMetric.label m), (SeqMetric.has_detection m);
    cbn [Bool.eqb andb];
    rewrite <- ?app_comm_cons, <- ?Permutation_middle; by rewrite IH.
Qed.


End SequenceLevelMetrics.

(** ** Concrete runs of [engine_evaluation.py] *)

(** A stub engine: it answers each image with the score a table gives
    for its path (raising when the table has none) and pushes the
    score on the bounded deque of camera ["-1"]. *)
Definition push_score (x : float) (v : pyval) : pyval :=
  match v with
  | PyDeque items (Some n) =>
      let items' := (items ++ [PyFloat x])%list in
      PyDeque (drop (length items' - Z.to_nat n) items') (Some n)
  | PyDeque items None => PyDeque (items ++ [PyFloat x])%list None
  | other => other
  end.

Definition stub_predict (scores : string -> option float)
    (e : Engine.t) (path : string) : outcome float * Engine.t :=
  match scores path with
  | None => (Raise (mk_exn RuntimeError "inference failed"), e)
  | Some x =>
      (Ok x,
       Engine.mk (Engine.conf_thresh e)
         (alter (fun cam =>
                   <["ongoing" := PyBool (Engine.conf_thresh e <? x)%float]>
                     (alter (push_score x) "last_predictions" cam))
                "-1" (Engine._states e))
         (Engine.internals e))
  end.

Definition float_of_nat (n : nat) : float :=
  PrimFloat.of_uint63 (Uint63.of_Z (Z.of_nat n)).

Definition ratio (a b : nat) : float :=
  match b with
  | O => 0%float
  | _ => (float_of_nat a / float_of_nat b)%float
  end.

(** [pd.to_timedelta] on the cells the examples use: an integer is a
    number of nanoseconds; [None], the strings (none of which is a
    duration) and the floats (all of them NaN) are coerced to [NaT];
    a bool, a list or a deque is rejected. *)
Definition stub_to_timedelta (v : pyval) : outcome (option Z) :=
  match v with
  | PyInt ns => Ok (Some ns)
  | PyNone | PyStr _ | PyFloat _ => Ok None
  | _ => Raise (mk_exn TypeError "Invalid type for timedelta scalar")
  end.

Definition stub_externals_on (refused : string -> option exn)
    (scores : string -> option float)
  : EngineEvaluator.Externals := {|
  EngineEvaluator.pil_image := string;
  EngineEvaluator.load := fun image => Ok (CustomImage.path image);
  EngineEvaluator.predict := stub_predict scores;
  EngineEvaluator.package_dir := "/opt/pyro_eval";
  EngineEvaluator.csv_as_read := fun df => df;
  EngineEvaluator.os_remove_refused := refused;
  EngineEvaluator.to_timedelta := stub_to_timedelta;
  EngineEvaluator.mean := fun ds =>
    (foldr Z.add 0 ds / Z.of_nat (length ds))%Z;
  EngineEvaluator.compute_metrics := fun fp tp fn =>
    let p := ratio tp (tp + fp) in
    let r := ratio tp (tp + fn) in
    (p, r, ratio (2 * tp) (2 * tp + fp + fn))
|}.

(** A machine on which every file can be removed, and one on which
    none can. *)
Definition stub_externals (scores : string -> option float)
  : EngineEvaluator.Externals :=
  stub_externals_on (fun _ => None) scores.

Definition permission_denied (p : string) : exn :=
  mk_exn OtherException ("[Errno 13] Permission denied: '" ++ p ++ "'").

Definition readonly_externals (scores : string -> option float)
  : EngineEvaluator.Externals :=
  stub_externals_on (fun p => Some (permission_denied p)) scores.

(** Sequence [a] is labelled true, with scores 0.6 and 0.7; sequence
    [b] is labelled false, with scores 0.1 and 0.2; sequence [c] has
    a frame scoring exactly the threshold 0.5. *)
Definition demo_scores (path : string) : option float :=
  if String.eqb path "a/0.jpg" then Some 0.6%float
  else if String.eqb path "a/1.jpg" then Some 0.7%float
  else if String.eqb path "b/0.jpg" then Some 0.1%float
  else if String.eqb path "b/1.jpg" then Some 0.2%float
  else if String.eqb path "c/0.jpg" then Some 0.5%float
  else if String.eqb path "c/1.jpg" then Some 0.9%float
  else None.

Definition second : Z := 1000000000.

Definition seq_a : Sequence.t :=
  Sequence.mk "a" true
    [CustomImage.mk "a/0.jpg" true (PyList []) (PyInt 0);
     CustomImage.mk "a/1.jpg" true (PyList []) (PyInt (30 * second))].

Definition seq_b : Sequence.t :=
  Sequence.mk "b" false
    [CustomImage.mk "b/0.jpg" false (PyList []) (PyInt 0);
     CustomImage.mk "b/1.jpg" false (PyList []) (PyInt (30 * second))].

Definition seq_c : Sequence.t :=
  Sequence.mk "c" true
    [CustomImage.mk "c/0.jpg" true (PyList []) (PyInt 0);
     CustomImage.mk "c/1.jpg" true (PyList []) (PyInt (30 * second))].

Definition demo_config : gmap string pyval :=
  {[ "nb_consecutive_frames" := PyInt 2;
     "conf_thresh" := PyFloat 0.5;
     "max_bbox_size" := PyFloat 0.4 ]}.

(** An engine that has just seen two frames of some earlier sequence. *)
Definition used_engine : Engine.t :=
  Engine.mk 0.5%float
    {[ "-1" := {[ "last_predictions" :=
                    PyDeque [PyFloat 0.9; PyFloat 0.8] (Some 2);
                  "ongoing" := PyBool true ]} ]}
    PyNone.

Definition demo_evaluator (dataset : list Sequence.t) (save resume : bool)
    (df : list Row.t) : EngineEvaluator.t :=
  EngineEvaluator.mk dataset demo_config save "run-1" resume
    "" false None used_engine None df ∅ [].

Definition ok_rows {S} (r : outcome (list Row.t) * S) : list Row.t :=
  match r.1 with Ok rows => rows | Raise _ => [] end.

Lemma stub_predict_keeps_conf_thresh scores e path :
  Engine.conf_thresh (stub_predict scores e path).2 = Engine.conf_thresh e.
Proof. unfold stub_predict. by destruct (scores path). Qed.

Example run_engine_sequence_c :
  let X := stub_externals demo_scores in
  (EngineEvaluator.run_engine_sequence seq_c
     (demo_evaluator [] false false [])).1 =
  Ok [Row.mk "c" "c/0.jpg" true (PyList []) true false 0.5 (PyInt 0);
      Row.mk "c" "c/1.jpg" true (PyList []) true true 0.9
             (PyInt (30 * second))].
Proof. vm_compute. reflexivity. Qed.

(** A run over [seq_c]: the frame scoring exactly 0.5 is predicted
    false. *)
Lemma prediction_is_strict_threshold_comparison_witness :
  let X := stub_externals demo_scores in
  let self := demo_evaluator [] false false [] in
  exists answers,
    engine_answers (EngineEvaluator.engine self) (Sequence.images seq_c)
      = Some answers /\
    Forall2
      (fun a row =>
         Row.confidence row = a.1 /\
         Row.prediction row = (Engine.conf_thresh a.2 <? a.1)%float /\
         ((a.1 =? Engine.conf_thresh a.2)%float = true ->
          Row.prediction row = false))
      answers
      [Row.mk "c" "c/0.jpg" true (PyList []) true false 0.5 (PyInt 0);
       Row.mk "c" "c/1.jpg" true (PyList []) true true 0.9
              (PyInt (30 * second))] /\
    ((forall e pil,
        Engine.conf_thresh (EngineEvaluator.predict e pil).2
        = Engine.conf_thresh e) ->
     Forall (fun a => Engine.conf_thresh a.2 = 0.5%float) answers).
Proof.
  intros X self.
  apply (prediction_is_strict_threshold_comparison (X := X) self seq_c _
           (EngineEvaluator.run_engine_sequence seq_c self).2).
  vm_compute. reflexivity.
Defined.

(** A run over [seq_a] from an engine with a full window and an
    ongoing alert: the states come out cleared. *)
Lemma run_engine_sequence_resets_states_witness :
  let X := stub_externals demo_scores in
  let self := demo_evaluator [] false false [] in
  (forall answers,
     engine_answers (EngineEvaluator.engine self) (Sequence.images seq_a)
       = Some answers ->
     exists rows self',
       EngineEvaluator.run_engine_sequence seq_a self = (Ok rows, self')) /\
  (forall rows self',
     EngineEvaluator.run_engine_sequence seq_a self = (Ok rows, self') ->
     Engine._states (EngineEvaluator.engine self') =
       {[ "-1" := {[ "last_predictions" := PyDeque [] (Some 2);
                     "ongoing" := PyBool false ]} ]}).
Proof.
  intros X self.
  apply (run_engine_sequence_resets_states (X := X) self seq_a 2).
  - reflexivity.
  - lia.
Defined.

Example run_engine_sequence_a_states :
  let X := stub_externals demo_scores in
  Engine._states (EngineEvaluator.engine
    (EngineEvaluator.run_engine_sequence seq_a
       (demo_evaluator [] false false [])).2) =
  {[ "-1" := {[ "last_predictions" := PyDeque [] (Some 2);
                "ongoing" := PyBool false ]} ]}.
Proof. vm_compute. reflexivity. Qed.

(** A frame the engine fails on aborts the run: the exception of
    [predict] is not caught in [run_engine_sequence]. *)
Example run_engine_sequence_propagates :
  let X := stub_externals demo_scores in
  (EngineEvaluator.run_engine_sequence
     (Sequence.mk "d" true
        [CustomImage.mk "d/0.jpg" true (PyList []) (PyInt 0)])
     (demo_evaluator [] false false [])).1 =
  Raise (mk_exn RuntimeError "inference failed").
Proof. vm_compute. reflexivity. Qed.

(** *** The dataset loop *)

Definition always_09 (path : string) : option float := Some 0.9%float.

Definition long_sequence (sid : string) (n : nat) : Sequence.t :=
  Sequence.mk sid true
    (replicate n (CustomImage.mk (sid ++ "/frame.jpg") true (PyList [])
                                 (PyInt 0))).

Definition results_csv : string :=
  "/opt/pyro_eval/data/results/engine/run-1/results.csv".

(** C4, evaluated.  With [save] set and two sequences of 30 frames,
    the table grows from 30 to 60 rows and so passes 50, yet the run
    makes a single [to_csv] call, the final one with 60 rows: the
    loop writes no checkpoint. *)
Theorem checkpoint_skipped_when_passing_50 :
  let X := stub_externals always_09 in
  let self :=
    demo_evaluator [long_sequence "s1" 30; long_sequence "s2" 30]
                   true false [] in
  let final := (EngineEvaluator.run_engine_dataset self).2 in
  (EngineEvaluator.run_engine_dataset self).1 = Ok tt /\
  length (EngineEvaluator.predictions_df final) = 60%nat /\
  (fun w => (w.1, length w.2)) <$> EngineEvaluator.csv_writes final
    = [(results_csv, 60%nat)].
Proof. vm_compute. repeat split; reflexivity. Qed.

(** The loop alone on that input: 60 rows and no write. *)
Example dataset_loop_30_30 :
  let X := stub_externals always_09 in
  let self :=
    EngineEvaluator.set_result_paths "out" results_csv
      (demo_evaluator [] true false []) in
  let after :=
    (EngineEvaluator.dataset_loop
       [long_sequence "s1" 30; long_sequence "s2" 30] self).2 in
  length (EngineEvaluator.predictions_df after) = 60%nat /\
  EngineEvaluator.csv_writes after = [].
Proof. vm_compute. split; reflexivity. Qed.

(** With sequences of 25 frames the count lands on 50 and the loop
    does write; an empty sequence on an empty table is written too,
    as 0 is a multiple of 50. *)
Example dataset_loop_25_25 :
  let X := stub_externals always_09 in
  let self :=
    EngineEvaluator.set_result_paths "out" results_csv
      (demo_evaluator [] true false []) in
  let after :=
    (EngineEvaluator.dataset_loop
       [long_sequence "s1" 25; long_sequence "s2" 25] self).2 in
  (fun w => (w.1, length w.2)) <$> EngineEvaluator.csv_writes after
    = [(results_csv, 50%nat)].
Proof. vm_compute. reflexivity. Qed.

Example dataset_loop_empty_sequence :
  let X := stub_externals always_09 in
  let self :=
    EngineEvaluator.set_result_paths "out" results_csv
      (demo_evaluator [] true false []) in
  let after :=
    (EngineEvaluator.dataset_loop [long_sequence "s0" 0] self).2 in
  EngineEvaluator.csv_writes after = [(results_csv, [])].
Proof. vm_compute. reflexivity. Qed.

(** Resuming: a sequence with a row in the table is skipped even
    though the engine would fail on it now; another one is run. *)
Definition row_a0 : Row.t :=
  Row.mk "a" "a/0.jpg" true (PyList []) true true 0.6 (PyInt 0).

Example loop_body_skips_a :
  let X := stub_externals (fun _ => None) in
  let self := demo_evaluator [] false true [row_a0] in
  EngineEvaluator.loop_body seq_a self = (Ok tt, self).
Proof. vm_compute. reflexivity. Qed.

Example loop_body_runs_b :
  let X := stub_externals demo_scores in
  let self := demo_evaluator [] false true [row_a0] in
  EngineEvaluator.predictions_df (EngineEvaluator.loop_body seq_b self).2 =
  [row_a0;
   Row.mk "b" "b/0.jpg" false (PyList []) false false 0.1 (PyInt 0);
   Row.mk "b" "b/1.jpg" false (PyList []) false false 0.2
          (PyInt (30 * second))].
Proof. vm_compute. reflexivity. Qed.

Example loop_body_reruns_a_without_resume :
  let X := stub_externals demo_scores in
  let self := demo_evaluator [] false false [row_a0] in
  length (EngineEvaluator.predictions_df
            (EngineEvaluator.loop_body seq_a self).2) = 3%nat.
Proof. vm_compute. reflexivity. Qed.

(** *** Sequence-level metrics *)

Definition row_at (sid : string) (lbl pred : bool) (td : pyval) : Row.t :=
  Row.mk sid (sid ++ "/frame.jpg") lbl (PyList []) lbl pred 0.9 td.

(** Positive rows at 5 s, 2 s and 9 s, a negative row at 1 s and a
    positive row whose timedelta does not parse: the delay is 2 s. *)
Example detection_delay_5_2_9 :
  let X := stub_externals always_09 in
  EngineEvaluator.sequence_metrics_of
    (EngineEvaluator.groupby_sequence_id
       [row_at "s" true false (PyInt (1 * second));
        row_at "s" true true (PyInt (5 * second));
        row_at "s" true true (PyStr "n/a");
        row_at "s" true true (PyInt (2 * second));
        row_at "s" true true (PyInt (9 * second))])
  = Ok [SeqMetric.mk "s" true true (Timedelta (2 * second))].
Proof. vm_compute. reflexivity. Qed.

Example detection_delay_none_and_nat :
  let X := stub_externals always_09 in
  EngineEvaluator.sequence_metrics_of
    (EngineEvaluator.groupby_sequence_id
       [row_at "q" true true (PyStr "n/a");
        row_at "p" false false (PyInt (1 * second))])
  = Ok [SeqMetric.mk "p" false false NoDelay;
        SeqMetric.mk "q" true true NaT].
Proof. vm_compute. reflexivity. Qed.

(** The end-to-end scenario: sequence [a] is a true positive, [b] a
    true negative. *)
Example end_to_end_a_b :
  let X := stub_externals demo_scores in
  let final :=
    (EngineEvaluator.run_engine_dataset
       (demo_evaluator [seq_a; seq_b] false false [])).2 in
  EngineEvaluator.compute_sequence_level_metrics final =
  Ok (SequenceMetrics.mk 1 1 1 1 0 0 1 (Some 0) ["a"] [] [] ["b"]).
Proof. vm_compute. reflexivity. Qed.

(** Two true positives with delays 2 s and 5 s, one with an
    unparseable delay and a false positive: the average is over the
    first two. *)
Example avg_detection_delay_2_5 :
  let X := stub_externals always_09 in
  SequenceMetrics.avg_detection_delay <$>
    match EngineEvaluator.compute_sequence_level_metrics
            (demo_evaluator [] false false
               [row_at "s1" true true (PyInt (2 * second));
                row_at "s2" true true (PyInt (5 * second));
                row_at "s3" true true (PyStr "n/a");
                row_at "s4" false true (PyInt (1 * second))]) with
    | Ok snap => Some snap
    | Raise _ => None
    end
  = Some (Some 3500000000).
Proof. vm_compute. reflexivity. Qed.

(** No true positive with a usable delay: the entry is [None]. *)
Example avg_detection_delay_absent :
  let X := stub_externals always_09 in
  SequenceMetrics.avg_detection_delay <$>
    match EngineEvaluator.compute_sequence_level_metrics
            (demo_evaluator [] false false
               [row_at "s3" true true (PyStr "n/a");
                row_at "s4" false true (PyInt (1 * second));
                row_at "s5" true false (PyInt (1 * second))]) with
    | Ok snap => Some snap
    | Raise _ => None
    end
  = Some None.
Proof. vm_compute. reflexivity. Qed.

(** On an empty table the function raises. *)
Example metrics_of_empty_table :
  let X := stub_externals always_09 in
  EngineEvaluator.compute_sequence_level_metrics
    (demo_evaluator [] false false []) = Raise (mk_exn KeyError "'label'").
Proof. vm_compute. reflexivity. Qed.

(** *** The theorems at concrete inputs *)

Lemma run_engine_sequence_one_record_per_frame_witness :
  let X := stub_externals demo_scores in
  let self := demo_evaluator [] false false [] in
  exists answers,
    engine_answers (EngineEvaluator.engine self) (Sequence.images seq_a)
      = Some answers /\
    length (ok_rows (EngineEvaluator.run_engine_sequence seq_a self))
      = length (Sequence.images seq_a) /\
    forall i image,
      Sequence.images seq_a !! i = Some image ->
      exists a row,
        answers !! i = Some a /\
        ok_rows (EngineEvaluator.run_engine_sequence seq_a self) !! i
          = Some row /\
        record_matches seq_a image a row.
Proof.
  intros X self.
  apply (proj2 (run_engine_sequence_one_record_per_frame (X := X) self seq_a)
           _ (EngineEvaluator.run_engine_sequence seq_a self).2).
  vm_compute. reflexivity.
Defined.

Lemma loop_body_skips_or_runs_witness :
  let X := stub_externals (fun _ => None) in
  let self := demo_evaluator [] false true [row_a0] in
  EngineEvaluator.loop_body seq_a self = (Ok tt, self).
Proof.
  intros X self.
  apply (proj1 (loop_body_skips_or_runs (X := X) self seq_a)).
  - reflexivity.
  - apply list_elem_of_In. left. reflexivity.
Defined.

Definition demo_table : list Row.t :=
  [row_at "s2" true true (PyInt (5 * second));
   row_at "s1" true false (PyInt (1 * second));
   row_at "s1" true true (PyInt (2 * second));
   row_at "s4" false true (PyInt (1 * second));
   row_at "s3" true true (PyStr "n/a");
   row_at "s5" false false (PyInt 0)].


Definition demo_sequence_metrics : list SeqMetric.t :=
  [SeqMetric.mk "s1" true true (Timedelta (2 * second));
   SeqMetric.mk "s2" true true (Timedelta (5 * second));
   SeqMetric.mk "s3" true true NaT;
   SeqMetric.mk "s4" false true (Timedelta (1 * second));
   SeqMetric.mk "s5" false false NoDelay].

Example sequence_metrics_of_demo_table :
  let X := stub_externals always_09 in
  EngineEvaluator.sequence_metrics_of
    (EngineEvaluator.groupby_sequence_id demo_table)
  = Ok demo_sequence_metrics.
Proof. vm_compute. reflexivity. Qed.





Example metrics_of_demo_table :
  let X := stub_externals always_09 in
  EngineEvaluator.compute_sequence_level_metrics
    (demo_evaluator [] false false demo_table) =
  Ok (SequenceMetrics.mk 0.75 1 (6 / 7) 3 1 0 1 (Some 3500000000)
        ["s1"; "s2"; "s3"] [] ["s4"] ["s5"]).
Proof. vm_compute. reflexivity. Qed.


(** * The remaining methods *)

(** ** [Model.__init__] and [Model.get_device] *)

Module ModelInit.

(** The calls into [torch]. *)
Class Torch {B : Model.Backends} : Type := {
  (** [torch.device(name)] *)
  torch_device : string -> outcome Model.device_t;
  (** [torch.backends.mps.is_available()] and
      [torch.cuda.is_available()] *)
  mps_is_available : bool;
  cuda_is_available : bool;
  (** [model.to(device)] *)
  model_to : Model.model_obj -> Model.device_t -> outcome unit
}.

Section WithTorch.
Context {B : Model.Backends} {T : Torch}.

(** An object before [__init__] has assigned anything; [log] is what
    [logging] holds already. *)
Definition blank (log : list log_record) : Model.t :=
  Model.mk None None None None None log.

Definition assign_model_path (p : option string) (self : Model.t) : Model.t :=
  Model.mk p (Model.model self) (Model.device self) (Model.format self)
           (Model.inference_params self) (Model.log self).

Definition assign_model (m : option Model.model_obj) (self : Model.t)
  : Model.t :=
  Model.mk (Model.model_path self) m (Model.device self) (Model.format self)
           (Model.inference_params self) (Model.log self).

Definition assign_device (d : Model.device_t) (self : Model.t) : Model.t :=
  Model.mk (Model.model_path self) (Model.model self) (Some d)
           (Model.format self) (Model.inference_params self) (Model.log self).

Definition assign_format (f : option string) (self : Model.t) : Model.t :=
  Model.mk (Model.model_path self) (Model.model self) (Model.device self) f
           (Model.inference_params self) (Model.log self).

Definition assign_inference_params (ip : Model.params) (self : Model.t)
  : Model.t :=
  Model.mk (Model.model_path self) (Model.model self) (Model.device self)
           (Model.format self) (Some ip) (Model.log self).

(** [get_device]. *)
Definition get_device (device : option string) : outcome Model.device_t :=
  match device with
  | Some d => torch_device d
  | None =>
      if mps_is_available then torch_device "mps"
      else if cuda_is_available then torch_device "cuda"
      else torch_device "cpu"
  end.

(** [__init__]; [inference_params] is the dict reduced to its entries
    [conf], [iou] and [imgsz].  What [load_model] returns is assigned
    to [self.model], and [self.model.to] on [None] raises. *)
Definition __init__ (model_path : option string)
    (inference_params : option float * option float * option Z)
    (device : option string) : M Model.t unit :=
  modify (assign_model_path model_path) >>
  let* m := Model.load_model in
  modify (assign_model m) >>
  let* d := lift (get_device device) in
  modify (assign_device d) >>
  match m with
  | Some mo => lift (model_to mo d)
  | None => raise (mk_exn AttributeError
                     "'NoneType' object has no attribute 'to'")
  end >>
  modify (assign_format None) >>
  modify (assign_inference_params
            (Model.set_inference_params inference_params.1.1
               inference_params.1.2 inference_params.2)).

End WithTorch.
End ModelInit.

(** ** [EngineEvaluator.__init__], [instanciate_engine] and
    [generate_run_id] *)

(** [type(v).__name__], as it appears in the message of an
    [AttributeError]. *)
Definition type_name (v : pyval) : string :=
  match v with
  | PyNone => "NoneType"
  | PyBool _ => "bool"
  | PyInt _ => "int"
  | PyFloat _ => "float"
  | PyStr _ => "str"
  | PyList _ => "list"
  | PyDeque _ _ => "collections.deque"
  end.

Module EngineEvaluatorInit.

Class Setup : Type := {
  (** [Engine(nb_consecutive_frames=.., conf_thresh=..,
      max_bbox_size=.., model_path=..)] *)
  Engine_new : pyval -> pyval -> pyval -> option string -> outcome Engine.t;
  (** [export_model(path)] of [utils.py]: the path of the ONNX file it
      writes, and the file system it leaves *)
  export_model :
    string -> gmap string file -> outcome string * gmap string file;
  (** [datetime.now().strftime("%Y%m%d-%H%M%S")] *)
  now_stamp : string;
  (** [random.randint(1000, 9999)] *)
  randint_1000_9999 : Z
}.

(** The attributes [instanciate_engine] reads and assigns, and the
    file system. *)
Record partial : Type := mk_partial {
  p_config : gmap string pyval;
  p_model_path : pyval;
  p_run_model_path : option string;
  p_needs_deletion : bool;
  p_fs : gmap string file
}.

Section WithSetup.
Context {S : Setup}.

(** [generate_run_id]. *)
Definition generate_run_id : string :=
  "run-" ++ now_stamp ++ "-" ++ pretty randint_1000_9999.

Definition set_run_model_path (p : string) (self : partial) : partial :=
  mk_partial (p_config self) (p_model_path self) (Some p)
             (p_needs_deletion self) (p_fs self).

Definition set_needs_deletion (self : partial) : partial :=
  mk_partial (p_config self) (p_model_path self) (p_run_model_path self)
             true (p_fs self).

(** [export_model(self.model_path)], acting on the file system. *)
Definition call_export_model (path : string) : M partial string :=
  fun self =>
    let '(r, fs') := export_model path (p_fs self) in
    (r, mk_partial (p_config self) (p_model_path self)
                   (p_run_model_path self) (p_needs_deletion self) fs').

Definition config_item (key : string) : M partial pyval :=
  let* self := get in
  match p_config self !! key with
  | Some v => ret v
  | None => raise (mk_exn KeyError ("'" ++ key ++ "'"))
  end.

(** [instanciate_engine]; [endswith] is looked up on [model_path],
    which fails on a value that is neither [None] nor a [str]. *)
Definition instanciate_engine : M partial Engine.t :=
  let* self := get in
  match p_model_path self with
  | PyNone => ret tt
  | PyStr path =>
      if endswith path ".onnx" then modify (set_run_model_path path)
      else if endswith path ".pt" then
        let* exported := call_export_model path in
        modify (set_run_model_path exported) >>
        modify set_needs_deletion
      else raise (mk_exn RuntimeError
             ("Model format not supported by the Engine : " ++ path))
  | other => raise (mk_exn AttributeError
       ("'" ++ type_name other ++ "' object has no attribute 'endswith'"))
  end >>
  let* nb := config_item "nb_consecutive_frames" in
  let* ct := config_item "conf_thresh" in
  let* mb := config_item "max_bbox_size" in
  let* self := get in
  lift (Engine_new nb ct mb (p_run_model_path self)).

(** [__init__]: the new evaluator, or the exception, and the file
    system left behind.  [csv_writes] starts the journal. *)
Definition __init__ (dataset : list Sequence.t) (config : gmap string pyval)
    (save : bool) (run_id : option string) (resume : bool)
    (fs : gmap string file)
  : outcome EngineEvaluator.t * gmap string file :=
  let run_id :=
    if truthy_str run_id then default EmptyString run_id
    else generate_run_id in
  let model_path := default PyNone (config !! "model_path") in
  match instanciate_engine (mk_partial config model_path None false fs) with
  | (Ok engine, self) =>
      (Ok (EngineEvaluator.mk dataset config save run_id resume EmptyString
             (p_needs_deletion self) (p_run_model_path self) engine None []
             (p_fs self) []),
       p_fs self)
  | (Raise e, self) => (Raise e, p_fs self)
  end.

End WithSetup.
End EngineEvaluatorInit.

(** ** [compute_image_level_metrics] and [evaluate] *)

(** The dict [compute_image_level_metrics] returns. *)
Module ImageMetrics.
Record t : Type := mk {
  precision : float;
  recall : float;
  f1 : float;
  tn : nat;
  fp : nat;
  fn : nat;
  tp : nat
}.
End ImageMetrics.

(** The dict [evaluate] returns. *)
Module Metrics.
Record t : Type := mk {
  run_id : string;
  image_metrics : ImageMetrics.t;
  sequence_metrics : SequenceMetrics.t
}.
End Metrics.

Module Evaluate.

Class Scoring : Type := {
  (** what [confusion_matrix] does with columns that have no row:
      [None] for the versions of scikit-learn that return the matrix
      of zeros, and the [ValueError] for those that reject an empty
      input *)
  confusion_matrix_rejects_empty : option exn;
  (** [precision_score], [recall_score] and [f1_score] of
      [(y_true, y_pred)] with [zero_division=0]: the score, or the
      exception scikit-learn raises *)
  precision_score : list bool -> list bool -> outcome float;
  recall_score : list bool -> list bool -> outcome float;
  f1_score : list bool -> list bool -> outcome float;
  (** [json.dump(make_dict_json_compatible(metrics), fip)] *)
  json_dump : Metrics.t -> outcome unit
}.

(** The cells of a confusion matrix: the number of positions with
    true label [a] and predicted label [b]. *)
Definition cell (a b : bool) (y_true y_pred : list bool) : nat :=
  length (List.filter (fun tp => Bool.eqb tp.1 a && Bool.eqb tp.2 b)
                      (zip y_true y_pred)).

Section WithScoring.
Context {X : EngineEvaluator.Externals} {K : Scoring}.

(** [sklearn.metrics.confusion_matrix(y_true, y_pred, labels=[False,
    True])]: rows are the true labels, columns the predicted ones,
    both in the order of [labels]. *)
Definition confusion_matrix (y_true y_pred : list bool)
  : outcome (list (list nat)) :=
  match y_true, confusion_matrix_rejects_empty with
  | [], Some e => Raise e
  | _, _ =>
      Ok [[cell false false y_true y_pred; cell false true y_true y_pred];
          [cell true false y_true y_pred; cell true true y_true y_pred]]
  end.

(** [compute_image_level_metrics]; [ravel()] is [concat], and the
    scores are computed in the order of the dict. *)
Definition compute_image_level_metrics (self : EngineEvaluator.t)
  : outcome ImageMetrics.t :=
  let y_true := Row.image_label <$> EngineEvaluator.predictions_df self in
  let y_pred := Row.prediction <$> EngineEvaluator.predictions_df self in
  match confusion_matrix y_true y_pred with
  | Raise e => Raise e
  | Ok matrix =>
      match concat matrix with
      | [tn; fp; fn; tp] =>
          match precision_score y_true y_pred with
          | Raise e => Raise e
          | Ok precision =>
              match recall_score y_true y_pred with
              | Raise e => Raise e
              | Ok recall =>
                  match f1_score y_true y_pred with
                  | Raise e => Raise e
                  | Ok f1 =>
                      Ok (ImageMetrics.mk precision recall f1 tn fp fn tp)
                  end
              end
          end
      | _ => Raise (mk_exn ValueError "not enough values to unpack")
      end
  end.

(** [open(path, "w")]: the file exists and is empty from then on. *)
Definition open_w (path : string) : M EngineEvaluator.t unit :=
  modify (fun self =>
    EngineEvaluator.set_world
      (<[path := BinaryFile]> (EngineEvaluator.fs self))
      (EngineEvaluator.csv_writes self) self).

(** [evaluate]; the dict is returned, the assignment to
    [self.metrics] is not kept. *)
Definition evaluate : M EngineEvaluator.t Metrics.t :=
  EngineEvaluator.run_engine_dataset >>
  let* self := get in
  let* image_metrics := lift (compute_image_level_metrics self) in
  let* sequence_metrics :=
    lift (EngineEvaluator.compute_sequence_level_metrics self) in
  let metrics :=
    Metrics.mk (EngineEvaluator.run_id self) image_metrics sequence_metrics in
  (if EngineEvaluator.save self then
     match EngineEvaluator.result_dir self with
     | None => raise (mk_exn AttributeError
         "'EngineEvaluator' object has no attribute 'result_dir'")
     | Some dir =>
         open_w (path_join dir ["engine_metrics.json"]) >>
         lift (json_dump metrics)
     end
   else ret tt) >>
  ret metrics.

End WithScoring.
End Evaluate.

(** ** Properties of [Model.__init__], [load_model], [load_HF] and
    [inference] *)

Section ModelConstruction.
Context {B : Model.Backends} {T : ModelInit.Torch}.
Import ModelInit.

(** [__init__], step by step. *)
Lemma init_steps mp ip dev s0 :
  __init__ mp ip dev s0 =
    match Model.load_model (assign_model_path mp s0) with
    | (Raise e, s2) => (Raise e, s2)
    | (Ok m, s2) =>
        match get_device dev with
        | Raise e => (Raise e, assign_model m s2)
        | Ok d =>
            let s4 := assign_device d (assign_model m s2) in
            match m with
            | None =>
                (Raise (mk_exn AttributeError
                          "'NoneType' object has no attribute 'to'"), s4)
            | Some mo =>
                match model_to mo d with
                | Raise e => (Raise e, s4)
                | Ok _ =>
                    (Ok tt,
                     assign_inference_params
                       (Model.set_inference_params ip.1.1 ip.1.2 ip.2)
                       (assign_format None s4))
                end
            end
        end
    end.
Proof.
  unfold __init__. cbv [bind modify lift raise].
  destruct (Model.load_model _) as [[m|e] s2]; [|done].
  destruct (get_device dev) as [d|e]; [|done].
  destruct m as [mo|]; [|done].
  by destruct (model_to mo d).
Qed.

(** X1.  Constructing a [Model] on an existing local file whose name
    ends in [.onnx] always raises [RuntimeError]: [load_onnx] reads
    [self.inference_params] before [__init__] has assigned it, and
    the [AttributeError] is wrapped; the classifier is never built. *)
Theorem model_init_rejects_onnx
    (path : string) (ip : option float * option float * option Z)
    (dev : option string) (log : list log_record) :
  path <> "" ->
  Model.isfile path = true ->
  endswith path ".onnx" = true ->
  (__init__ (Some path) ip dev (blank log)).1 =
    Raise (mk_exn RuntimeError
      ("Failed to load the ONNX model from " ++ path ++
       ": 'Model' object has no attribute 'inference_params'")).
Proof.
  intros Hne Hfile Honnx. rewrite init_steps.
  rewrite (load_model_path (assign_model_path (Some path) (blank log)) path)
    by done.
  cbv zeta. rewrite Hfile, Honnx. reflexivity.
Qed.

(** X2.  [__init__] completes only for an existing local file whose
    name ends in [.pt] and not in [.onnx]; the object then holds the
    model [YOLO] returned, moved to the selected device, the given
    parameters with their defaults, and [format = None] (the value
    ["pt"] set by [load_model] is overwritten). *)
Theorem model_init_succeeds_only_for_pt
    (mp : option string) (ip : option float * option float * option Z)
    (dev : option string) (log : list log_record) (s : Model.t) :
  __init__ mp ip dev (blank log) = (Ok tt, s) ->
  exists path m d,
    mp = Some path /\ path <> "" /\
    Model.isfile path = true /\
    endswith path ".onnx" = false /\ endswith path ".pt" = true /\
    Model.YOLO path = Ok m /\
    get_device dev = Ok d /\ model_to m d = Ok tt /\
    s = Model.mk (Some path) (Some m) (Some d) None
          (Some (Model.set_inference_params ip.1.1 ip.1.2 ip.2))
          (log ++ [(INFO, ("Loading model : " ++ path)%string)])%list.
Proof.
  rewrite init_steps.
  destruct mp as [path|]; [|done].
  destruct (String.eqb_spec path "") as [->|Hne]; [done|].
  rewrite (load_model_path (assign_model_path (Some path) (blank log)) path)
    by done.
  cbv zeta.
  destruct (Model.isfile path) eqn:Hfile.
  - destruct (endswith path ".onnx") eqn:Honnx; [done|].
    destruct (endswith path ".pt") eqn:Hpt.
    + cbv [bind Model.set_format modify lift ret].
      destruct (Model.YOLO path) as [m|e] eqn:Hyolo; [|done].
      destruct (get_device dev) as [d|e] eqn:Hdev; [|done].
      cbv zeta. destruct (model_to m d) as [[]|e] eqn:Hto; [|done].
      intros [= <-]. exists path, m, d. by split_and!.
    + destruct (get_device dev); done.
  - cbv [bind raise ret].
    destruct (contains "huggingface.co" path); [|done].
    destruct (Model.load_HF path _) as [[]]; done.
Qed.

(** X3.  On an existing local file whose name ends in neither
    [.onnx] nor [.pt], [load_model] returns [None] and [__init__]
    then fails on [self.model.to] with [AttributeError] (if the
    device could be selected). *)
Theorem model_init_unknown_extension
    (path : string) (ip : option float * option float * option Z)
    (dev : option string) (log : list log_record) (d : Model.device_t) :
  path <> "" ->
  Model.isfile path = true ->
  endswith path ".onnx" = false -> endswith path ".pt" = false ->
  get_device dev = Ok d ->
  (__init__ (Some path) ip dev (blank log)).1 =
    Raise (mk_exn AttributeError "'NoneType' object has no attribute 'to'").
Proof.
  intros Hne Hfile Honnx Hpt Hdev. rewrite init_steps.
  rewrite (load_model_path (assign_model_path (Some path) (blank log)) path)
    by done.
  cbv zeta. rewrite Hfile, Honnx, Hpt, Hdev. reflexivity.
Qed.

End ModelConstruction.

Section ModelLoading.
Context {B : Model.Backends}.

(** X4.  [load_model] returns a model only for an existing local
    file: one whose name ends in [.onnx], built by [Classifier] with
    [format] set to ["onnx"], or else one whose name ends in [.pt],
    built by [YOLO] with [format] set to ["pt"]. *)
Theorem load_model_returns_only_local_models
    (self s' : Model.t) (m : Model.model_obj) :
  Model.load_model self = (Ok (Some m), s') ->
  exists path,
    Model.model_path self = Some path /\ Model.isfile path = true /\
    ((endswith path ".onnx" = true /\ Model.format s' = Some "onnx" /\
      exists ip, Model.inference_params self = Some ip /\
                 Model.Classifier path (Model.p_conf ip) = Ok m) \/
     (endswith path ".onnx" = false /\ endswith path ".pt" = true /\
      Model.format s' = Some "pt" /\ Model.YOLO path = Ok m)).
Proof.
  destruct (Model.model_path self) as [path|] eqn:Hp;
    [|unfold Model.load_model, bind, get; rewrite Hp; done].
  destruct (String.eqb_spec path "") as [->|Hne];
    [unfold Model.load_model, bind, get; rewrite Hp; done|].
  rewrite (load_model_path self path) by done. cbv zeta.
  destruct (Model.isfile path) eqn:Hfile.
  - destruct (endswith path ".onnx") eqn:Honnx.
    + unfold Model.load_onnx.
      cbv [bind try_except Model.attr get raise ret lift Model.logging
           Model.set_format modify]. cbn.
      destruct (Model.inference_params self) as [ip|] eqn:Hip; [|done].
      destruct (Model.Classifier path (Model.p_conf ip)) as [m'|e] eqn:Hc.
      * intros [= <- <-]. exists path. split_and!; try done.
        left. split_and!; try done. by exists ip.
      * by destruct (is_Exception e).
    + destruct (endswith path ".pt") eqn:Hpt; [|done].
      cbv [bind Model.set_format modify lift ret].
      destruct (Model.YOLO path) as [m'|e] eqn:Hy; [|done].
      intros [= <- <-]. exists path. split_and!; try done.
      right. by split_and!.
  - cbv [bind raise ret].
    destruct (contains "huggingface.co" path); [|done].
    destruct (Model.load_HF path _) as [[]]; done.
Qed.

(** The token [load_HF] goes on with, and the repository and file it
    asks for. *)
Definition hf_token : option string :=
  if truthy_str Model.getenv_HF_TOKEN then Model.getenv_HF_TOKEN
  else Model.HfFolder_get_token.

Definition hf_repo_id (path : string) : string :=
  split_last "https://huggingface.co/" path.

Definition hf_filename (path : string) : string :=
  basename (hf_repo_id path) ++ ".pt".

(** X5.  [load_HF] raises [ValueError] without a token and when the
    download raises [HfHubHTTPError]; any other exception of the
    download propagates unchanged; and it returns a model only after
    the download and the repository check succeeded, as the result
    of [YOLO(self.model_path)] with [format] set to ["hf"]. *)
Theorem load_HF_outcomes (self : Model.t) (path : string) :
  (hf_token = None ->
   Model.load_HF path self =
     (Raise (mk_exn ValueError
        "Error : no Hugging Face token found. Please authenticate with `huggingface-cli login`."),
      self)) /\
  (forall tok e,
     hf_token = Some tok ->
     Model.hf_hub_download (hf_repo_id path) (hf_filename path) = Raise e ->
     Model.load_HF path self =
       (Raise (if is_HfHubHTTPError e
               then mk_exn ValueError
                      ("Access denied to  (" ++ hf_repo_id path ++ "): "
                       ++ exn_msg e)
               else e),
        self)) /\
  (forall m s',
     Model.load_HF path self = (Ok m, s') ->
     exists tok,
       hf_token = Some tok /\
       Model.hf_hub_download (hf_repo_id path) (hf_filename path) = Ok tt /\
       Model.model_info (hf_repo_id path) tok = Ok true /\
       Model.YOLO path = Ok m /\
       Model.format s' = Some "hf").
Proof.
  unfold Model.load_HF. fold hf_token. fold (hf_repo_id path).
  fold (hf_filename path).
  split_and!.
  - by intros ->.
  - intros tok e -> He.
    cbv [bind try_except lift raise]. rewrite He.
    by destruct (is_HfHubHTTPError e).
  - intros m s'. destruct hf_token as [tok|]; [|done].
    cbv [bind try_except lift raise Model.set_format modify].
    destruct (Model.hf_hub_download _ _) as [[]|e] eqn:Hd;
      [|by destruct (is_HfHubHTTPError e)].
    destruct (Model.model_info _ _) as [[]|e] eqn:Hi; [|done|done]. cbn.
    destruct (Model.YOLO path) as [m'|e] eqn:Hy; [|done].
    intros [= <- <-]. by exists tok.
Qed.

(** X6.  [inference] leaves every attribute as it was: either the
    state is unchanged, or the result is the empty prediction and one
    [ERROR] record was added to the log. *)
Theorem inference_only_logs
    (self s' : Model.t) (image : CustomImage.t)
    (r : outcome (list (list float))) :
  Model.inference image self = (r, s') ->
  s' = self \/ (r = Ok [] /\ exists msg, s' = logged ERROR msg self).
Proof.
  unfold Model.inference. cbv [bind lift get try_except].
  destruct (Model.load image) as [pil|e]; [|intros [= <- <-]; by left].
  pose proof (inference_body_state pil self) as Hst.
  destruct (Model.inference_body pil self) as [[p|e] s1]; cbn in Hst; subst s1.
  - intros [= <- <-]. by left.
  - destruct (is_Exception e).
    + cbv [bind Model.logging modify ret]. intros [= <- <-]. right. eauto.
    + intros [= <- <-]. by left.
Qed.

(** X7.  [inference] raises only what [image.load()] raises, or an
    exception outside [Exception] raised under the [try]; an
    [Exception] of the model call never leaves it. *)
Theorem inference_raises_only
    (self s' : Model.t) (image : CustomImage.t) (e : exn) :
  Model.inference image self = (Raise e, s') ->
  s' = self /\
  (Model.load image = Raise e \/
   exists pil, Model.load image = Ok pil /\
               (Model.inference_body pil self).1 = Raise e /\
               is_Exception e = false).
Proof.
  unfold Model.inference. cbv [bind lift get try_except].
  destruct (Model.load image) as [pil|e0]; [|intros [= <- <-]; by eauto].
  pose proof (inference_body_state pil self) as Hst.
  destruct (Model.inference_body pil self) as [[p|e0] s1] eqn:Hb;
    cbn in Hst; subst s1; [done|].
  destruct (is_Exception e0) eqn:Hexc; [done|].
  intros [= <- <-]. split; [done|]. right. exists pil.
  rewrite Hb. by split_and!.
Qed.

(** The rows built from the boxes of a result. *)
Lemma format_boxes_ok (bs : list Model.box) (rows : list (list float)) :
  Forall2 (fun b row =>
             exists xy c, Model.xyxyn b = Ok xy /\ Model.conf b = Ok c /\
                          row = (xy ++ [c])%list) bs rows ->
  Model.format_boxes bs = Ok rows.
Proof.
  induction 1 as [|b row bs rows (xy & c & Hxy & Hc & ->) _ IH]; [done|].
  cbn. by rewrite Hxy, Hc, IH.
Qed.

(** X8.  When the format is not ["onnx"] and [predict] answers, the
    prediction has one row per box of the first result, in order,
    each row being the box's four coordinates followed by its
    confidence; further results are ignored. *)
Theorem inference_formats_first_result
    (self : Model.t) (image : CustomImage.t) (pil : Model.pil_image)
    (m : Model.model_obj) (ip : Model.params) (dev : Model.device_t)
    (results : list Model.box) (others : list (list Model.box))
    (rows : list (list float)) :
  Model.load image = Ok pil ->
  Model.format self <> Some "onnx" ->
  Model.model self = Some m ->
  Model.inference_params self = Some ip ->
  Model.device self = Some dev ->
  Model.predict m pil (Model.p_conf ip) (Model.p_iou ip) (Model.p_imgsz ip) dev
    = Ok (results :: others) ->
  Forall2 (fun b row =>
             exists xy c, Model.xyxyn b = Ok xy /\ Model.conf b = Ok c /\
                          row = (xy ++ [c])%list) results rows ->
  Model.inference image self = (Ok rows, self).
Proof.
  intros Hload Hfmt Hm Hip Hdev Hpred Hrows.
  unfold Model.inference, Model.inference_body.
  cbv [bind lift get try_except]. rewrite Hload.
  rewrite bool_decide_eq_false_2 by done.
  rewrite (attr_Some _ _ _ _ Hm), (attr_Some _ _ _ _ Hip),
    (attr_Some _ _ _ _ Hdev), Hpred.
  by rewrite (format_boxes_ok _ _ Hrows).
Qed.

(** X9.  When [predict] answers with an empty list, indexing it
    raises [IndexError] under the [try]: the prediction is empty and
    the failure is logged. *)
Theorem inference_empty_results
    (self : Model.t) (image : CustomImage.t) (pil : Model.pil_image)
    (m : Model.model_obj) (ip : Model.params) (dev : Model.device_t) :
  Model.load image = Ok pil ->
  Model.format self <> Some "onnx" ->
  Model.model self = Some m ->
  Model.inference_params self = Some ip ->
  Model.device self = Some dev ->
  Model.predict m pil (Model.p_conf ip) (Model.p_iou ip) (Model.p_imgsz ip) dev
    = Ok [] ->
  Model.inference image self =
    (Ok [],
     logged ERROR
       ("Inference failed on " ++ CustomImage.path image
        ++ " : list index out of range") self).
Proof.
  intros Hload Hfmt Hm Hip Hdev Hpred.
  unfold Model.inference, Model.inference_body.
  cbv [bind lift get try_except raise]. rewrite Hload.
  rewrite !bool_decide_eq_false_2 by done.
  rewrite (attr_Some _ _ _ _ Hm), (attr_Some _ _ _ _ Hip),
    (attr_Some _ _ _ _ Hdev), Hpred.
  reflexivity.
Qed.

End ModelLoading.

(** ** Properties of [EngineEvaluator.__init__] *)

Section EvaluatorConstruction.
Context {S : EngineEvaluatorInit.Setup}.
Import EngineEvaluatorInit.

(** The three entries [Engine(..)] is given, read in this order. *)
Definition engine_keys : list string :=
  ["nb_consecutive_frames"; "conf_thresh"; "max_bbox_size"].

(** The call [Engine(..)] at the end of [instanciate_engine]. *)
Definition build_engine : M partial Engine.t :=
  let* nb := config_item "nb_consecutive_frames" in
  let* ct := config_item "conf_thresh" in
  let* mb := config_item "max_bbox_size" in
  let* self := get in
  lift (Engine_new nb ct mb (p_run_model_path self)).

Lemma build_engine_missing_key self :
  (exists key, key ∈ engine_keys /\ p_config self !! key = None) ->
  exists key,
    key ∈ engine_keys /\ p_config self !! key = None /\
    build_engine self = (Raise (mk_exn KeyError ("'" ++ key ++ "'")), self).
Proof.
  intros (key & Hin & Hnone).
  unfold build_engine. cbv [bind config_item get ret raise lift].
  destruct (p_config self !! "nb_consecutive_frames") as [nb|] eqn:Hnb;
    [|exists "nb_consecutive_frames"; split_and!;
      [apply list_elem_of_In; cbn; tauto|done|done]].
  destruct (p_config self !! "conf_thresh") as [ct|] eqn:Hct;
    [|exists "conf_thresh"; split_and!;
      [apply list_elem_of_In; cbn; tauto|done|done]].
  destruct (p_config self !! "max_bbox_size") as [mb|] eqn:Hmb;
    [|exists "max_bbox_size"; split_and!;
      [apply list_elem_of_In; cbn; tauto|done|done]].
  apply list_elem_of_In in Hin. cbn in Hin.
  destruct Hin as [<-|[<-|[<-|[]]]]; congruence.
Qed.

Lemma build_engine_inv self e self' :
  build_engine self = (Ok e, self') ->
  self' = self /\
  exists nb ct mb,
    p_config self !! "nb_consecutive_frames" = Some nb /\
    p_config self !! "conf_thresh" = Some ct /\
    p_config self !! "max_bbox_size" = Some mb /\
    Engine_new nb ct mb (p_run_model_path self) = Ok e.
Proof.
  unfold build_engine. cbv [bind config_item get ret raise lift].
  destruct (p_config self !! "nb_consecutive_frames") as [nb|]; [|done].
  destruct (p_config self !! "conf_thresh") as [ct|]; [|done].
  destruct (p_config self !! "max_bbox_size") as [mb|]; [|done].
  destruct (Engine_new _ _ _ _) as [e'|] eqn:He; [|done].
  intros [= <- <-]. split; [done|]. by exists nb, ct, mb.
Qed.

(** [instanciate_engine], step by step. *)
Lemma instanciate_engine_steps self :
  instanciate_engine self =
    match p_model_path self with
    | PyNone => build_engine self
    | PyStr path =>
        if endswith path ".onnx"
        then build_engine (set_run_model_path path self)
        else if endswith path ".pt" then
          match export_model path (p_fs self) with
          | (Ok exported, fs') =>
              build_engine
                (mk_partial (p_config self) (p_model_path self)
                            (Some exported) true fs')
          | (Raise e, fs') =>
              (Raise e,
               mk_partial (p_config self) (p_model_path self)
                          (p_run_model_path self) (p_needs_deletion self) fs')
          end
        else (Raise (mk_exn RuntimeError
                ("Model format not supported by the Engine : " ++ path)),
              self)
    | other =>
        (Raise (mk_exn AttributeError
           ("'" ++ type_name other ++ "' object has no attribute 'endswith'")),
         self)
    end.
Proof.
  unfold instanciate_engine. fold build_engine.
  unfold bind at 1. unfold get at 1.
  destruct (p_model_path self) as [|b|n|x|path|l|items maxlen] eqn:Hmp;
    try done.
  destruct (endswith path ".onnx"); [done|].
  destruct (endswith path ".pt"); [|done].
  cbv [bind call_export_model modify set_run_model_path set_needs_deletion].
  destruct (export_model path (p_fs self)) as [[exported|] fs']; cbn;
    by rewrite Hmp.
Qed.

(** X10.  A [model_path] whose name ends in neither [.onnx] nor [.pt]
    makes the constructor raise [RuntimeError] before any entry of
    the configuration is read and before anything is exported: the
    file system is as it was. *)
Theorem evaluator_init_rejects_other_formats
    (dataset : list Sequence.t) (config : gmap string pyval)
    (save resume : bool) (run_id : option string)
    (fs : gmap string file) (path : string) :
  config !! "model_path" = Some (PyStr path) ->
  endswith path ".onnx" = false -> endswith path ".pt" = false ->
  __init__ dataset config save run_id resume fs =
    (Raise (mk_exn RuntimeError
              ("Model format not supported by the Engine : " ++ path)),
     fs).
Proof.
  intros Hp Honnx Hpt. unfold __init__.
  rewrite instanciate_engine_steps, Hp. cbn. by rewrite Honnx, Hpt.
Qed.

(** X11.  With a [.pt] model and a configuration lacking one of the
    entries the engine needs, the constructor raises [KeyError] for
    the first missing entry only after the model was exported: the
    file system is the one [export_model] left, the exported file is
    not removed. *)
Theorem evaluator_init_missing_key_after_export
    (dataset : list Sequence.t) (config : gmap string pyval)
    (save resume : bool) (run_id : option string)
    (fs fs' : gmap string file) (path exported : string) :
  config !! "model_path" = Some (PyStr path) ->
  endswith path ".onnx" = false -> endswith path ".pt" = true ->
  export_model path fs = (Ok exported, fs') ->
  (exists key, key ∈ engine_keys /\ config !! key = None) ->
  exists key,
    key ∈ engine_keys /\ config !! key = None /\
    __init__ dataset config save run_id resume fs =
      (Raise (mk_exn KeyError ("'" ++ key ++ "'")), fs').
Proof.
  intros Hp Honnx Hpt Hexp Hmiss.
  destruct (build_engine_missing_key
              (mk_partial config (PyStr path) (Some exported) true fs') Hmiss)
    as (key & Hin & Hnone & Hbuild).
  exists key. split_and!; [done|done|].
  unfold __init__. rewrite instanciate_engine_steps, Hp. cbn.
  by rewrite Honnx, Hpt, Hexp, Hbuild.
Qed.

(** X12.  A constructed evaluator has an empty [predictions_csv], no
    [result_dir], the given [run_id] unless it is empty or [None],
    and the engine [Engine(..)] returned for the three configuration
    entries; [needs_deletion] is set exactly when the model was
    exported from a [.pt] file, in which case [run_model_path] is
    the exported file. *)
Theorem evaluator_init_result
    (dataset : list Sequence.t) (config : gmap string pyval)
    (save resume : bool) (run_id : option string)
    (fs fs' : gmap string file) (ev : EngineEvaluator.t) :
  __init__ dataset config save run_id resume fs = (Ok ev, fs') ->
  EngineEvaluator.dataset ev = dataset /\
  EngineEvaluator.config ev = config /\
  EngineEvaluator.save ev = save /\
  EngineEvaluator.resume ev = resume /\
  EngineEvaluator.run_id ev =
    (if truthy_str run_id then default EmptyString run_id
     else generate_run_id) /\
  EngineEvaluator.predictions_csv ev = EmptyString /\
  EngineEvaluator.result_dir ev = None /\
  EngineEvaluator.fs ev = fs' /\
  (exists nb ct mb,
     config !! "nb_consecutive_frames" = Some nb /\
     config !! "conf_thresh" = Some ct /\
     config !! "max_bbox_size" = Some mb /\
     Engine_new nb ct mb (EngineEvaluator.run_model_path ev)
       = Ok (EngineEvaluator.engine ev)) /\
  match default PyNone (config !! "model_path") with
  | PyNone =>
      EngineEvaluator.run_model_path ev = None /\
      EngineEvaluator.needs_deletion ev = false /\ fs' = fs
  | PyStr path =>
      if endswith path ".onnx" then
        EngineEvaluator.run_model_path ev = Some path /\
        EngineEvaluator.needs_deletion ev = false /\ fs' = fs
      else
        endswith path ".pt" = true /\
        EngineEvaluator.needs_deletion ev = true /\
        exists exported,
          export_model path fs = (Ok exported, fs') /\
          EngineEvaluator.run_model_path ev = Some exported
  | _ => False
  end.
Proof.
  unfold __init__. rewrite instanciate_engine_steps. cbn [p_model_path p_fs].
  destruct (default PyNone (config !! "model_path")) as [| | | |path| |];
    try done.
  - destruct (build_engine _) as [[e|] s1] eqn:Hb; [|done].
    apply build_engine_inv in Hb as (-> & nb & ct & mb & ? & ? & ? & ?).
    intros [= <- <-]. cbn. split_and!; try done. by exists nb, ct, mb.
  - destruct (endswith path ".onnx") eqn:Honnx.
    + destruct (build_engine _) as [[e|] s1] eqn:Hb; [|done].
      apply build_engine_inv in Hb as (-> & nb & ct & mb & ? & ? & ? & ?).
      intros [= <- <-]. cbn. split_and!; try done. by exists nb, ct, mb.
    + destruct (endswith path ".pt") eqn:Hpt; [|done].
      destruct (export_model path fs) as [[exported|] fs1] eqn:Hexp; [|done].
      destruct (build_engine _) as [[e|] s1] eqn:Hb; [|done].
      apply build_engine_inv in Hb as (-> & nb & ct & mb & ? & ? & ? & ?).
      intros [= <- <-]. cbn. split_and!; try done; [by exists nb, ct, mb|].
      by exists exported.
Qed.

End EvaluatorConstruction.

(** ** Properties of the sequence runner and the dataset loop *)

Section DatasetRun.
Context {X : EngineEvaluator.Externals}.
Import EngineEvaluator.
Local Open Scope list_scope.

(** X13.  The window size is read from the configuration only after
    the frames have been processed: when the entry is missing, the
    engine has answered every frame, [KeyError] is raised, no row is
    returned and [_states] is left as the engine's last call left
    it. *)
Theorem run_engine_sequence_missing_window_size
    (self : t) (sequence : Sequence.t) (answers : list (float * Engine.t)) :
  config self !! "nb_consecutive_frames" = None ->
  engine_answers (engine self) (Sequence.images sequence) = Some answers ->
  run_engine_sequence sequence self =
    (Raise (mk_exn KeyError "'nb_consecutive_frames'"),
     set_engine (final_engine (engine self) answers) self).
Proof.
  intros Hnb Ha.
  destruct (predict_images_ok sequence _ [] self answers Ha)
    as (new & Hrun & _).
  unfold run_engine_sequence, bind at 1. rewrite Hrun.
  cbv [bind config_get get ret raise]. cbn. by rewrite Hnb.
Qed.

(** The attributes no step of the loop assigns. *)
Definition same_settings (a b : t) : Prop :=
  dataset b = dataset a /\ config b = config a /\ save b = save a /\
  run_id b = run_id a /\ resume b = resume a /\
  predictions_csv b = predictions_csv a /\
  needs_deletion b = needs_deletion a /\
  run_model_path b = run_model_path a /\ result_dir b = result_dir a.

(** How the loop may move the state from [a] to [b]: settings kept,
    rows only added at the end of the table, [to_csv] calls only
    added to the journal and all on [predictions_csv]; nothing
    written at all without [save]. *)
Definition grows (a b : t) : Prop :=
  same_settings a b /\
  (exists new, predictions_df b = predictions_df a ++ new) /\
  (exists w, csv_writes b = csv_writes a ++ w /\
             Forall (fun x => x.1 = predictions_csv a) w) /\
  (save a = false -> fs b = fs a /\ csv_writes b = csv_writes a).

Lemma grows_refl a : grows a a.
Proof.
  unfold grows, same_settings. split_and!; try done.
  - by exists []; rewrite app_nil_r.
  - exists []. by rewrite app_nil_r.
Qed.

Lemma grows_trans a b c : grows a b -> grows b c -> grows a c.
Proof.
  intros (Hs1 & (n1 & Hn1) & (w1 & Hw1 & Hf1) & Hq1)
         (Hs2 & (n2 & Hn2) & (w2 & Hw2 & Hf2) & Hq2).
  destruct Hs1 as (? & ? & Hsave & ? & ? & Hcsv & ? & ? & ?).
  destruct Hs2 as (? & ? & ? & ? & ? & ? & ? & ? & ?).
  unfold grows, same_settings. split_and!; try congruence.
  - exists (n1 ++ n2). by rewrite Hn2, Hn1, app_assoc.
  - exists (w1 ++ w2). split; [by rewrite Hw2, Hw1, app_assoc|].
    apply Forall_app. split; [done|]. by rewrite <- Hcsv.
  - intros Hsv. destruct (Hq1 Hsv) as [? ?].
    destruct Hq2 as [? ?]; [congruence|]. split; congruence.
Qed.

Lemma grows_set_engine e a : grows a (set_engine e a).
Proof.
  destruct a. unfold grows, same_settings. split_and!; try done.
  - by exists []; rewrite app_nil_r.
  - exists []. by rewrite app_nil_r.
Qed.

Lemma grows_appended rows a : grows a (appended rows a).
Proof.
  unfold appended.
  destruct (save (set_predictions_df _ a) && _) eqn:Hw; destruct a; cbn in *;
    unfold grows, same_settings; cbn.
  - split_and!; try done; [by eexists| |].
    + eexists. split; [done|]. by repeat constructor.
    + intros ->. done.
  - split_and!; try done; [by eexists|].
    exists []. by rewrite app_nil_r.
Qed.

Lemma loop_body_grows sequence self :
  grows self (loop_body sequence self).2.
Proof.
  destruct (resume self &&
            bool_decide (Sequence.sequence_id sequence ∈ seen_sequence_ids self))
    eqn:Hskip.
  - unfold loop_body, bind, get. rewrite Hskip. apply grows_refl.
  - rewrite loop_body_run.
    + destruct (run_engine_sequence_state sequence self) as [e1 He1].
      destruct (run_engine_sequence sequence self) as [[rows|e] s1];
        cbn in He1; subst s1; cbn.
      * eapply grows_trans;
          [apply grows_set_engine|apply grows_appended].
      * apply grows_set_engine.
    + apply andb_false_iff in Hskip as [?|Hn]; [by left|right].
      apply bool_decide_eq_false in Hn. by rewrite <- seen_sequence_ids_spec.
Qed.

Lemma dataset_loop_grows seqs self :
  grows self (dataset_loop seqs self).2.
Proof.
  revert self. induction seqs as [|sequence seqs IH]; intros self.
  - apply grows_refl.
  - cbn [dataset_loop]. unfold bind.
    pose proof (loop_body_grows sequence self) as Hb.
    destruct (loop_body sequence self) as [[[]|e] s1]; cbn in Hb; [|done].
    eapply grows_trans; [done|apply IH].
Qed.

(** X14.  Whether the loop over the dataset returns or raises, it
    keeps every setting of the evaluator, only adds rows at the end
    of the table, and only adds [to_csv] calls, all of them on
    [predictions_csv]; without [save] it writes nothing. *)
Theorem dataset_loop_is_append_only (seqs : list Sequence.t) (self : t) :
  let after := (dataset_loop seqs self).2 in
  same_settings self after /\
  (exists new, predictions_df after = predictions_df self ++ new) /\
  (exists w, csv_writes after = csv_writes self ++ w /\
             Forall (fun x => x.1 = predictions_csv self) w) /\
  (save self = false ->
   fs after = fs self /\ csv_writes after = csv_writes self).
Proof. apply dataset_loop_grows. Qed.

(** X15.  With [resume] set and a table that holds a row for every
    sequence of the dataset, the loop returns without calling the
    engine or touching the table, the files or the journal. *)
Theorem dataset_loop_resumes_complete_table
    (seqs : list Sequence.t) (self : t) :
  resume self = true ->
  (forall sequence, sequence ∈ seqs ->
     Sequence.sequence_id sequence ∈ (Row.sequence_id <$> predictions_df self)) ->
  dataset_loop seqs self = (Ok tt, self).
Proof.
  intros Hres. induction seqs as [|sequence seqs IH]; intros Hall; [done|].
  cbn [dataset_loop]. unfold bind, loop_body at 1, bind, get.
  rewrite Hres, bool_decide_eq_true_2.
  - cbn. apply IH. intros s Hs. apply Hall. by right.
  - apply seen_sequence_ids_spec, Hall. left.
Qed.

(** The engine answers every frame when nothing can fail. *)
Lemma engine_answers_total e imgs :
  (forall image, exists pil, load image = Ok pil) ->
  (forall e0 pil, exists c, (predict e0 pil).1 = Ok c) ->
  exists tr, engine_answers e imgs = Some tr.
Proof.
  intros Hload Hpred. revert e.
  induction imgs as [|image imgs IH]; intros e; cbn; [eauto|].
  destruct (Hload image) as [pil ->].
  destruct (Hpred e pil) as [c Hc].
  destruct (predict e pil) as [r e']. cbn in Hc. subst r.
  destruct (IH e') as [tr ->]. eauto.
Qed.

(** X16.  Without [resume], when no image fails to load, the engine
    never raises and the window size is accepted, the loop returns
    and the table has grown by one row per frame of the dataset. *)
Theorem dataset_loop_adds_one_row_per_frame
    (seqs : list Sequence.t) (self : t) (nb dq : pyval) :
  resume self = false ->
  config self !! "nb_consecutive_frames" = Some nb ->
  deque_new nb = Ok dq ->
  (forall image, exists pil, load image = Ok pil) ->
  (forall e pil, exists c, (predict e pil).1 = Ok c) ->
  exists after,
    dataset_loop seqs self = (Ok tt, after) /\
    length (predictions_df after) =
      (length (predictions_df self) +
       sum_list ((fun s => length (Sequence.images s)) <$> seqs))%nat.
Proof.
  intros Hres Hnb Hdq Hload Hpred. revert self Hres Hnb.
  induction seqs as [|sequence seqs IH]; intros self Hres Hnb.
  - exists self. cbn. split; [done|lia].
  - destruct (engine_answers_total (engine self) (Sequence.images sequence)
                Hload Hpred) as [tr Htr].
    destruct (run_engine_sequence_ok sequence self tr nb dq Htr Hnb Hdq)
      as (rows & Hrun & Hm).
    apply records_match_length in Hm as [Hlen _].
    pose proof (loop_body_grows sequence self) as Hg.
    cbn [dataset_loop]. unfold bind.
    rewrite loop_body_run in * by by left.
    rewrite Hrun in *. cbn in Hg.
    destruct Hg as ((_ & Hcfg & _ & _ & Hres' & _) & _).
    destruct (IH (appended rows (set_engine
                (reset_engine (final_engine (engine self) tr) dq) self)))
      as (after & Hloop & Hcount); [congruence|congruence|].
    exists after. split; [done|]. rewrite Hcount. cbn.
    assert (length (predictions_df (appended rows (set_engine
              (reset_engine (final_engine (engine self) tr) dq) self)))
            = (length (predictions_df self) + length rows)%nat) as ->.
    { unfold appended. destruct (save _ && _); destruct self; cbn;
        by rewrite length_app. }
    lia.
Qed.

(** The files after [os.remove(p)] under the bare [except]: [p] is
    removed unless the operating system refuses; a refusal, like the
    absence of the file, leaves the files as they are. *)
Definition after_remove (p : string) (f : gmap string file)
  : gmap string file :=
  match os_remove_refused p with
  | Some _ => f
  | None => delete p f
  end.

(** What the [finally] block does. *)
Lemma cleanup_result (s : t) :
  exists f,
    cleanup s = (Ok tt, set_world f (csv_writes s) s) /\
    f = (if needs_deletion s
         then match run_model_path s with
              | Some p => after_remove p (fs s)
              | None => fs s
              end
         else fs s).
Proof.
  unfold cleanup, bind, get, after_remove. destruct (needs_deletion s).
  - destruct (run_model_path s) as [p|]; cbn.
    + cbv [try_except bind get modify raise].
      destruct (fs s !! p) as [x|] eqn:Hp.
      * rewrite bool_decide_eq_true_2 by eauto.
        destruct (os_remove_refused p) as [e|]; cbn.
        -- exists (fs s). split; [by destruct s|done].
        -- eauto.
      * rewrite bool_decide_eq_false_2 by (by intros [? ?]).
        cbn. exists (fs s). split; [by destruct s|].
        destruct (os_remove_refused p); [done|]. by rewrite delete_id.
    + exists (fs s). by destruct s.
  - exists (fs s). by destruct s.
Qed.

(** X17.  The [finally] block never raises and never changes the
    outcome of the loop: after it, whether the loop returned or
    raised, the engine, the table and the journal are those the loop
    left.  The files are as the loop left them when [needs_deletion]
    is not set, when [run_model_path] is [None], and when the
    operating system refuses to remove the file at [run_model_path]
    (the exception is swallowed and the file stays); when
    [os.remove] is not refused, the file at [run_model_path] is gone
    and every other file is as the loop left it. *)
Theorem loop_then_cleanup (seqs : list Sequence.t) (self : t) :
  let after_loop := dataset_loop seqs self in
  let final := try_finally (dataset_loop seqs) cleanup self in
  final.1 = after_loop.1 /\
  engine final.2 = engine after_loop.2 /\
  predictions_df final.2 = predictions_df after_loop.2 /\
  csv_writes final.2 = csv_writes after_loop.2 /\
  (needs_deletion self = false -> fs final.2 = fs after_loop.2) /\
  (needs_deletion self = true -> run_model_path self = None ->
   fs final.2 = fs after_loop.2) /\
  (forall p e,
     needs_deletion self = true -> run_model_path self = Some p ->
     os_remove_refused p = Some e ->
     fs final.2 = fs after_loop.2) /\
  (forall p,
     needs_deletion self = true -> run_model_path self = Some p ->
     os_remove_refused p = None ->
     fs final.2 !! p = None /\
     forall q, q <> p -> fs final.2 !! q = fs after_loop.2 !! q).
Proof.
  cbv zeta. unfold try_finally.
  pose proof (dataset_loop_grows seqs self) as ((_ & _ & _ & _ & _ & _ & Hnd & Hrp & _) & _).
  destruct (dataset_loop seqs self) as [r s1]. cbn [fst snd] in *.
  destruct (cleanup_result s1) as (f & -> & Hf). rewrite Hnd, Hrp in Hf.
  cbn. split_and!; try by destruct s1.
  - intros Hno. rewrite Hno in Hf. subst f. by destruct s1.
  - intros Hyes Hp. rewrite Hyes, Hp in Hf. subst f. by destruct s1.
  - intros p e Hyes Hp He. rewrite Hyes, Hp in Hf. subst f.
    unfold after_remove. rewrite He. by destruct s1.
  - intros p Hyes Hp He. rewrite Hyes, Hp in Hf. subst f.
    unfold after_remove. rewrite He.
    destruct s1; cbn. split; [apply lookup_delete_eq|].
    intros q Hq. by apply lookup_delete_ne.
Qed.

End DatasetRun.

(** ** Properties of [run_engine_dataset] as a whole *)

Section WholeRun.
Context {X : EngineEvaluator.Externals}.
Import EngineEvaluator.
Local Open Scope list_scope.

(** The path of the predictions file of a run that saves. *)
Definition results_path (self : t) : string :=
  path_join (path_join package_dir ["data/results/engine"; run_id self])
            ["results.csv"].

(** The state after the [if self.save] block at the start. *)
Definition prepared (self : t) : t :=
  if save self
  then set_result_paths
         (path_join package_dir ["data/results/engine"; run_id self])
         (results_path self) self
  else self.

(** The table the loop starts from: the checkpoint when there is a
    file at [predictions_csv] and [resume] is set, else no row. *)
Definition checkpoint (s : t) : outcome (list Row.t) :=
  if isfile s (predictions_csv s) && resume s
  then (read_csv (predictions_csv s) s).1
  else Ok [].

Lemma read_csv_state p s : (read_csv p s).2 = s.
Proof.
  unfold read_csv, bind, get, ret, raise.
  by destruct (fs s !! p) as [[]|].
Qed.

(** The loop under its [finally] block. *)
Lemma guarded_loop_result seqs s :
  exists f,
    try_finally (dataset_loop seqs) cleanup s =
      ((dataset_loop seqs s).1,
       set_world f (csv_writes (dataset_loop seqs s).2)
                 (dataset_loop seqs s).2) /\
    f = (if needs_deletion s
         then match run_model_path s with
              | Some p => after_remove p (fs (dataset_loop seqs s).2)
              | None => fs (dataset_loop seqs s).2
              end
         else fs (dataset_loop seqs s).2).
Proof.
  unfold try_finally.
  pose proof (dataset_loop_grows seqs s)
    as ((_ & _ & _ & _ & _ & _ & Hnd & Hrp & _) & _).
  destruct (dataset_loop seqs s) as [r s1]. cbn [fst snd] in *.
  destruct (cleanup_result s1) as (f & -> & Hf). rewrite Hnd, Hrp in Hf.
  by exists f.
Qed.

(** [run_engine_dataset], step by step. *)
Lemma run_engine_dataset_steps self :
  run_engine_dataset self =
    let s1 := prepared self in
    match checkpoint s1 with
    | Raise e => (Raise e, s1)
    | Ok df =>
        let s3 := set_predictions_df df s1 in
        match try_finally (dataset_loop (dataset s3)) cleanup s3 with
        | (Raise e, s4) => (Raise e, s4)
        | (Ok _, s4) =>
            if save s4
            then to_csv (predictions_csv s4) (predictions_df s4) s4
            else (Ok tt, s4)
        end
    end.
Proof.
  unfold run_engine_dataset, prepared, checkpoint, results_path.
  unfold bind at 1. unfold get at 1. unfold bind at 1.
  set (s1 := if save self then _ else self).
  assert ((if save self
           then modify (set_result_paths
                  (path_join package_dir ["data/results/engine"; run_id self])
                  (path_join
                     (path_join package_dir
                        ["data/results/engine"; run_id self])
                     ["results.csv"]))
           else ret ()) self = (Ok tt, s1)) as ->
    by (subst s1; by destruct (save self)).
  unfold bind at 1. unfold get at 1. unfold bind at 1.
  destruct (isfile s1 (predictions_csv s1) && resume s1).
  - unfold bind at 1. pose proof (read_csv_state (predictions_csv s1) s1) as Hst.
    destruct (read_csv (predictions_csv s1) s1) as [[df|e] s2];
      cbn in Hst; subst s2; [|done].
    cbn. unfold bind at 1. unfold get at 1. unfold bind at 1.
    destruct (try_finally _ _ _) as [[[]|e] s4]; [|done].
    unfold bind, get, ret. by destruct (save s4).
  - cbn. unfold bind at 1. unfold get at 1. unfold bind at 1.
    destruct (try_finally _ _ _) as [[[]|e] s4]; [|done].
    unfold bind, get, ret. by destruct (save s4).
Qed.

(** X18.  Without [save], [run_engine_dataset] makes no [to_csv]
    call and creates no file, whatever happens in the loop: the
    journal is unchanged and every file present afterwards was
    there before with the same content. *)
Theorem run_engine_dataset_without_save (self : t) :
  save self = false ->
  csv_writes (run_engine_dataset self).2 = csv_writes self /\
  fs (run_engine_dataset self).2 ⊆ fs self.
Proof.
  intros Hsave. rewrite run_engine_dataset_steps. cbv zeta.
  unfold prepared. rewrite Hsave.
  destruct (checkpoint self) as [df|e]; [|done].
  set (s3 := set_predictions_df df self).
  assert (Hs3 : save s3 = false /\ fs s3 = fs self /\
                csv_writes s3 = csv_writes self)
    by (subst s3; by destruct self).
  destruct Hs3 as (Hsv3 & Hfs3 & Hw3).
  pose proof (dataset_loop_grows (dataset s3) s3)
    as ((_ & _ & Hsv & _) & _ & _ & Hq).
  destruct (Hq Hsv3) as [Hfs Hw].
  destruct (guarded_loop_result (dataset s3) s3) as (f & -> & Hf).
  assert (Hsub : f ⊆ fs self).
  { rewrite Hf, Hfs, Hfs3. destruct (needs_deletion s3); [|done].
    destruct (run_model_path s3) as [p|]; [|done].
    unfold after_remove.
    destruct (os_remove_refused p); [done|apply delete_subseteq]. }
  destruct (dataset_loop (dataset s3) s3) as [[[]|e] s4]; cbn in *.
  - assert (save s4 = false) as -> by congruence.
    cbn. split; [destruct s4; cbn in *; congruence|by destruct s4].
  - split; [destruct s4; cbn in *; congruence|by destruct s4].
Qed.

(** X19.  When [run_engine_dataset] returns with [save] set, the
    predictions file is
    [<package>/data/results/engine/<run_id>/results.csv], it holds
    the whole final table, and the last [to_csv] call of the run
    wrote that table to it. *)
Theorem run_engine_dataset_final_write (self after : t) :
  save self = true ->
  run_engine_dataset self = (Ok tt, after) ->
  predictions_csv after = results_path self /\
  fs after !! results_path self
    = Some (CsvFile (csv_as_read (predictions_df after))) /\
  last (csv_writes after) = Some (results_path self, predictions_df after).
Proof.
  intros Hsave. rewrite run_engine_dataset_steps. cbv zeta.
  unfold prepared. rewrite Hsave.
  generalize (results_path self)
    (path_join package_dir ["data/results/engine"; run_id self]).
  intros rp dir.
  set (s1 := set_result_paths dir rp self).
  destruct (checkpoint s1) as [df|e]; [|done].
  set (s3 := set_predictions_df df s1).
  assert (Hs3 : save s3 = true /\ predictions_csv s3 = rp)
    by (subst s3 s1; by destruct self).
  destruct Hs3 as (Hsv3 & Hcsv3).
  pose proof (dataset_loop_grows (dataset s3) s3)
    as ((_ & _ & Hsv & _ & _ & Hcsv & _) & _).
  destruct (guarded_loop_result (dataset s3) s3) as (f & -> & _).
  destruct (dataset_loop (dataset s3) s3) as [[[]|e] s4];
    cbn [fst snd] in *; [|done].
  assert (save (set_world f (csv_writes s4) s4) = true) as ->
    by (destruct s4; cbn in *; congruence).
  unfold to_csv, modify. intros [= <-].
  assert (predictions_csv s4 = rp) as Hrp by congruence.
  destruct s4; cbn in *. subst rp.
  split_and!; [done|by rewrite lookup_insert_eq|by rewrite last_snoc].
Qed.

(** X20.  The checkpoint is read before the [try] block: when
    reading it raises, [run_engine_dataset] raises that exception
    without entering the loop and without running the clean-up, so
    the engine, the table, the files (the exported model included)
    and the journal are as they were. *)
Theorem run_engine_dataset_unreadable_checkpoint (self : t) (e : exn) :
  checkpoint (prepared self) = Raise e ->
  run_engine_dataset self = (Raise e, prepared self) /\
  engine (prepared self) = engine self /\
  predictions_df (prepared self) = predictions_df self /\
  fs (prepared self) = fs self /\
  csv_writes (prepared self) = csv_writes self.
Proof.
  intros Hc. rewrite run_engine_dataset_steps. cbv zeta. rewrite Hc.
  split; [done|]. unfold prepared. destruct (save self); by destruct self.
Qed.

End WholeRun.

(** ** More on the sequence-level metrics *)

(** Python's order on [str] is a total preorder. *)
Lemma ascii_compare_refl (a : ascii) : Ascii.compare a a = Eq.
Proof. unfold Ascii.compare. apply N.compare_refl. Qed.

Lemma ascii_compare_lt_trans (a b c : ascii) :
  Ascii.compare a b = Lt -> Ascii.compare b c = Lt -> Ascii.compare a c = Lt.
Proof.
  unfold Ascii.compare. rewrite !N.compare_lt_iff. apply N.lt_trans.
Qed.

Lemma string_compare_lt_trans (a b c : string) :
  String.compare a b = Lt -> String.compare b c = Lt ->
  String.compare a c = Lt.
Proof.
  revert b c. induction a as [|x a IH]; intros [|y b] [|z c]; cbn;
    try done.
  destruct (Ascii.compare x y) eqn:Hxy; try done;
    destruct (Ascii.compare y z) eqn:Hyz; try done.
  - apply Ascii.compare_eq_iff in Hxy as ->.
    apply Ascii.compare_eq_iff in Hyz as ->.
    rewrite ascii_compare_refl. apply IH.
  - apply Ascii.compare_eq_iff in Hxy as ->. by rewrite Hyz.
  - apply Ascii.compare_eq_iff in Hyz as <-. by rewrite Hxy.
  - by rewrite (ascii_compare_lt_trans x y z).
Qed.

#[global] Instance str_le_trans : Transitive str_le.
Proof.
  intros a b c. unfold str_le, String.leb. intros Hab Hbc.
  destruct (String.compare a b) eqn:Eab; [|clear Hab|done].
  - by apply String.compare_eq_iff in Eab as ->.
  - destruct (String.compare b c) eqn:Ebc; [| |done].
    + apply String.compare_eq_iff in Ebc as <-. by rewrite Eab.
    + by rewrite (string_compare_lt_trans a b c).
Qed.

#[global] Instance str_le_total : Total str_le.
Proof.
  intros a b. unfold str_le.
  destruct (String.leb_total a b) as [->| ->]; [by left|by right].
Qed.

Section MoreSequenceMetrics.
Context {X : EngineEvaluator.Externals}.
Import EngineEvaluator.
Local Open Scope list_scope.


(** Which per-sequence dict a sequence of the table gets. *)
Lemma metric_of_sequence df ms sid r rest :
  sequence_metrics_of (groupby_sequence_id df) = Ok ms ->
  rows_of sid df = r :: rest ->
  exists m,
    m ∈ ms /\ SeqMetric.sequence_id m = sid /\
    SeqMetric.label m = Row.sequence_label r /\
    SeqMetric.has_detection m = existsb Row.prediction (r :: rest) /\
    forall m', m' ∈ ms -> SeqMetric.sequence_id m' = sid -> m' = m.
Proof.
  intros Hms Hrows.
  destruct (sequence_metrics_of_table df ms Hms) as [Hids Hall].
  rewrite Forall_forall in Hall.
  assert (Hsid : sid ∈ (SeqMetric.sequence_id <$> ms)).
  { rewrite Hids. apply group_keys_spec.
    assert (r ∈ rows_of sid df) as Hr by (rewrite Hrows; left).
    apply list_elem_of_filter in Hr as [<- Hr].
    by apply list_elem_of_fmap_2. }
  apply list_elem_of_fmap in Hsid as (m & -> & Hm).
  exists m. pose proof (Hall m Hm) as Heq.
  apply sequence_metric_inv in Heq as Hinv.
  destruct Hinv as (_ & (r' & rest' & Hrows' & Hlbl) & Hdet & _).
  rewrite Hrows in Hrows'. injection Hrows' as <- <-.
  split_and!; try done.
  - by rewrite Hdet, Hrows.
  - intros m' Hm' Hid. pose proof (Hall m' Hm') as Heq'.
    rewrite Hid in Heq'. congruence.
Qed.

Lemma bucket_membership df ms sid r rest (a b : bool) :
  sequence_metrics_of (groupby_sequence_id df) = Ok ms ->
  rows_of sid df = r :: rest ->
  sid ∈ (SeqMetric.sequence_id <$> List.filter (mask a b) ms) <->
  Row.sequence_label r = a /\ existsb Row.prediction (r :: rest) = b.
Proof.
  intros Hms Hrows.
  destruct (metric_of_sequence df ms sid r rest Hms Hrows)
    as (m & Hm & Hid & Hlbl & Hdet & Huniq).
  rewrite <- Hlbl, <- Hdet. rewrite list_elem_of_fmap. split.
  - intros (m' & -> & Hin). apply list_elem_of_In, filter_In in Hin as [Hin Hmask].
    apply list_elem_of_In in Hin. rewrite <- (Huniq m' Hin eq_refl).
    unfold mask in Hmask. apply andb_true_iff in Hmask as [H1 H2].
    by apply Bool.eqb_prop in H1, H2.
  - intros [Ha Hb]. exists m. split; [done|].
    apply list_elem_of_In, filter_In. split; [by apply list_elem_of_In|].
    unfold mask. rewrite Ha, Hb. by rewrite !Bool.eqb_reflx.
Qed.

(** X22.  A sequence of the table is listed under [tp], [fn], [fp]
    or [tn] according to the [sequence_label] of its first row in
    the table and to whether any of its rows has a positive
    prediction; the labels of its other rows play no part. *)
Theorem bucket_of_sequence
    (self : t) (snap : SequenceMetrics.t) (sid : string)
    (r : Row.t) (rest : list Row.t) :
  compute_sequence_level_metrics self = Ok snap ->
  rows_of sid (predictions_df self) = r :: rest ->
  let lbl := Row.sequence_label r in
  let det := existsb Row.prediction (r :: rest) in
  (sid ∈ SequenceMetrics.ids_tp snap <-> lbl = true /\ det = true) /\
  (sid ∈ SequenceMetrics.ids_fn snap <-> lbl = true /\ det = false) /\
  (sid ∈ SequenceMetrics.ids_fp snap <-> lbl = false /\ det = true) /\
  (sid ∈ SequenceMetrics.ids_tn snap <-> lbl = false /\ det = false).
Proof.
  intros (ms & Hms & _ & -> & -> & -> & ->)%compute_sequence_level_metrics_inv
         Hrows.
  cbv zeta.
  split_and!; by apply (bucket_membership (predictions_df self) ms sid r rest).
Qed.

(** The counts of the result. *)
Lemma compute_sequence_level_metrics_counts self snap :
  compute_sequence_level_metrics self = Ok snap ->
  SequenceMetrics.tp snap = length (SequenceMetrics.ids_tp snap) /\
  SequenceMetrics.fp snap = length (SequenceMetrics.ids_fp snap) /\
  SequenceMetrics.fn snap = length (SequenceMetrics.ids_fn snap) /\
  SequenceMetrics.tn snap = length (SequenceMetrics.ids_tn snap).
Proof.
  unfold compute_sequence_level_metrics.
  destruct (sequence_metrics_of _) as [ms|]; [|done].
  destruct ms as [|m0 ms0] eqn:Hms; [done|]. rewrite <- Hms.
  destruct (compute_metrics _ _ _) as [[p r] f].
  intros [= <-]. cbn. by rewrite !length_fmap.
Qed.

(** X23.  The counts [tp], [fp], [fn], [tn] of the result are the
    lengths of the four id lists, and they add up to the number of
    distinct sequence ids of the table. *)
Theorem sequence_counts_add_up (self : t) (snap : SequenceMetrics.t) :
  compute_sequence_level_metrics self = Ok snap ->
  SequenceMetrics.tp snap = length (SequenceMetrics.ids_tp snap) /\
  SequenceMetrics.fp snap = length (SequenceMetrics.ids_fp snap) /\
  SequenceMetrics.fn snap = length (SequenceMetrics.ids_fn snap) /\
  SequenceMetrics.tn snap = length (SequenceMetrics.ids_tn snap) /\
  (SequenceMetrics.tp snap + SequenceMetrics.fp snap +
   SequenceMetrics.fn snap + SequenceMetrics.tn snap)%nat =
    length (remove_dups (Row.sequence_id <$> predictions_df self)).
Proof.
  intros Hc.
  destruct (compute_sequence_level_metrics_counts self snap Hc)
    as (Htp & Hfp & Hfn & Htn).
  split_and!; try done. rewrite Htp, Hfp, Hfn, Htn.
  apply compute_sequence_level_metrics_inv in Hc
    as (ms & Hms & _ & -> & -> & -> & ->).
  destruct (sequence_metrics_of_table _ _ Hms) as [Hids _].
  assert (Hlen : length ms =
    length (remove_dups (Row.sequence_id <$> predictions_df self))).
  { rewrite <- (length_fmap SeqMetric.sequence_id ms), Hids.
    unfold group_keys. by rewrite merge_sort_Permutation. }
  pose proof (masks_partition ms) as Hperm.
  apply Permutation_length in Hperm. rewrite !length_app in Hperm.
  rewrite <- Hlen, !length_fmap. lia.
Qed.

Lemma StronglySorted_fmap_filter {A B} (R : relation B) (f : A -> B)
    (g : A -> bool) (l : list A) :
  StronglySorted R (f <$> l) -> StronglySorted R (f <$> List.filter g l).
Proof.
  induction l as [|x l IH]; cbn; [done|].
  intros [Hs Hall]%StronglySorted_inv.
  destruct (g x); cbn; [|by apply IH].
  constructor; [by apply IH|].
  rewrite Forall_forall in *. intros y Hy. apply Hall.
  apply list_elem_of_fmap in Hy as (z & -> & Hz).
  apply list_elem_of_fmap_2.
  apply list_elem_of_In, filter_In in Hz as [Hz _].
  by apply list_elem_of_In.
Qed.

(** X24.  Each of the four id lists of the result is in ascending
    order of Python's [str] comparison, the order in which
    [groupby] yields its groups. *)
Theorem sequence_id_lists_sorted (self : t) (snap : SequenceMetrics.t) :
  compute_sequence_level_metrics self = Ok snap ->
  StronglySorted str_le (SequenceMetrics.ids_tp snap) /\
  StronglySorted str_le (SequenceMetrics.ids_fn snap) /\
  StronglySorted str_le (SequenceMetrics.ids_fp snap) /\
  StronglySorted str_le (SequenceMetrics.ids_tn snap).
Proof.
  intros (ms & Hms & _ & -> & -> & -> & ->)%compute_sequence_level_metrics_inv.
  destruct (sequence_metrics_of_table _ _ Hms) as [Hids _].
  assert (Hs : StronglySorted str_le (SeqMetric.sequence_id <$> ms)).
  { rewrite Hids. unfold group_keys. apply StronglySorted_merge_sort; apply _. }
  split_and!; by apply StronglySorted_fmap_filter.
Qed.

End MoreSequenceMetrics.

(** ** Properties of [compute_image_level_metrics] and [evaluate] *)

Section EvaluateProperties.
Context {X : EngineEvaluator.Externals} {K : Evaluate.Scoring}.
Import EngineEvaluator Evaluate.
Local Open Scope list_scope.

(** The rows with a given ground truth and a given prediction. *)
Definition rows_with (a b : bool) (df : list Row.t) : list Row.t :=
  List.filter (fun r => Bool.eqb (Row.image_label r) a &&
                        Bool.eqb (Row.prediction r) b) df.

Lemma cell_rows_with a b df :
  cell a b (Row.image_label <$> df) (Row.prediction <$> df)
  = length (rows_with a b df).
Proof.
  unfold cell, rows_with. induction df as [|r df IH]; [done|].
  cbn. destruct (Bool.eqb (Row.image_label r) a && _); cbn; by rewrite IH.
Qed.

Lemma rows_with_total df :
  (length (rows_with false false df) + length (rows_with false true df) +
   length (rows_with true false df) + length (rows_with true true df))%nat
  = length df.
Proof.
  unfold rows_with. induction df as [|r df IH]; [done|]. cbn.
  destruct (Row.image_label r), (Row.prediction r); cbn; lia.
Qed.

(** The matrix, when [confusion_matrix] returns one. *)
Lemma confusion_matrix_inv (df : list Row.t) matrix :
  confusion_matrix (Row.image_label <$> df) (Row.prediction <$> df)
    = Ok matrix ->
  concat matrix =
    [length (rows_with false false df); length (rows_with false true df);
     length (rows_with true false df); length (rows_with true true df)].
Proof.
  unfold confusion_matrix. rewrite <- !cell_rows_with.
  destruct (Row.image_label <$> df), confusion_matrix_rejects_empty;
    try done; by intros [= <-].
Qed.

Lemma confusion_matrix_ok (df : list Row.t) :
  df <> [] \/ confusion_matrix_rejects_empty = None ->
  exists matrix,
    confusion_matrix (Row.image_label <$> df) (Row.prediction <$> df)
      = Ok matrix.
Proof.
  unfold confusion_matrix. intros [Hne| ->].
  - destruct df; [done|]. cbn. eauto.
  - destruct (Row.image_label <$> df); eauto.
Qed.

(** The counts of the result, when [compute_image_level_metrics]
    returns. *)
Lemma compute_image_level_metrics_inv (self : t) im :
  compute_image_level_metrics self = Ok im ->
  precision_score (Row.image_label <$> predictions_df self)
                  (Row.prediction <$> predictions_df self)
    = Ok (ImageMetrics.precision im) /\
  recall_score (Row.image_label <$> predictions_df self)
               (Row.prediction <$> predictions_df self)
    = Ok (ImageMetrics.recall im) /\
  f1_score (Row.image_label <$> predictions_df self)
           (Row.prediction <$> predictions_df self)
    = Ok (ImageMetrics.f1 im) /\
  ImageMetrics.tn im = length (rows_with false false (predictions_df self)) /\
  ImageMetrics.fp im = length (rows_with false true (predictions_df self)) /\
  ImageMetrics.fn im = length (rows_with true false (predictions_df self)) /\
  ImageMetrics.tp im = length (rows_with true true (predictions_df self)).
Proof.
  unfold compute_image_level_metrics.
  destruct (confusion_matrix _ _) as [matrix|] eqn:Hm; [|done].
  rewrite (confusion_matrix_inv _ _ Hm).
  destruct (precision_score _ _) as [p|]; [|done].
  destruct (recall_score _ _) as [r|]; [|done].
  destruct (f1_score _ _) as [f|]; [|done].
  by intros [= <-].
Qed.

(** X25.  [compute_image_level_metrics] raises what
    [confusion_matrix] raises on a table without rows, where
    scikit-learn rejects an empty input; otherwise it returns as soon
    as the three scores are returned.  In the result [tn], [fp],
    [fn] and [tp] count the rows by ground truth [image_label] and
    [prediction] (false/false, false/true, true/false, true/true),
    and add up to the number of rows of the table. *)
Theorem image_confusion_counts (self : t) :
  let df := predictions_df self in
  let y_true := Row.image_label <$> df in
  let y_pred := Row.prediction <$> df in
  (forall e,
     df = [] -> confusion_matrix_rejects_empty = Some e ->
     compute_image_level_metrics self = Raise e) /\
  (forall p r f,
     df <> [] \/ confusion_matrix_rejects_empty = None ->
     precision_score y_true y_pred = Ok p ->
     recall_score y_true y_pred = Ok r ->
     f1_score y_true y_pred = Ok f ->
     exists im, compute_image_level_metrics self = Ok im) /\
  (forall im,
     compute_image_level_metrics self = Ok im ->
     ImageMetrics.tn im = length (rows_with false false df) /\
     ImageMetrics.fp im = length (rows_with false true df) /\
     ImageMetrics.fn im = length (rows_with true false df) /\
     ImageMetrics.tp im = length (rows_with true true df) /\
     (ImageMetrics.tn im + ImageMetrics.fp im +
      ImageMetrics.fn im + ImageMetrics.tp im)%nat = length df).
Proof.
  cbv zeta. split_and!.
  - intros e Hnil He. unfold compute_image_level_metrics, confusion_matrix.
    by rewrite Hnil, He.
  - intros p r f Hok Hp Hr Hf. unfold compute_image_level_metrics.
    destruct (confusion_matrix_ok _ Hok) as [matrix Hm].
    rewrite Hm, (confusion_matrix_inv _ _ Hm), Hp, Hr, Hf. eauto.
  - intros im (_ & _ & _ & -> & -> & -> & ->)%compute_image_level_metrics_inv.
    split_and!; try done. apply rows_with_total.
Qed.

(** What [run_engine_dataset] leaves of the settings [evaluate]
    reads afterwards. *)
Lemma run_engine_dataset_settings self :
  let after := (run_engine_dataset self).2 in
  run_id after = run_id self /\ save after = save self /\
  (save self = true ->
   result_dir after =
     Some (path_join package_dir ["data/results/engine"; run_id self])).
Proof.
  cbv zeta. rewrite run_engine_dataset_steps. cbv zeta.
  assert (Hp : run_id (prepared self) = run_id self /\
               save (prepared self) = save self /\
               (save self = true ->
                result_dir (prepared self) =
                  Some (path_join package_dir
                          ["data/results/engine"; run_id self]))).
  { unfold prepared. destruct (save self) eqn:Hs; [|done].
    generalize (results_path self). intros rp. by destruct self. }
  revert Hp. generalize (prepared self). intros s1 (Hrid & Hsave & Hdir).
  destruct (checkpoint s1) as [df|e]; [|done].
  set (s3 := set_predictions_df df s1).
  assert (Hs3 : run_id s3 = run_id s1 /\ save s3 = save s1 /\
                result_dir s3 = result_dir s1)
    by (subst s3; by destruct s1).
  destruct Hs3 as (Hrid3 & Hsave3 & Hdir3).
  pose proof (dataset_loop_grows (dataset s3) s3)
    as ((_ & _ & Hsv & Hri & _ & _ & _ & _ & Hrd) & _).
  destruct (guarded_loop_result (dataset s3) s3) as (f & -> & _).
  destruct (dataset_loop (dataset s3) s3) as [[[]|e] s4];
    cbn [fst snd] in *.
  - destruct (save (set_world f (csv_writes s4) s4)) eqn:Hs;
      destruct s4; cbn in *; split_and!; try congruence;
      intros Ht; rewrite <- Hdir by done; congruence.
  - destruct s4; cbn in *; split_and!; try congruence.
    intros Ht; rewrite <- Hdir by done; congruence.
Qed.

(** X26.  When the run leaves a table without rows, [evaluate]
    raises, after [run_engine_dataset] has returned (and saved the
    predictions, if [save] is set) and before any metrics file is
    opened: it raises what the image-level metrics raise when they
    do, which is what [confusion_matrix] raises where scikit-learn
    rejects an empty input, and [KeyError] on ['label'] from the
    sequence-level metrics when the image-level metrics are
    returned. *)
Theorem evaluate_empty_table (self after : t) :
  run_engine_dataset self = (Ok tt, after) ->
  predictions_df after = [] ->
  exists e,
    evaluate self = (Raise e, after) /\
    (forall e', compute_image_level_metrics after = Raise e' -> e = e') /\
    (forall e', confusion_matrix_rejects_empty = Some e' -> e = e') /\
    (forall im, compute_image_level_metrics after = Ok im ->
                e = mk_exn KeyError "'label'").
Proof.
  intros Hrun Hnil. unfold evaluate. unfold bind at 1. rewrite Hrun.
  unfold bind at 1. unfold get at 1. unfold bind at 1, lift at 1.
  assert (Hrej : forall e', confusion_matrix_rejects_empty = Some e' ->
            compute_image_level_metrics after = Raise e').
  { intros e' He'. unfold compute_image_level_metrics, confusion_matrix.
    by rewrite Hnil, He'. }
  destruct (compute_image_level_metrics after) as [im|e] eqn:Him.
  - unfold bind at 1, lift at 1.
    unfold compute_sequence_level_metrics. rewrite Hnil. cbn.
    exists (mk_exn KeyError "'label'"). split_and!; try done.
    intros e' He'. by apply Hrej in He'.
  - exists e. split_and!; [done| |by intros e' ?%Hrej; congruence|done].
    by intros e' [= ->].
Qed.

(** X27.  When [evaluate] returns, [run_engine_dataset] returned,
    the result carries the evaluator's [run_id] and the image-level
    and sequence-level metrics of the table the run left; without
    [save] nothing else happened, and with [save] the metrics were
    dumped to [engine_metrics.json] in the run's result
    directory. *)
Theorem evaluate_result (self final : t) (metrics : Metrics.t) :
  evaluate self = (Ok metrics, final) ->
  exists after,
    run_engine_dataset self = (Ok tt, after) /\
    Metrics.run_id metrics = run_id self /\
    compute_image_level_metrics after = Ok (Metrics.image_metrics metrics) /\
    compute_sequence_level_metrics after
      = Ok (Metrics.sequence_metrics metrics) /\
    (save self = false -> final = after) /\
    (save self = true ->
     json_dump metrics = Ok tt /\
     final =
       set_world
         (<[path_join
              (path_join package_dir ["data/results/engine"; run_id self])
              ["engine_metrics.json"] := BinaryFile]> (fs after))
         (csv_writes after) after).
Proof.
  unfold evaluate. unfold bind at 1.
  pose proof (run_engine_dataset_settings self) as Hset. cbv zeta in Hset.
  destruct (run_engine_dataset self) as [[[]|e] after]; [|done].
  cbn [fst snd] in Hset. destruct Hset as (Hrid & Hsave & Hdir).
  unfold bind at 1. unfold get at 1. unfold bind at 1, lift at 1.
  destruct (compute_image_level_metrics after) as [im|e] eqn:Him; [|done].
  unfold bind at 1, lift at 1.
  destruct (compute_sequence_level_metrics after) as [sm|e] eqn:Hsm; [|done].
  rewrite Hsave. destruct (save self) eqn:Hs.
  - rewrite (Hdir eq_refl).
    cbv [bind open_w modify lift ret].
    destruct (json_dump _) as [[]|e] eqn:Hj; [|done].
    intros [= <- <-]. exists after. cbn. by split_and!.
  - cbv [bind ret]. intros [= <- <-]. exists after. cbn. by split_and!.
Qed.

End EvaluateProperties.

(** ** The frame that fails, and the checkpoint of one iteration *)

Section LoopFailure.
Context {X : EngineEvaluator.Externals}.
Import EngineEvaluator.
Local Open Scope list_scope.

Lemma run_engine_sequence_raises self sequence :
  engine_answers (engine self) (Sequence.images sequence) = None ->
  exists e e1,
    run_engine_sequence sequence self = (Raise e, set_engine e1 self).
Proof.
  intros Hnone.
  destruct (run_engine_sequence_state sequence self) as [e1 He1].
  destruct (run_engine_sequence sequence self) as [[rows|e] s1] eqn:Hrun.
  - apply run_engine_sequence_inv in Hrun as (tr & _ & _ & Htr & _).
    congruence.
  - cbn in He1. subst s1. eauto.
Qed.

(** X28.  A frame that fails to load, or on which the engine raises,
    aborts the whole loop: the exception leaves
    [run_engine_sequence] and the loop over the dataset, the rows of
    the frames already processed are dropped, the remaining
    sequences are not run, and only the engine has changed. *)
Theorem frame_failure_aborts_loop
    (self : t) (sequence : Sequence.t) (rest : list Sequence.t) :
  resume self = false \/
  Sequence.sequence_id sequence ∉ (Row.sequence_id <$> predictions_df self) ->
  engine_answers (engine self) (Sequence.images sequence) = None ->
  exists e e1,
    run_engine_sequence sequence self = (Raise e, set_engine e1 self) /\
    dataset_loop (sequence :: rest) self = (Raise e, set_engine e1 self).
Proof.
  intros Hrun Hnone.
  destruct (run_engine_sequence_raises self sequence Hnone)
    as (e & e1 & Hraise).
  exists e, e1. split; [done|].
  cbn [dataset_loop]. unfold bind.
  by rewrite (loop_body_run _ _ Hrun), Hraise.
Qed.

End LoopFailure.

(** ** The further properties at concrete inputs *)

(** Backends built from the three calls [inference] makes, on a
    machine with three local files and no Hugging Face token. *)
Definition backends_with
    (load : CustomImage.t -> outcome string)
    (call_model : unit -> string -> outcome (list (list float)))
    (predict : unit -> string -> float -> float -> Z -> unit ->
               outcome (list (list Model.box)))
  : Model.Backends := {|
  Model.model_obj := unit;
  Model.pil_image := string;
  Model.device_t := unit;
  Model.isfile := fun p =>
    String.eqb p "weights/best.pt" || String.eqb p "weights/best.onnx"
    || String.eqb p "weights/notes.txt";
  Model.Classifier := fun _ _ => Ok tt;
  Model.YOLO := fun _ => Ok tt;
  Model.getenv_HF_TOKEN := None;
  Model.HfFolder_get_token := None;
  Model.hf_hub_download := fun _ _ => Ok tt;
  Model.model_info := fun _ _ => Ok true;
  Model.load := load;
  Model.call_model := call_model;
  Model.predict := predict
|}.

Definition box_1 : Model.box :=
  Model.mk_box (Ok [0.1; 0.2; 0.3; 0.4]%float) (Ok 0.9%float).
Definition box_2 : Model.box :=
  Model.mk_box (Ok [0.5; 0.5; 0.75; 0.75]%float) (Ok 0.25%float).

Definition two_box_backends : Model.Backends :=
  backends_with (fun image => Ok (CustomImage.path image))
    (fun _ _ => Ok []) (fun _ _ _ _ _ _ => Ok [[box_1; box_2]; [box_2]]).

Definition no_result_backends : Model.Backends :=
  backends_with (fun image => Ok (CustomImage.path image))
    (fun _ _ => Ok []) (fun _ _ _ _ _ _ => Ok []).

Definition unreadable_backends : Model.Backends :=
  backends_with
    (fun _ => Raise (mk_exn OtherException "cannot identify image file"))
    (fun _ _ => Ok []) (fun _ _ _ _ _ _ => Ok []).

Definition cpu_only {B : Model.Backends} (d : Model.device_t)
  : ModelInit.Torch := {|
  ModelInit.torch_device := fun _ => Ok d;
  ModelInit.mps_is_available := false;
  ModelInit.cuda_is_available := false;
  ModelInit.model_to := fun _ _ => Ok tt
|}.

Definition no_params : option float * option float * option Z :=
  (None, None, None).

Lemma model_init_rejects_onnx_witness :
  (ModelInit.__init__ (B := two_box_backends) (T := cpu_only (B := two_box_backends) tt)
     (Some "weights/best.onnx") no_params None (ModelInit.blank [])).1 =
  Raise (mk_exn RuntimeError
    "Failed to load the ONNX model from weights/best.onnx: 'Model' object has no attribute 'inference_params'").
Proof.
  apply (model_init_rejects_onnx (B := two_box_backends) (T := cpu_only (B := two_box_backends) tt)
           "weights/best.onnx" no_params None []);
    [discriminate|reflexivity|reflexivity].
Defined.

Lemma model_init_succeeds_only_for_pt_witness :
  exists path m d,
    Some "weights/best.pt" = Some path /\ path <> "" /\
    Model.isfile (Backends := two_box_backends) path = true /\
    endswith path ".onnx" = false /\ endswith path ".pt" = true /\
    Model.YOLO (Backends := two_box_backends) path = Ok m /\
    ModelInit.get_device (T := cpu_only (B := two_box_backends) tt) None = Ok d /\
    ModelInit.model_to (Torch := cpu_only (B := two_box_backends) tt) m d = Ok tt /\
    Model.mk (B := two_box_backends) (Some "weights/best.pt") (Some tt)
      (Some tt) None (Some (Model.set_inference_params None None None))
      [(INFO, "Loading model : weights/best.pt")] =
    Model.mk (Some path) (Some m) (Some d) None
      (Some (Model.set_inference_params None None None))
      ([] ++ [(INFO, ("Loading model : " ++ path)%string)])%list.
Proof.
  apply (model_init_succeeds_only_for_pt (B := two_box_backends)
           (T := cpu_only (B := two_box_backends) tt) (Some "weights/best.pt") no_params None []).
  reflexivity.
Defined.

Lemma model_init_unknown_extension_witness :
  (ModelInit.__init__ (B := two_box_backends) (T := cpu_only (B := two_box_backends) tt)
     (Some "weights/notes.txt") no_params None (ModelInit.blank [])).1 =
  Raise (mk_exn AttributeError "'NoneType' object has no attribute 'to'").
Proof.
  apply (model_init_unknown_extension (B := two_box_backends)
           (T := cpu_only (B := two_box_backends) tt) "weights/notes.txt" no_params None [] tt);
    [discriminate|reflexivity|reflexivity|reflexivity|reflexivity].
Defined.

Lemma load_model_returns_only_local_models_witness :
  let self := model_at (B := two_box_backends)
                (Some "weights/best.pt") None None None in
  exists path,
    Model.model_path self = Some path /\
    Model.isfile (Backends := two_box_backends) path = true /\
    ((endswith path ".onnx" = true /\
      Model.format (Model.load_model self).2 = Some "onnx" /\
      exists ip, Model.inference_params self = Some ip /\
                 Model.Classifier (Backends := two_box_backends)
                   path (Model.p_conf ip) = Ok tt) \/
     (endswith path ".onnx" = false /\ endswith path ".pt" = true /\
      Model.format (Model.load_model self).2 = Some "pt" /\
      Model.YOLO (Backends := two_box_backends) path = Ok tt)).
Proof.
  intros self.
  apply (load_model_returns_only_local_models (B := two_box_backends)
           self (Model.load_model self).2 tt).
  reflexivity.
Defined.

Lemma inference_only_logs_witness :
  let self := model_at (B := no_result_backends)
                (Some "weights/best.pt") (Some tt) (Some tt) None in
  (Model.inference frame_0 self).2 = self \/
  ((Model.inference frame_0 self).1 = Ok [] /\
   exists msg, (Model.inference frame_0 self).2 = logged ERROR msg self).
Proof.
  intros self.
  apply (inference_only_logs (B := no_result_backends) self _ frame_0).
  apply surjective_pairing.
Defined.

Lemma inference_raises_only_witness :
  let self := model_at (B := unreadable_backends)
                (Some "weights/best.pt") (Some tt) (Some tt) None in
  let e := mk_exn OtherException "cannot identify image file" in
  self = self /\
  (Model.load (Backends := unreadable_backends) frame_0 = Raise e \/
   exists pil, Model.load (Backends := unreadable_backends) frame_0 = Ok pil /\
               (Model.inference_body pil self).1 = Raise e /\
               is_Exception e = false).
Proof.
  intros self e.
  apply (inference_raises_only (B := unreadable_backends) self self frame_0 e).
  reflexivity.
Defined.

Lemma inference_formats_first_result_witness :
  let self := model_at (B := two_box_backends)
                (Some "weights/best.pt") (Some tt) (Some tt) None in
  Model.inference frame_0 self =
    (Ok [[0.1; 0.2; 0.3; 0.4; 0.9]; [0.5; 0.5; 0.75; 0.75; 0.25]]%float,
     self).
Proof.
  intros self.
  apply (inference_formats_first_result (B := two_box_backends) self frame_0
           "seq_a/0001.jpg" tt (Model.set_inference_params None None None) tt
           [box_1; box_2] [[box_2]]);
    try reflexivity; [discriminate|].
  repeat constructor; eexists _, _; repeat split; reflexivity.
Defined.

Lemma inference_empty_results_witness :
  let self := model_at (B := no_result_backends)
                (Some "weights/best.pt") (Some tt) (Some tt) None in
  Model.inference frame_0 self =
    (Ok [],
     logged ERROR
       "Inference failed on seq_a/0001.jpg : list index out of range" self).
Proof.
  intros self.
  apply (inference_empty_results (B := no_result_backends) self frame_0
           "seq_a/0001.jpg" tt (Model.set_inference_params None None None) tt);
    try reflexivity. discriminate.
Defined.

(** An [Engine] constructor that wants a float threshold, and an
    exporter that writes next to the [.pt] file. *)
Definition stub_setup : EngineEvaluatorInit.Setup := {|
  EngineEvaluatorInit.Engine_new := fun nb ct mb path =>
    match ct with
    | PyFloat x =>
        Ok (Engine.mk x
              {[ "-1" := {[ "last_predictions" := PyDeque [] (Some 2);
                            "ongoing" := PyBool false ]} ]} PyNone)
    | _ => Raise (mk_exn TypeError "conf_thresh must be a float")
    end;
  EngineEvaluatorInit.export_model := fun path fs =>
    (Ok (path ++ ".onnx"), <[path ++ ".onnx" := BinaryFile]> fs);
  EngineEvaluatorInit.now_stamp := "20240101-120000";
  EngineEvaluatorInit.randint_1000_9999 := 4242
|}.

Example generate_run_id_stub :
  EngineEvaluatorInit.generate_run_id (S := stub_setup)
  = "run-20240101-120000-4242".
Proof. vm_compute. reflexivity. Qed.

Lemma evaluator_init_rejects_other_formats_witness :
  EngineEvaluatorInit.__init__ (S := stub_setup) []
    (<["model_path" := PyStr "weights/best.bin"]> demo_config)
    false None true ∅ =
  (Raise (mk_exn RuntimeError
            "Model format not supported by the Engine : weights/best.bin"),
   ∅).
Proof.
  apply (evaluator_init_rejects_other_formats (S := stub_setup) []
           (<["model_path" := PyStr "weights/best.bin"]> demo_config)
           false true None ∅ "weights/best.bin"); reflexivity.
Defined.

Lemma evaluator_init_missing_key_after_export_witness :
  let config : gmap string pyval :=
    {[ "model_path" := PyStr "weights/best.pt";
       "nb_consecutive_frames" := PyInt 2 ]} in
  exists key,
    key ∈ engine_keys /\ config !! key = None /\
    EngineEvaluatorInit.__init__ (S := stub_setup) [] config false None true ∅
    = (Raise (mk_exn KeyError ("'" ++ key ++ "'")),
       {[ "weights/best.pt.onnx" := BinaryFile ]}).
Proof.
  intros config.
  apply (evaluator_init_missing_key_after_export (S := stub_setup) [] config
           false true None ∅ _ "weights/best.pt" "weights/best.pt.onnx");
    try reflexivity.
  exists "conf_thresh". split; [|reflexivity].
  apply list_elem_of_In. right. left. reflexivity.
Defined.

Definition pt_config : gmap string pyval :=
  <["model_path" := PyStr "weights/best.pt"]> demo_config.

Definition pt_evaluator : EngineEvaluator.t :=
  EngineEvaluator.mk [seq_a] pt_config true "run-20240101-120000-4242" true
    "" true (Some "weights/best.pt.onnx")
    (Engine.mk 0.5
       {[ "-1" := {[ "last_predictions" := PyDeque [] (Some 2);
                     "ongoing" := PyBool false ]} ]} PyNone)
    None [] {[ "weights/best.pt.onnx" := BinaryFile ]} [].

Example evaluator_init_pt :
  EngineEvaluatorInit.__init__ (S := stub_setup) [seq_a] pt_config
    true None true ∅
  = (Ok pt_evaluator, {[ "weights/best.pt.onnx" := BinaryFile ]}).
Proof. vm_compute. reflexivity. Qed.

(** The [finally] block on that evaluator: the exported model is
    removed; where the operating system refuses, the exception is
    swallowed and the file stays. *)
Example cleanup_removes_exported_model :
  let X := stub_externals demo_scores in
  (EngineEvaluator.cleanup pt_evaluator).1 = Ok tt /\
  EngineEvaluator.fs (EngineEvaluator.cleanup pt_evaluator).2 = ∅.
Proof. vm_compute. split; reflexivity. Qed.

Example cleanup_swallows_refusal :
  let X := readonly_externals demo_scores in
  EngineEvaluator.cleanup pt_evaluator = (Ok tt, pt_evaluator).
Proof. vm_compute. reflexivity. Qed.

Lemma evaluator_init_result_witness :
  endswith "weights/best.pt" ".pt" = true /\
  EngineEvaluator.needs_deletion pt_evaluator = true /\
  exists exported,
    EngineEvaluatorInit.export_model (Setup := stub_setup)
      "weights/best.pt" ∅
    = (Ok exported, {[ "weights/best.pt.onnx" := BinaryFile ]}) /\
    EngineEvaluator.run_model_path pt_evaluator = Some exported.
Proof.
  pose proof (evaluator_init_result (S := stub_setup) [seq_a] pt_config
                true true None ∅ {[ "weights/best.pt.onnx" := BinaryFile ]}
                pt_evaluator evaluator_init_pt) as H.
  do 9 destruct H as [_ H]. exact H.
Defined.

Definition bare_evaluator (config : gmap string pyval) : EngineEvaluator.t :=
  EngineEvaluator.mk [] config false "run-1" false "" false None
    used_engine None [] ∅ [].

Lemma run_engine_sequence_missing_window_size_witness :
  let X := stub_externals demo_scores in
  exists e,
    EngineEvaluator.run_engine_sequence seq_a (bare_evaluator ∅) =
      (Raise (mk_exn KeyError "'nb_consecutive_frames'"),
       EngineEvaluator.set_engine e (bare_evaluator ∅)) /\
    Engine._states e =
      {[ "-1" := {[ "last_predictions" :=
                      PyDeque [PyFloat 0.6; PyFloat 0.7] (Some 2);
                    "ongoing" := PyBool true ]} ]}.
Proof.
  intros X. eexists. split.
  - apply (run_engine_sequence_missing_window_size (X := X)
             (bare_evaluator ∅) seq_a).
    + reflexivity.
    + vm_compute. reflexivity.
  - vm_compute. reflexivity.
Defined.

Lemma dataset_loop_resumes_complete_table_witness :
  let X := stub_externals (fun _ => None) in
  let self :=
    demo_evaluator [] false true
      [row_a0; Row.mk "b" "b/0.jpg" false (PyList []) false false 0.1
                      (PyInt 0)] in
  EngineEvaluator.dataset_loop [seq_a; seq_b; seq_a] self = (Ok tt, self).
Proof.
  intros X self.
  apply (dataset_loop_resumes_complete_table (X := X)); [reflexivity|].
  intros sequence Hin. apply list_elem_of_In in Hin. cbn in Hin.
  destruct Hin as [<-|[<-|[<-|[]]]]; apply list_elem_of_In; cbn; tauto.
Defined.

Lemma dataset_loop_adds_one_row_per_frame_witness :
  let X := stub_externals always_09 in
  let self := demo_evaluator [] true false [row_a0] in
  exists after,
    EngineEvaluator.dataset_loop
      [long_sequence "s1" 30; long_sequence "s2" 7; long_sequence "s3" 0] self
    = (Ok tt, after) /\
    length (EngineEvaluator.predictions_df after) = (1 + (30 + (7 + (0 + 0))))%nat.
Proof.
  intros X self.
  apply (dataset_loop_adds_one_row_per_frame (X := X)
           [long_sequence "s1" 30; long_sequence "s2" 7; long_sequence "s3" 0]
           self (PyInt 2) (PyDeque [] (Some 2))); try reflexivity.
  - intros image. eexists. reflexivity.
  - intros e pil. eexists. reflexivity.
Defined.

Lemma run_engine_dataset_without_save_witness :
  let X := stub_externals demo_scores in
  let self := demo_evaluator [seq_a; seq_b] false true [] in
  EngineEvaluator.csv_writes (EngineEvaluator.run_engine_dataset self).2
    = EngineEvaluator.csv_writes self /\
  EngineEvaluator.fs (EngineEvaluator.run_engine_dataset self).2
    ⊆ EngineEvaluator.fs self.
Proof.
  intros X self.
  apply (run_engine_dataset_without_save (X := X) self). reflexivity.
Defined.

Lemma run_engine_dataset_final_write_witness :
  let X := stub_externals demo_scores in
  let self := demo_evaluator [seq_a; seq_b] true true [] in
  let after := (EngineEvaluator.run_engine_dataset self).2 in
  EngineEvaluator.predictions_csv after = results_csv /\
  EngineEvaluator.fs after !! results_csv
    = Some (CsvFile (EngineEvaluator.predictions_df after)) /\
  last (EngineEvaluator.csv_writes after)
    = Some (results_csv, EngineEvaluator.predictions_df after).
Proof.
  intros X self after.
  apply (run_engine_dataset_final_write (X := X) self after);
    [reflexivity|vm_compute; reflexivity].
Defined.

(** A run whose predictions file is not a CSV file: the exported
    model is still there afterwards. *)
Definition broken_checkpoint_evaluator : EngineEvaluator.t :=
  EngineEvaluator.mk [seq_a] demo_config true "run-1" true "" true
    (Some "weights/best.pt.onnx") used_engine None []
    {[ results_csv := BinaryFile; "weights/best.pt.onnx" := BinaryFile ]} [].

Lemma run_engine_dataset_unreadable_checkpoint_witness :
  let X := stub_externals demo_scores in
  let self := broken_checkpoint_evaluator in
  EngineEvaluator.run_engine_dataset self =
    (Raise (mk_exn OtherException "Error tokenizing data"), prepared self) /\
  EngineEvaluator.engine (prepared self) = EngineEvaluator.engine self /\
  EngineEvaluator.predictions_df (prepared self)
    = EngineEvaluator.predictions_df self /\
  EngineEvaluator.fs (prepared self) = EngineEvaluator.fs self /\
  EngineEvaluator.csv_writes (prepared self) = EngineEvaluator.csv_writes self.
Proof.
  intros X self.
  apply (run_engine_dataset_unreadable_checkpoint (X := X) self).
  vm_compute. reflexivity.
Defined.

Definition demo_snapshot : SequenceMetrics.t :=
  SequenceMetrics.mk 0.75 1 (6 / 7) 3 1 0 1 (Some 3500000000)
    ["s1"; "s2"; "s3"] [] ["s4"] ["s5"].

(** Sequence [s1] of [demo_table]: its first row is labelled true
    and its second row is positive. *)
Lemma bucket_of_sequence_witness :
  let X := stub_externals always_09 in
  let r := row_at "s1" true false (PyInt (1 * second)) in
  let rest := [row_at "s1" true true (PyInt (2 * second))] in
  let lbl := Row.sequence_label r in
  let det := existsb Row.prediction (r :: rest) in
  ("s1" ∈ SequenceMetrics.ids_tp demo_snapshot <-> lbl = true /\ det = true) /\
  ("s1" ∈ SequenceMetrics.ids_fn demo_snapshot <-> lbl = true /\ det = false) /\
  ("s1" ∈ SequenceMetrics.ids_fp demo_snapshot <-> lbl = false /\ det = true) /\
  ("s1" ∈ SequenceMetrics.ids_tn demo_snapshot <-> lbl = false /\ det = false).
Proof.
  intros X r rest.
  apply (bucket_of_sequence (X := X)
           (demo_evaluator [] false false demo_table) demo_snapshot "s1"
           r rest); vm_compute; reflexivity.
Defined.

Lemma sequence_counts_add_up_witness :
  let X := stub_externals always_09 in
  SequenceMetrics.tp demo_snapshot = 3%nat /\
  SequenceMetrics.fp demo_snapshot = 1%nat /\
  SequenceMetrics.fn demo_snapshot = 0%nat /\
  SequenceMetrics.tn demo_snapshot = 1%nat /\
  (SequenceMetrics.tp demo_snapshot + SequenceMetrics.fp demo_snapshot +
   SequenceMetrics.fn demo_snapshot + SequenceMetrics.tn demo_snapshot)%nat =
    length (remove_dups (Row.sequence_id <$> demo_table)).
Proof.
  intros X.
  apply (sequence_counts_add_up (X := X)
           (demo_evaluator [] false false demo_table) demo_snapshot).
  vm_compute. reflexivity.
Defined.

Lemma sequence_id_lists_sorted_witness :
  let X := stub_externals always_09 in
  StronglySorted str_le (SequenceMetrics.ids_tp demo_snapshot) /\
  StronglySorted str_le (SequenceMetrics.ids_fn demo_snapshot) /\
  StronglySorted str_le (SequenceMetrics.ids_fp demo_snapshot) /\
  StronglySorted str_le (SequenceMetrics.ids_tn demo_snapshot).
Proof.
  intros X.
  apply (sequence_id_lists_sorted (X := X)
           (demo_evaluator [] false false demo_table) demo_snapshot).
  vm_compute. reflexivity.
Defined.

(** Scores computed from the four counts, and a dump that succeeds;
    [rejects] is what scikit-learn raises on an empty input. *)
Definition scoring_with (rejects : option exn) : Evaluate.Scoring := {|
  Evaluate.confusion_matrix_rejects_empty := rejects;
  Evaluate.precision_score := fun y_true y_pred =>
    match y_true, rejects with
    | [], Some e => Raise e
    | _, _ =>
        Ok (ratio (Evaluate.cell true true y_true y_pred)
                  (Evaluate.cell true true y_true y_pred
                   + Evaluate.cell false true y_true y_pred))
    end;
  Evaluate.recall_score := fun y_true y_pred =>
    match y_true, rejects with
    | [], Some e => Raise e
    | _, _ =>
        Ok (ratio (Evaluate.cell true true y_true y_pred)
                  (Evaluate.cell true true y_true y_pred
                   + Evaluate.cell true false y_true y_pred))
    end;
  Evaluate.f1_score := fun y_true y_pred =>
    match y_true, rejects with
    | [], Some e => Raise e
    | _, _ =>
        Ok (ratio (2 * Evaluate.cell true true y_true y_pred)
                  (2 * Evaluate.cell true true y_true y_pred
                   + Evaluate.cell false true y_true y_pred
                   + Evaluate.cell true false y_true y_pred))
    end;
  Evaluate.json_dump := fun _ => Ok tt
|}.

(** scikit-learn returning the matrix of zeros on an empty input,
    and scikit-learn rejecting it. *)
Definition stub_scoring : Evaluate.Scoring := scoring_with None.

Definition empty_input_error : exn :=
  mk_exn ValueError "Found array with 0 sample(s)".

Definition strict_scoring : Evaluate.Scoring :=
  scoring_with (Some empty_input_error).

Example image_metrics_a_b :
  let X := stub_externals demo_scores in
  Evaluate.compute_image_level_metrics (K := stub_scoring)
    (EngineEvaluator.run_engine_dataset
       (demo_evaluator [seq_a; seq_b] false false [])).2
  = Ok (ImageMetrics.mk 1 1 1 2 0 0 2).
Proof. vm_compute. reflexivity. Qed.

Lemma evaluate_empty_table_witness :
  let X := stub_externals demo_scores in
  let self := demo_evaluator [] true false [] in
  let after := (EngineEvaluator.run_engine_dataset self).2 in
  exists e,
    Evaluate.evaluate (K := strict_scoring) self = (Raise e, after) /\
    (forall e',
       Evaluate.compute_image_level_metrics (K := strict_scoring) after
         = Raise e' -> e = e') /\
    (forall e',
       Evaluate.confusion_matrix_rejects_empty (Scoring := strict_scoring)
         = Some e' -> e = e') /\
    (forall im,
       Evaluate.compute_image_level_metrics (K := strict_scoring) after
         = Ok im -> e = mk_exn KeyError "'label'").
Proof.
  intros X self after.
  apply (evaluate_empty_table (X := X) (K := strict_scoring) self after);
    vm_compute; reflexivity.
Defined.

(** Where scikit-learn rejects an empty input, [evaluate] on a run
    without rows raises its [ValueError]; where it does not, the
    [KeyError] of the sequence-level metrics. *)
Example evaluate_empty_table_strict :
  let X := stub_externals demo_scores in
  let self := demo_evaluator [] true false [] in
  (Evaluate.evaluate (K := strict_scoring) self).1
    = Raise empty_input_error /\
  (Evaluate.evaluate (K := stub_scoring) self).1
    = Raise (mk_exn KeyError "'label'").
Proof. vm_compute. split; reflexivity. Qed.

Example image_metrics_of_empty_table :
  let X := stub_externals demo_scores in
  Evaluate.compute_image_level_metrics (K := strict_scoring)
    (demo_evaluator [] false false []) = Raise empty_input_error /\
  Evaluate.compute_image_level_metrics (K := stub_scoring)
    (demo_evaluator [] false false [])
    = Ok (ImageMetrics.mk 0 0 0 0 0 0 0).
Proof. vm_compute. split; reflexivity. Qed.

Example evaluate_empty_table_saved_csv :
  let X := stub_externals demo_scores in
  let after :=
    (Evaluate.evaluate (K := stub_scoring)
       (demo_evaluator [] true false [])).2 in
  EngineEvaluator.fs after = {[ results_csv := CsvFile [] ]}.
Proof. vm_compute. reflexivity. Qed.

Lemma evaluate_result_witness :
  let X := stub_externals demo_scores in
  let self := demo_evaluator [seq_a; seq_b] true false [] in
  let metrics :=
    Metrics.mk "run-1" (ImageMetrics.mk 1 1 1 2 0 0 2)
      (SequenceMetrics.mk 1 1 1 1 0 0 1 (Some 0) ["a"] [] [] ["b"]) in
  exists after,
    EngineEvaluator.run_engine_dataset self = (Ok tt, after) /\
    Metrics.run_id metrics = EngineEvaluator.run_id self /\
    Evaluate.compute_image_level_metrics (K := stub_scoring) after
      = Ok (Metrics.image_metrics metrics) /\
    EngineEvaluator.compute_sequence_level_metrics after
      = Ok (Metrics.sequence_metrics metrics) /\
    (EngineEvaluator.save self = false ->
     (Evaluate.evaluate (K := stub_scoring) self).2 = after) /\
    (EngineEvaluator.save self = true ->
     Evaluate.json_dump (Scoring := stub_scoring) metrics = Ok tt /\
     (Evaluate.evaluate (K := stub_scoring) self).2 =
       EngineEvaluator.set_world
         (<[path_join
              (path_join EngineEvaluator.package_dir
                 ["data/results/engine"; EngineEvaluator.run_id self])
              ["engine_metrics.json"] := BinaryFile]>
            (EngineEvaluator.fs after))
         (EngineEvaluator.csv_writes after) after).
Proof.
  intros X self metrics.
  apply (evaluate_result (X := X) (K := stub_scoring) self
           (Evaluate.evaluate (K := stub_scoring) self).2 metrics).
  vm_compute. reflexivity.
Defined.

Lemma frame_failure_aborts_loop_witness :
  let X := stub_externals demo_scores in
  let self := demo_evaluator [] true false [row_a0] in
  let bad :=
    Sequence.mk "d" true
      [CustomImage.mk "a/0.jpg" true (PyList []) (PyInt 0);
       CustomImage.mk "d/1.jpg" true (PyList []) (PyInt 0)] in
  exists e e1,
    EngineEvaluator.run_engine_sequence bad self
      = (Raise e, EngineEvaluator.set_engine e1 self) /\
    EngineEvaluator.dataset_loop [bad; seq_b] self
      = (Raise e, EngineEvaluator.set_engine e1 self).
Proof.
  intros X self bad.
  apply (frame_failure_aborts_loop (X := X) self bad [seq_b]).
  - left. reflexivity.
  - vm_compute. reflexivity.
Defined.

Lemma loop_body_checkpoint_witness :
  let X := stub_externals always_09 in
  let self :=
    EngineEvaluator.set_result_paths "out" results_csv
      (demo_evaluator [] true false []) in
  let sequence := long_sequence "s1" 50 in
  EngineEvaluator.csv_writes (EngineEvaluator.loop_body sequence self).2 =
    (EngineEvaluator.csv_writes self ++
     (if EngineEvaluator.save self &&
         (Z.of_nat
            (length
               (EngineEvaluator.predictions_df self ++
                ok_rows (EngineEvaluator.run_engine_sequence sequence self)))
          mod 50 =? 0)
      then [(EngineEvaluator.predictions_csv self,
             EngineEvaluator.predictions_df self ++
             ok_rows (EngineEvaluator.run_engine_sequence sequence self))]
      else []))%list.
Proof.
  intros X self sequence.
  apply (loop_body_checkpoint (X := X) self sequence
           (ok_rows (EngineEvaluator.run_engine_sequence sequence self))
           (EngineEvaluator.run_engine_sequence sequence self).2).
  - left. reflexivity.
  - vm_compute. reflexivity.
Defined.
